(** * EVSE Bricklet: IEC 61851 state machine, charging slots, output control

    A shallow embedding of [iec61851.c], [charging_slot.c] and the output
    part of [evse.c].  The firmware keeps its state in global structs
    ([evse], [iec61851], [ads1118], [contactor_check], [button],
    [charging_slot]) and in two peripherals (the relay pin and the CCU4
    compare register of the CP PWM); here they are the fields of one record
    that every function receives and returns.  Integers are [Z] with the
    wrap-around of the C types written out where a conversion happens. *)

From stdpp Require Import base numbers list.

Local Open Scope Z_scope.

(** ** Machine integers *)

Definition to_uint16 (x : Z) : Z := x mod 65536.
Definition to_uint32 (x : Z) : Z := x mod 4294967296.
Definition is_uint16 (x : Z) : Prop := 0 <= x < 65536.
Definition is_uint32 (x : Z) : Prop := 0 <= x < 4294967296.

(** Modelled from the spec: the macros [MIN], [MAX] and [BETWEEN] come from
    bricklib2's util_definitions.h, which is not under src/.  The spec calls
    them minimum, "raise to at least" and "clamped to [min,max]". *)
Definition MIN (a b : Z) : Z := if a <? b then a else b.
Definition MAX (a b : Z) : Z := if b <? a then a else b.
Definition BETWEEN (lo value hi : Z) : Z := MIN (MAX value lo) hi.

(** ** Constants of iec61851.c *)

Definition IEC61851_CP_RESISTANCE_STATE_A : Z := 10000.
Definition IEC61851_CP_RESISTANCE_STATE_B : Z := 1790.
Definition IEC61851_CP_RESISTANCE_STATE_C : Z := 300.
Definition IEC61851_CP_RESISTANCE_STATE_D : Z := 150.

(** ** Enumerations *)

(** The enumerators are the ones the code names; their numeric values play
    no role. *)

Inductive IEC61851State :=
| IEC61851_STATE_A
| IEC61851_STATE_B
| IEC61851_STATE_C
| IEC61851_STATE_D
| IEC61851_STATE_EF.

#[global] Instance IEC61851State_eq_dec : EqDecision IEC61851State.
Proof. solve_decision. Defined.

(** The jumper settings named in [iec61851_get_ma_from_jumper] and
    [evse_init_jumper]. *)
Inductive JumperCurrent :=
| EVSE_CONFIG_JUMPER_CURRENT_6A
| EVSE_CONFIG_JUMPER_CURRENT_10A
| EVSE_CONFIG_JUMPER_CURRENT_13A
| EVSE_CONFIG_JUMPER_CURRENT_16A
| EVSE_CONFIG_JUMPER_CURRENT_20A
| EVSE_CONFIG_JUMPER_CURRENT_25A
| EVSE_CONFIG_JUMPER_CURRENT_32A
| EVSE_CONFIG_JUMPER_SOFTWARE
| EVSE_CONFIG_JUMPER_UNCONFIGURED.

#[global] Instance JumperCurrent_eq_dec : EqDecision JumperCurrent.
Proof. solve_decision. Defined.

Inductive ButtonState :=
| BUTTON_STATE_RELEASED
| BUTTON_STATE_PRESSED.

#[global] Instance ButtonState_eq_dec : EqDecision ButtonState.
Proof. solve_decision. Defined.

(** Calls into led.c (not under src/) are kept as a log of the calls made. *)
Inductive LedCall :=
| LedSetOn (force : bool)
| LedSetOff
| LedSetBlinking (count : Z)
| LedSetBreathing.

(** ** The global structs *)

(** Modelled from the spec: the struct declarations (evse.h, iec61851.h,
    ads1118.h, contactor_check.h, button.h, charging_slot.h) are not under
    src/.  Each record has the fields that the functions below read or
    write, under the names the code uses.  Their widths follow the spec's
    data model and the way the code uses them: currents, resistances and
    timestamps are unsigned 32-bit values, the counters are small unsigned
    integers. *)

Record EVSE := mkEVSE {
  calibration_state : Z;
  config_jumper_current : JumperCurrent;
  config_jumper_current_software : Z;
  max_current_configured : Z;
  managed : bool;
  max_managed_current : Z;
  charging_autostart : bool;
  charging_time : Z;
  contactor_turn_off_time : Z
}.

Record IEC61851 := mkIEC61851 {
  state : IEC61851State;
  last_state_change : Z;
  id3_mode_time : Z
}.

Record ADS1118 := mkADS1118 {
  cp_pe_resistance : Z;
  pp_pe_resistance : Z;
  cp_invalid_counter : Z;
  pp_invalid_counter : Z
}.

(** [contactor_check.error] and [contactor_check.invalid_counter]. *)
Record ContactorCheck := mkContactorCheck {
  cc_error : Z;
  cc_invalid_counter : Z
}.

(** [button.state] and [button.was_pressed]. *)
Record Button := mkButton {
  btn_state : ButtonState;
  was_pressed : bool
}.

(** The slot table is a struct of parallel arrays, indexed by slot number,
    followed by the stored defaults for the slots from index 2 on.  The C
    arrays have [CHARGING_SLOT_NUM] entries; a write past the end of a
    shorter list changes nothing here, and the statements about writes say
    how long the list has to be. *)
Record ChargingSlot := mkChargingSlot {
  max_current : list Z;
  active : list bool;
  clear_on_disconnect : list bool;
  max_current_default : list Z;
  active_default : list bool;
  clear_on_disconnect_default : list bool
}.

Record System := mkSystem {
  evse : EVSE;
  iec61851 : IEC61851;
  ads1118 : ADS1118;
  contactor_check : ContactorCheck;
  button : Button;
  charging_slot : ChargingSlot;
  relay_pin : bool;          (* level of EVSE_RELAY_PIN *)
  cp_pwm_compare : Z;        (* compare value of the CP PWM slice *)
  system_timer_tick : Z;     (* millisecond counter of the system timer *)
  led_calls : list LedCall
}.

(** What is declared outside src/ and only used here is a parameter: the
    number of slots, the number of stored defaults and the index of the
    button slot (charging_slot.h), and [button_reset] (button.c), which
    reports whether the latch was released and may change the button
    struct. *)
Class Externals := {
  CHARGING_SLOT_NUM : nat;
  CHARGING_SLOT_DEFAULT_NUM : nat;
  CHARGING_SLOT_BUTTON : nat;
  button_reset : Button -> bool * Button
}.

(** Modelled from the spec: charging_slot.h is not under src/; the spec
    puts the incoming cable in slot 0 and the outgoing cable in slot 1. *)
Definition CHARGING_SLOT_INCOMING_CABLE : nat := 0.
Definition CHARGING_SLOT_OUTGOING_CABLE : nat := 1.

(** ** Field updates *)

Definition with_evse (f : EVSE -> EVSE) (s : System) : System :=
  mkSystem (f (evse s)) (iec61851 s) (ads1118 s) (contactor_check s) (button s)
           (charging_slot s) (relay_pin s) (cp_pwm_compare s)
           (system_timer_tick s) (led_calls s).

Definition with_iec61851 (f : IEC61851 -> IEC61851) (s : System) : System :=
  mkSystem (evse s) (f (iec61851 s)) (ads1118 s) (contactor_check s) (button s)
           (charging_slot s) (relay_pin s) (cp_pwm_compare s)
           (system_timer_tick s) (led_calls s).

Definition with_ads1118 (f : ADS1118 -> ADS1118) (s : System) : System :=
  mkSystem (evse s) (iec61851 s) (f (ads1118 s)) (contactor_check s) (button s)
           (charging_slot s) (relay_pin s) (cp_pwm_compare s)
           (system_timer_tick s) (led_calls s).

Definition with_contactor_check (f : ContactorCheck -> ContactorCheck)
    (s : System) : System :=
  mkSystem (evse s) (iec61851 s) (ads1118 s) (f (contactor_check s)) (button s)
           (charging_slot s) (relay_pin s) (cp_pwm_compare s)
           (system_timer_tick s) (led_calls s).

Definition with_button (f : Button -> Button) (s : System) : System :=
  mkSystem (evse s) (iec61851 s) (ads1118 s) (contactor_check s) (f (button s))
           (charging_slot s) (relay_pin s) (cp_pwm_compare s)
           (system_timer_tick s) (led_calls s).

Definition with_charging_slot (f : ChargingSlot -> ChargingSlot)
    (s : System) : System :=
  mkSystem (evse s) (iec61851 s) (ads1118 s) (contactor_check s) (button s)
           (f (charging_slot s)) (relay_pin s) (cp_pwm_compare s)
           (system_timer_tick s) (led_calls s).

Definition with_relay_pin (level : bool) (s : System) : System :=
  mkSystem (evse s) (iec61851 s) (ads1118 s) (contactor_check s) (button s)
           (charging_slot s) level (cp_pwm_compare s)
           (system_timer_tick s) (led_calls s).

Definition with_cp_pwm_compare (v : Z) (s : System) : System :=
  mkSystem (evse s) (iec61851 s) (ads1118 s) (contactor_check s) (button s)
           (charging_slot s) (relay_pin s) v
           (system_timer_tick s) (led_calls s).

Definition with_led_call (c : LedCall) (s : System) : System :=
  mkSystem (evse s) (iec61851 s) (ads1118 s) (contactor_check s) (button s)
           (charging_slot s) (relay_pin s) (cp_pwm_compare s)
           (system_timer_tick s) (led_calls s ++ [c]).

Definition set_charging_time (v : Z) (e : EVSE) : EVSE :=
  mkEVSE (calibration_state e) (config_jumper_current e)
         (config_jumper_current_software e) (max_current_configured e)
         (managed e) (max_managed_current e) (charging_autostart e)
         v (contactor_turn_off_time e).

Definition set_max_managed_current (v : Z) (e : EVSE) : EVSE :=
  mkEVSE (calibration_state e) (config_jumper_current e)
         (config_jumper_current_software e) (max_current_configured e)
         (managed e) v (charging_autostart e)
         (charging_time e) (contactor_turn_off_time e).

Definition set_contactor_turn_off_time (v : Z) (e : EVSE) : EVSE :=
  mkEVSE (calibration_state e) (config_jumper_current e)
         (config_jumper_current_software e) (max_current_configured e)
         (managed e) (max_managed_current e) (charging_autostart e)
         (charging_time e) v.

Definition set_state_and_time (st : IEC61851State) (t : Z) (i : IEC61851)
    : IEC61851 :=
  mkIEC61851 st t (id3_mode_time i).

Definition set_id3_mode_time (v : Z) (i : IEC61851) : IEC61851 :=
  mkIEC61851 (state i) (last_state_change i) v.

Definition set_cp_invalid_counter (v : Z) (a : ADS1118) : ADS1118 :=
  mkADS1118 (cp_pe_resistance a) (pp_pe_resistance a) v (pp_invalid_counter a).

Definition set_pp_invalid_counter (v : Z) (a : ADS1118) : ADS1118 :=
  mkADS1118 (cp_pe_resistance a) (pp_pe_resistance a) (cp_invalid_counter a) v.

Definition set_cc_invalid_counter (v : Z) (c : ContactorCheck)
    : ContactorCheck :=
  mkContactorCheck (cc_error c) v.

Definition set_was_pressed (v : bool) (b : Button) : Button :=
  mkButton (btn_state b) v.

Definition set_max_current (l : list Z) (c : ChargingSlot) : ChargingSlot :=
  mkChargingSlot l (active c) (clear_on_disconnect c)
                 (max_current_default c) (active_default c)
                 (clear_on_disconnect_default c).

Definition set_active (l : list bool) (c : ChargingSlot) : ChargingSlot :=
  mkChargingSlot (max_current c) l (clear_on_disconnect c)
                 (max_current_default c) (active_default c)
                 (clear_on_disconnect_default c).

Definition set_clear_on_disconnect (l : list bool) (c : ChargingSlot)
    : ChargingSlot :=
  mkChargingSlot (max_current c) (active c) l
                 (max_current_default c) (active_default c)
                 (clear_on_disconnect_default c).

(** A function body either returns early or runs on to the code after the
    branch. *)
Inductive Flow :=
| Return (s : System)
| Continue (s : System).

(** ** Collaborators outside src/ *)

(** Modelled from the spec: the system timer of bricklib2 is not under src/.
    The spec gives a millisecond clock and "elapsed since recorded timestamp"
    checks.  The firmware keeps such timestamps in [uint32_t] (see
    [debug_time] in [evse_tick_debug]), so the clock is a 32-bit counter and
    the difference is taken modulo 2^32. *)
Definition system_timer_get_ms (s : System) : Z := system_timer_tick s.

Definition system_timer_is_time_elapsed_ms (start ms : Z) (s : System) : bool :=
  ms <=? to_uint32 (system_timer_get_ms s - start).

(** Modelled from the spec: the GPIO and PWM drivers are not under src/.
    Reading the relay pin gives the level last driven; the PWM slice holds a
    16-bit compare value. *)
Definition XMC_GPIO_GetInput_EVSE_RELAY_PIN (s : System) : bool := relay_pin s.
Definition XMC_GPIO_SetOutputHigh_EVSE_RELAY_PIN : System -> System :=
  with_relay_pin true.
Definition XMC_GPIO_SetOutputLow_EVSE_RELAY_PIN : System -> System :=
  with_relay_pin false.
Definition ccu4_pwm_get_duty_cycle (s : System) : Z := cp_pwm_compare s.
Definition ccu4_pwm_set_duty_cycle (compare_value : Z) : System -> System :=
  with_cp_pwm_compare compare_value.

Definition led_set_on (force : bool) : System -> System :=
  with_led_call (LedSetOn force).
Definition led_set_off : System -> System := with_led_call LedSetOff.
Definition led_set_blinking (count : Z) : System -> System :=
  with_led_call (LedSetBlinking count).
Definition led_set_breathing : System -> System := with_led_call LedSetBreathing.

(** ** evse.c: the output controller *)

Definition evse_get_cp_duty_cycle (s : System) : Z :=
  let duty_cycle := to_uint16 ((64000 - ccu4_pwm_get_duty_cycle s) ÷ 64) in
  duty_cycle.

Definition evse_set_cp_duty_cycle (duty_cycle : Z) (s : System) : System :=
  let contactor_active := XMC_GPIO_GetInput_EVSE_RELAY_PIN s in
  let use_16a :=
    negb contactor_active && negb (duty_cycle =? 0)
    && negb (duty_cycle =? 1000) in
  let duty_cycle := if use_16a then 266 else duty_cycle in
  let current_cp_duty_cycle := evse_get_cp_duty_cycle s in
  let new_cp_duty_cycle := to_uint16 (64000 - duty_cycle * 64) in
  if negb (current_cp_duty_cycle =? duty_cycle) then
    let s :=
      with_ads1118
        (fun a => set_cp_invalid_counter (MAX 2 (cp_invalid_counter a)) a) s in
    ccu4_pwm_set_duty_cycle new_cp_duty_cycle s
  else s.

(** The block of [evse_set_output] that decides whether a switch-off under
    an idle pilot goes ahead ([Continue]) or the function returns. *)
Definition evse_set_output_turn_off_guard (s : System) : Flow :=
  if cp_pe_resistance (ads1118 s) <=? IEC61851_CP_RESISTANCE_STATE_B then
    if contactor_turn_off_time (evse s) =? 0 then
      Return (with_evse
                (set_contactor_turn_off_time (system_timer_get_ms s)) s)
    else if system_timer_is_time_elapsed_ms
              (contactor_turn_off_time (evse s)) (3 * 1000) s then
      Continue (with_evse (set_contactor_turn_off_time 0) s)
    else Return s
  else Continue (with_evse (set_contactor_turn_off_time 0) s).

Definition evse_set_output (cp_duty_cycle : Z) (contactor : bool)
    (s : System) : System :=
  let s := evse_set_cp_duty_cycle cp_duty_cycle s in
  if negb (eqb (XMC_GPIO_GetInput_EVSE_RELAY_PIN s) contactor) then
    let flow :=
      if ((cp_duty_cycle =? 0) || (cp_duty_cycle =? 1000)) && negb contactor
      then evse_set_output_turn_off_guard s
      else Continue s in
    match flow with
    | Return s => s
    | Continue s =>
        let s :=
          with_ads1118
            (fun a => set_cp_invalid_counter (MAX 4 (cp_invalid_counter a)) a)
            s in
        let s :=
          with_ads1118
            (fun a => set_pp_invalid_counter (MAX 4 (pp_invalid_counter a)) a)
            s in
        let s :=
          with_contactor_check
            (fun c => set_cc_invalid_counter (MAX 5 (cc_invalid_counter c)) c)
            s in
        if contactor then XMC_GPIO_SetOutputHigh_EVSE_RELAY_PIN s
        else XMC_GPIO_SetOutputLow_EVSE_RELAY_PIN s
    end
  else s.

(** ** iec61851.c *)

Definition iec61851_set_state (st : IEC61851State) (s : System) : System :=
  if negb (bool_decide (st = state (iec61851 s))) then
    let s :=
      if bool_decide (st = IEC61851_STATE_C) && (charging_time (evse s) =? 0)
      then with_evse (set_charging_time (system_timer_get_ms s)) s
      else s in
    let s :=
      if bool_decide (st = IEC61851_STATE_A)
         || bool_decide (st = IEC61851_STATE_B)
      then led_set_on false s
      else s in
    let s :=
      if negb (bool_decide (state (iec61851 s) = IEC61851_STATE_A))
         && bool_decide (st = IEC61851_STATE_A)
      then
        let s :=
          if negb (charging_autostart (evse s))
          then with_button (set_was_pressed true) s
          else s in
        if managed (evse s)
        then with_evse (set_max_managed_current 0) s
        else s
      else s in
    with_iec61851 (set_state_and_time st (system_timer_get_ms s)) s
  else s.

Definition iec61851_get_ma_from_pp_resistance (s : System) : Z :=
  if 1000 <=? pp_pe_resistance (ads1118 s) then 13000
  else if 330 <=? pp_pe_resistance (ads1118 s) then 20000
  else if 150 <=? pp_pe_resistance (ads1118 s) then 32000
  else 64000.

Definition iec61851_get_ma_from_jumper (s : System) : Z :=
  match config_jumper_current (evse s) with
  | EVSE_CONFIG_JUMPER_CURRENT_6A => 6000
  | EVSE_CONFIG_JUMPER_CURRENT_10A => 10000
  | EVSE_CONFIG_JUMPER_CURRENT_13A => 13000
  | EVSE_CONFIG_JUMPER_CURRENT_16A => 16000
  | EVSE_CONFIG_JUMPER_CURRENT_20A => 20000
  | EVSE_CONFIG_JUMPER_CURRENT_25A => 25000
  | EVSE_CONFIG_JUMPER_CURRENT_32A => 32000
  | EVSE_CONFIG_JUMPER_SOFTWARE => config_jumper_current_software (evse s)
  | _ => 6000
  end.

Definition iec61851_get_max_ma (s : System) : Z :=
  let max_conf_pp_jumper :=
    MIN (max_current_configured (evse s))
        (MIN (iec61851_get_ma_from_pp_resistance s)
             (iec61851_get_ma_from_jumper s)) in
  if managed (evse s)
  then MIN max_conf_pp_jumper (max_managed_current (evse s))
  else max_conf_pp_jumper.

Definition iec61851_get_duty_cycle_for_ma (ma : Z) : Z :=
  if ma =? 0 then 1000
  else
    let duty_cycle := if ma <=? 51000 then ma / 60 else ma / 250 + 640 in
    to_uint16 (BETWEEN 80 duty_cycle 1000).

(** The pilot encoding in the spec's words: 0 is idle, up to 51 A a sixtieth
    of the current, above that a 250th plus 640, kept within [80,1000]. *)
Definition encode_spec (ma : Z) : Z :=
  if ma =? 0 then 1000
  else if ma <=? 51000 then Z.min 1000 (Z.max 80 (ma / 60))
  else Z.min 1000 (Z.max 80 (ma / 250 + 640)).

Section StateMachine.
Context `{Externals}.

Definition iec61851_state_a (s : System) : System :=
  let s := evse_set_output 1000 false s in
  if IEC61851_CP_RESISTANCE_STATE_A <? cp_pe_resistance (ads1118 s) then
    let '(released, b) := button_reset (button s) in
    let s := with_button (fun _ => b) s in
    if released then led_set_on false s else s
  else s.

Definition iec61851_state_b (s : System) : System :=
  let ma := iec61851_get_max_ma s in
  evse_set_output (iec61851_get_duty_cycle_for_ma ma) false s.

Definition iec61851_state_c (s : System) : System :=
  let ma := iec61851_get_max_ma s in
  let s := evse_set_output (iec61851_get_duty_cycle_for_ma ma) true s in
  led_set_breathing s.

Definition iec61851_state_d (s : System) : System :=
  evse_set_output 1000 false s.

Definition iec61851_state_ef (s : System) : System :=
  evse_set_output 1000 false s.

(** The CP classification of [iec61851_tick], from the ID.3 test on. *)
Definition iec61851_tick_classify (s : System) : System :=
  let current_cp_duty_cycle := evse_get_cp_duty_cycle s in
  let id3_mode :=
    negb (current_cp_duty_cycle =? 1000)
    && negb (XMC_GPIO_GetInput_EVSE_RELAY_PIN s) in
  let s := if negb id3_mode then with_iec61851 (set_id3_mode_time 0) s else s in
  let cp := cp_pe_resistance (ads1118 s) in
  if id3_mode && (IEC61851_CP_RESISTANCE_STATE_A * 3 <? cp) then
    if id3_mode_time (iec61851 s) =? 0 then
      with_iec61851 (set_id3_mode_time (system_timer_get_ms s)) s
    else if system_timer_is_time_elapsed_ms (id3_mode_time (iec61851 s)) 500 s
    then iec61851_set_state IEC61851_STATE_A s
    else s
  else if negb id3_mode && (IEC61851_CP_RESISTANCE_STATE_A <? cp) then
    iec61851_set_state IEC61851_STATE_A s
  else if IEC61851_CP_RESISTANCE_STATE_B <? cp then
    iec61851_set_state IEC61851_STATE_B s
  else if IEC61851_CP_RESISTANCE_STATE_C <? cp then
    if managed (evse s) && (max_managed_current (evse s) =? 0)
    then iec61851_set_state IEC61851_STATE_B s
    else iec61851_set_state IEC61851_STATE_C s
  else if IEC61851_CP_RESISTANCE_STATE_D <? cp then
    iec61851_set_state IEC61851_STATE_D (led_set_blinking 5 s)
  else
    iec61851_set_state IEC61851_STATE_EF (led_set_blinking 5 s).

(** The if/else chain at the top of [iec61851_tick]. *)
Definition iec61851_tick_decide (s : System) : Flow :=
  if negb (cc_error (contactor_check s) =? 0) then
    Continue (iec61851_set_state IEC61851_STATE_EF (led_set_blinking 4 s))
  else if bool_decide
            (config_jumper_current (evse s) = EVSE_CONFIG_JUMPER_UNCONFIGURED)
  then
    Continue (iec61851_set_state IEC61851_STATE_EF (led_set_blinking 2 s))
  else if was_pressed (button s) then
    let s := iec61851_set_state IEC61851_STATE_A s in
    Continue (if bool_decide (btn_state (button s) = BUTTON_STATE_PRESSED)
              then led_set_off s else s)
  else if 0 <? cp_invalid_counter (ads1118 s) then
    Return s
  else
    Continue (iec61851_tick_classify s).

Definition iec61851_tick (s : System) : System :=
  if negb (calibration_state (evse s) =? 0) then s
  else
    match iec61851_tick_decide s with
    | Return s => s
    | Continue s =>
        match state (iec61851 s) with
        | IEC61851_STATE_A => iec61851_state_a s
        | IEC61851_STATE_B => iec61851_state_b s
        | IEC61851_STATE_C => iec61851_state_c s
        | IEC61851_STATE_D => iec61851_state_d s
        | IEC61851_STATE_EF => iec61851_state_ef s
        end
    end.

(** ** charging_slot.c *)

Definition charging_slot_get_ma_incoming_cable (s : System) : Z :=
  match config_jumper_current (evse s) with
  | EVSE_CONFIG_JUMPER_CURRENT_6A => 6000
  | EVSE_CONFIG_JUMPER_CURRENT_10A => 10000
  | EVSE_CONFIG_JUMPER_CURRENT_13A => 13000
  | EVSE_CONFIG_JUMPER_CURRENT_16A => 16000
  | EVSE_CONFIG_JUMPER_CURRENT_20A => 20000
  | EVSE_CONFIG_JUMPER_CURRENT_25A => 25000
  | EVSE_CONFIG_JUMPER_CURRENT_32A => 32000
  | EVSE_CONFIG_JUMPER_SOFTWARE => config_jumper_current_software (evse s)
  | _ => 6000
  end.

Definition charging_slot_tick (s : System) : System :=
  with_charging_slot
    (fun c =>
       set_max_current
         (<[CHARGING_SLOT_OUTGOING_CABLE := iec61851_get_ma_from_pp_resistance s]>
            (max_current c)) c) s.

(** One pass of the loop body of [charging_slot_get_max_current]; the
    accumulator is the 16-bit local [max_current]. *)
Definition charging_slot_get_max_current_step (c : ChargingSlot)
    (acc : Z) (i : nat) : Z :=
  let slot_active : bool := active c !!! i in
  let slot_current : Z := max_current c !!! i in
  if slot_active then to_uint16 (MIN acc slot_current) else acc.

Definition charging_slot_get_max_current (s : System) : Z :=
  let max_current :=
    foldl (charging_slot_get_max_current_step (charging_slot s))
          65535 (seq 0 CHARGING_SLOT_NUM) in
  if max_current =? 65535 then 0 else max_current.


(** [charging_slot_init]: the two cable slots, then the defaults copied to
    the slots from index 2 on. *)
Definition charging_slot_init_default (c : ChargingSlot) (i : nat)
    : ChargingSlot :=
  let v : Z := max_current_default c !!! i in
  let a : bool := active_default c !!! i in
  let d : bool := clear_on_disconnect_default c !!! i in
  let c := set_max_current (<[(i + 2)%nat := v]> (max_current c)) c in
  let c := set_active (<[(i + 2)%nat := a]> (active c)) c in
  set_clear_on_disconnect (<[(i + 2)%nat := d]> (clear_on_disconnect c)) c.

Definition charging_slot_init (s : System) : System :=
  let incoming := charging_slot_get_ma_incoming_cable s in
  let outgoing := iec61851_get_ma_from_pp_resistance s in
  with_charging_slot
    (fun c =>
       let c :=
         set_max_current
           (<[CHARGING_SLOT_INCOMING_CABLE := incoming]> (max_current c)) c in
       let c :=
         set_active (<[CHARGING_SLOT_INCOMING_CABLE := true]> (active c)) c in
       let c :=
         set_clear_on_disconnect
           (<[CHARGING_SLOT_INCOMING_CABLE := false]> (clear_on_disconnect c))
           c in
       let c :=
         set_max_current
           (<[CHARGING_SLOT_OUTGOING_CABLE := outgoing]> (max_current c)) c in
       let c :=
         set_active (<[CHARGING_SLOT_OUTGOING_CABLE := true]> (active c)) c in
       let c :=
         set_clear_on_disconnect
           (<[CHARGING_SLOT_OUTGOING_CABLE := false]> (clear_on_disconnect c))
           c in
       foldl charging_slot_init_default c (seq 0 CHARGING_SLOT_DEFAULT_NUM))
    s.

(** ** What the slot arbitration is compared with *)

(** The currents of the active slots, in slot order. *)
Definition active_currents (c : ChargingSlot) : list Z :=
  omap (fun i : nat =>
          let slot_active : bool := active c !!! i in
          let slot_current : Z := max_current c !!! i in
          if slot_active then Some slot_current else None)
       (seq 0 CHARGING_SLOT_NUM).

(** The table as a list of (current, active) pairs, in slot order. *)
Definition slot_entries (c : ChargingSlot) : list (Z * bool) :=
  (fun i : nat => (max_current c !!! i, active c !!! i))
    <$> seq 0 CHARGING_SLOT_NUM.

(** The slot table of the end-to-end scenario: incoming cable 32 A,
    outgoing cable 20 A and button 32 A, all active, and no other active
    slot. *)
Definition end_to_end_slots (c : ChargingSlot) : Prop :=
  (CHARGING_SLOT_OUTGOING_CABLE < CHARGING_SLOT_BUTTON < CHARGING_SLOT_NUM)%nat
  /\ max_current c !! CHARGING_SLOT_INCOMING_CABLE = Some 32000
  /\ active c !! CHARGING_SLOT_INCOMING_CABLE = Some true
  /\ max_current c !! CHARGING_SLOT_OUTGOING_CABLE = Some 20000
  /\ active c !! CHARGING_SLOT_OUTGOING_CABLE = Some true
  /\ max_current c !! CHARGING_SLOT_BUTTON = Some 32000
  /\ active c !! CHARGING_SLOT_BUTTON = Some true
  /\ (forall i : nat,
        (i < CHARGING_SLOT_NUM)%nat ->
        i <> CHARGING_SLOT_INCOMING_CABLE ->
        i <> CHARGING_SLOT_OUTGOING_CABLE ->
        i <> CHARGING_SLOT_BUTTON ->
        active c !! i = Some false).

(** ** The driver loop *)

(** What the environment supplies before a call: the clock reading and the
    CP resistance measured by the ADC. *)
Record Reading := mkReading {
  at_ms : Z;
  cp_ohm : Z
}.

Definition observe (r : Reading) (s : System) : System :=
  mkSystem (evse s) (iec61851 s)
           (mkADS1118 (cp_ohm r) (pp_pe_resistance (ads1118 s))
                      (cp_invalid_counter (ads1118 s))
                      (pp_invalid_counter (ads1118 s)))
           (contactor_check s) (button s) (charging_slot s) (relay_pin s)
           (cp_pwm_compare s) (at_ms r) (led_calls s).

(** A vehicle waiting in state B with the pilot already active: nothing
    overrides the classification, the measurement is valid, the relay is
    open and the pilot sits at the 266 permille used while the contactor is
    open.  This is ID.3 mode at rest. *)
Definition id3_waiting (s : System) : Prop :=
  calibration_state (evse s) = 0
  /\ cc_error (contactor_check s) = 0
  /\ config_jumper_current (evse s) <> EVSE_CONFIG_JUMPER_UNCONFIGURED
  /\ was_pressed (button s) = false
  /\ cp_invalid_counter (ads1118 s) = 0
  /\ state (iec61851 s) = IEC61851_STATE_B
  /\ relay_pin s = false
  /\ evse_get_cp_duty_cycle s = 266
  /\ iec61851_get_duty_cycle_for_ma (iec61851_get_max_ma s) <> 1000.

(** One [iec61851_tick] per reading. *)
Definition iec61851_run (rs : list Reading) (s : System) : System :=
  foldl (fun s r => iec61851_tick (observe r s)) s rs.

End StateMachine.

(** One [evse_set_output] call with the same request per reading. *)
Definition evse_set_output_run (cp_duty_cycle : Z) (contactor : bool)
    (rs : list Reading) (s : System) : System :=
  foldl (fun s r => evse_set_output cp_duty_cycle contactor (observe r s)) s rs.

(** The smallest element of a list, if there is one. *)
Definition minimum (l : list Z) : option Z :=
  match l with
  | [] => None
  | x :: l' => Some (foldr Z.min x l')
  end.

(** ** A concrete board, for examples *)

(** 20 slots, 18 of them with stored defaults, the button slot at index 4,
    and a [button_reset] that clears the latch once the button is up. *)
Definition example_externals : Externals := {|
  CHARGING_SLOT_NUM := 20;
  CHARGING_SLOT_DEFAULT_NUM := 18;
  CHARGING_SLOT_BUTTON := 4;
  button_reset := fun b =>
    if negb (bool_decide (btn_state b = BUTTON_STATE_PRESSED)) && was_pressed b
    then (true, set_was_pressed false b)
    else (false, b)
|}.

(** Slot table of the end-to-end scenario: incoming cable 32 A, outgoing
    cable 20 A, button 32 A, all three active; the other slots inactive. *)
Definition example_slots : ChargingSlot := {|
  max_current := [32000; 20000; 0; 0; 32000] ++ replicate 15 0;
  active := [true; true; false; false; true] ++ replicate 15 false;
  clear_on_disconnect := replicate 20 false;
  max_current_default := replicate 18 32000;
  active_default := replicate 18 false;
  clear_on_disconnect_default := replicate 18 false
|}.

(** A board with a 32 A jumper, a 20 A cable (PP at 500 ohm), unmanaged,
    no fault, button up; the remaining fields are the arguments. *)
Definition example_system (st : IEC61851State) (relay : bool) (compare : Z)
    (cp cp_invalid error now : Z) (slots : ChargingSlot) : System := {|
  evse := {|
    calibration_state := 0;
    config_jumper_current := EVSE_CONFIG_JUMPER_CURRENT_32A;
    config_jumper_current_software := 6000;
    max_current_configured := 32000;
    managed := false;
    max_managed_current := 0;
    charging_autostart := true;
    charging_time := 0;
    contactor_turn_off_time := 0
  |};
  iec61851 := {| state := st; last_state_change := 0; id3_mode_time := 0 |};
  ads1118 := {|
    cp_pe_resistance := cp;
    pp_pe_resistance := 500;
    cp_invalid_counter := cp_invalid;
    pp_invalid_counter := 0
  |};
  contactor_check := {| cc_error := error; cc_invalid_counter := 0 |};
  button := {| btn_state := BUTTON_STATE_RELEASED; was_pressed := false |};
  charging_slot := slots;
  relay_pin := relay;
  cp_pwm_compare := compare;
  system_timer_tick := now;
  led_calls := []
|}.

(** Vehicle connected and waiting (state B): pilot at 266 permille (compare
    value 64000 - 266*64), contactor open. *)
Definition waiting_system (cp now : Z) : System :=
  example_system IEC61851_STATE_B false 46976 cp 0 0 now example_slots.

(** Vehicle charging (state C): pilot at 333 permille, contactor closed. *)
Definition charging_system (cp cp_invalid error now : Z) : System :=
  example_system IEC61851_STATE_C true 42688 cp cp_invalid error now
                 example_slots.

(** ** charging_slot.c: disconnect and button *)

Section SlotOperations.
Context `{Externals}.

(** One pass of the loop body of [charging_slot_handle_disconnect]. *)
Definition charging_slot_handle_disconnect_step (c : ChargingSlot) (i : nat)
    : ChargingSlot :=
  let clear : bool := clear_on_disconnect c !!! i in
  if clear then set_max_current (<[i := 0]> (max_current c)) c else c.

Definition charging_slot_handle_disconnect (s : System) : System :=
  with_charging_slot
    (fun c =>
       foldl charging_slot_handle_disconnect_step c (seq 0 CHARGING_SLOT_NUM))
    s.

Definition charging_slot_stop_charging_by_button (s : System) : System :=
  with_charging_slot
    (fun c => set_max_current (<[CHARGING_SLOT_BUTTON := 0]> (max_current c)) c)
    s.

Definition charging_slot_start_charging_by_button (s : System) : System :=
  let clear : bool :=
    clear_on_disconnect (charging_slot s) !!! CHARGING_SLOT_BUTTON in
  if clear || was_pressed (button s) then s
  else
    with_charging_slot
      (fun c =>
         set_max_current (<[CHARGING_SLOT_BUTTON := 32000]> (max_current c)) c)
      s.

End SlotOperations.

(** ** evse.c: the jumper *)

(** [evse_init_jumper] keeps the level of each pin in a [char]: ['o'] open,
    ['h'] high, ['l'] low, and ['x'] when the two readings fit none. *)
Inductive PinLevel :=
| PIN_x
| PIN_o
| PIN_h
| PIN_l.

(** "Differentiate between high, low and open": the level of a pin from
    its reading with the pull-up and with the pull-down enabled. *)
Definition evse_init_jumper_level (pin_pu pin_pd : bool) : PinLevel :=
  if pin_pu && negb pin_pd then PIN_o
  else if pin_pu && pin_pd then PIN_h
  else if negb pin_pu && negb pin_pd then PIN_l
  else PIN_x.

Definition set_config_jumper_current (v : JumperCurrent) (e : EVSE) : EVSE :=
  mkEVSE (calibration_state e) v
         (config_jumper_current_software e) (max_current_configured e)
         (managed e) (max_managed_current e) (charging_autostart e)
         (charging_time e) (contactor_turn_off_time e).

(** [evse_init_jumper], with the four pin readings as arguments. *)
Definition evse_init_jumper (pin0_pu pin1_pu pin0_pd pin1_pd : bool)
    (s : System) : System :=
  let pin0 := evse_init_jumper_level pin0_pu pin0_pd in
  let pin1 := evse_init_jumper_level pin1_pu pin1_pd in
  let jumper :=
    match pin0, pin1 with
    | PIN_h, PIN_h => EVSE_CONFIG_JUMPER_UNCONFIGURED
    | PIN_o, PIN_h => EVSE_CONFIG_JUMPER_CURRENT_6A
    | PIN_l, PIN_h => EVSE_CONFIG_JUMPER_CURRENT_10A
    | PIN_h, PIN_o => EVSE_CONFIG_JUMPER_CURRENT_13A
    | PIN_o, PIN_o => EVSE_CONFIG_JUMPER_CURRENT_16A
    | PIN_l, PIN_o => EVSE_CONFIG_JUMPER_CURRENT_20A
    | PIN_h, PIN_l => EVSE_CONFIG_JUMPER_CURRENT_25A
    | PIN_o, PIN_l => EVSE_CONFIG_JUMPER_CURRENT_32A
    | PIN_l, PIN_l => EVSE_CONFIG_JUMPER_SOFTWARE
    | _, _ => EVSE_CONFIG_JUMPER_UNCONFIGURED
    end in
  with_evse (set_config_jumper_current jumper) s.

(** ** evse.c: the main tick *)

(** The fields of [evse] that only [evse_tick] looks at, next to the rest
    of the firmware state. *)
Record Firmware := mkFirmware {
  sys : System;
  startup_time : Z;
  factory_reset_time : Z;
  calibration_error : bool;
  communication_watchdog_time : Z
}.

(** [evse_tick] returns, or ends in a system reset: through
    [evse_factory_reset], which first erases the configuration page, or
    through the communication watchdog. *)
Inductive TickOutcome :=
| Returned (f : Firmware)
| FactoryReset (f : Firmware)
| WatchdogReset (f : Firmware).

Definition with_sys (g : System -> System) (f : Firmware) : Firmware :=
  mkFirmware (g (sys f)) (startup_time f) (factory_reset_time f)
             (calibration_error f) (communication_watchdog_time f).

Definition set_startup_time (v : Z) (f : Firmware) : Firmware :=
  mkFirmware (sys f) v (factory_reset_time f)
             (calibration_error f) (communication_watchdog_time f).

Section MainTick.
Context `{Externals}.

Definition evse_tick (f : Firmware) : TickOutcome :=
  if negb (startup_time f =? 0)
     && negb (system_timer_is_time_elapsed_ms (startup_time f) 12000 (sys f))
  then Returned f
  else if negb (factory_reset_time f =? 0)
          && system_timer_is_time_elapsed_ms (factory_reset_time f) 500 (sys f)
  then FactoryReset f
  else
    let f :=
      if negb (startup_time f =? 0)
      then with_sys (led_set_on false) (set_startup_time 0 f)
      else f in
    let f :=
      if negb (calibration_state (evse (sys f)) =? 0) then f
      else if calibration_error f then with_sys (led_set_blinking 3) f
      else with_sys iec61851_tick f in
    if negb (communication_watchdog_time f =? 0)
       && system_timer_is_time_elapsed_ms
            (communication_watchdog_time f) (1000 * 60 * 5) (sys f)
       && bool_decide (state (iec61851 (sys f)) = IEC61851_STATE_A)
    then WatchdogReset f
    else Returned f.

End MainTick.

(** ** What a call leaves alone *)

(** The configuration, the measurements, the clock and the slot table of
    two states agree. *)
Definition same_inputs (s s' : System) : Prop :=
  calibration_state (evse s') = calibration_state (evse s)
  /\ config_jumper_current (evse s') = config_jumper_current (evse s)
  /\ config_jumper_current_software (evse s')
     = config_jumper_current_software (evse s)
  /\ max_current_configured (evse s') = max_current_configured (evse s)
  /\ managed (evse s') = managed (evse s)
  /\ charging_autostart (evse s') = charging_autostart (evse s)
  /\ cp_pe_resistance (ads1118 s') = cp_pe_resistance (ads1118 s)
  /\ pp_pe_resistance (ads1118 s') = pp_pe_resistance (ads1118 s)
  /\ cc_error (contactor_check s') = cc_error (contactor_check s)
  /\ system_timer_tick s' = system_timer_tick s
  /\ charging_slot s' = charging_slot s.

(** Two states that differ at most in the LED log and in the ID.3
    timestamp. *)
Definition same_up_to_led_id3 (s s' : System) : Prop :=
  evse s' = evse s
  /\ ads1118 s' = ads1118 s
  /\ contactor_check s' = contactor_check s
  /\ button s' = button s
  /\ charging_slot s' = charging_slot s
  /\ relay_pin s' = relay_pin s
  /\ cp_pwm_compare s' = cp_pwm_compare s
  /\ system_timer_tick s' = system_timer_tick s
  /\ state (iec61851 s') = state (iec61851 s)
  /\ last_state_change (iec61851 s') = last_state_change (iec61851 s).

(** The arguments with which the actuation of the current state calls
    [evse_set_output]. *)
Definition iec61851_request (s : System) : Z * bool :=
  match state (iec61851 s) with
  | IEC61851_STATE_A => (1000, false)
  | IEC61851_STATE_B =>
      (iec61851_get_duty_cycle_for_ma (iec61851_get_max_ma s), false)
  | IEC61851_STATE_C =>
      (iec61851_get_duty_cycle_for_ma (iec61851_get_max_ma s), true)
  | IEC61851_STATE_D => (1000, false)
  | IEC61851_STATE_EF => (1000, false)
  end.

(** The firmware state in which a call of [evse_tick] ends. *)
Definition outcome_firmware (o : TickOutcome) : Firmware :=
  match o with
  | Returned f => f
  | FactoryReset f => f
  | WatchdogReset f => f
  end.

(** The startup hold of [evse_tick]: the first 12 seconds after
    [evse.startup_time]. *)
Definition in_startup_hold (f : Firmware) : bool :=
  negb (startup_time f =? 0)
  && negb (system_timer_is_time_elapsed_ms (startup_time f) 12000 (sys f)).

(** ** More boards, for examples *)

(** The example slot table with the button slot marked clear-on-disconnect. *)
Definition example_slots_clearing : ChargingSlot :=
  set_clear_on_disconnect
    (<[4%nat := true]> (clear_on_disconnect example_slots)) example_slots.


(** The firmware after startup, the board being [s]: no factory reset
    requested, no calibration error, communication last seen at
    [watchdog]. *)
Definition running_firmware (watchdog : Z) (s : System) : Firmware :=
  mkFirmware s 0 0 false watchdog.

(** * Properties *)

(** ** Macros and machine integers *)

Lemma MIN_min a b : MIN a b = Z.min a b.
Proof. unfold MIN. destruct (Z.ltb_spec a b); lia. Qed.

Lemma MAX_max a b : MAX a b = Z.max a b.
Proof. unfold MAX. destruct (Z.ltb_spec b a); lia. Qed.

Lemma BETWEEN_clamp lo v hi : BETWEEN lo v hi = Z.min hi (Z.max lo v).
Proof. unfold BETWEEN. rewrite MIN_min, MAX_max. lia. Qed.

Lemma to_uint16_small x : is_uint16 x -> to_uint16 x = x.
Proof. intros Hx. apply Z.mod_small, Hx. Qed.

Lemma to_uint16_range x : is_uint16 (to_uint16 x).
Proof. unfold is_uint16, to_uint16. apply Z.mod_pos_bound. lia. Qed.

(** ** The pilot encoding *)

(** The clamp keeps every encoded value a valid permille figure, so the
    conversion to the 16-bit return type changes nothing. *)
Lemma duty_cycle_clamped v :
  to_uint16 (BETWEEN 80 v 1000) = Z.min 1000 (Z.max 80 v)
  /\ 80 <= Z.min 1000 (Z.max 80 v) <= 1000.
Proof.
  rewrite BETWEEN_clamp. split; [|lia].
  apply to_uint16_small. unfold is_uint16. lia.
Qed.

Lemma duty_cycle_nonzero_range ma :
  ma <> 0 -> 80 <= iec61851_get_duty_cycle_for_ma ma <= 1000.
Proof.
  intros Hma. unfold iec61851_get_duty_cycle_for_ma.
  destruct (Z.eqb_spec ma 0) as [|_]; [contradiction|].
  cbv zeta. destruct (duty_cycle_clamped
    (if ma <=? 51000 then ma / 60 else ma / 250 + 640)) as [-> Hr].
  exact Hr.
Qed.

Lemma duty_cycle_is_encode_spec ma :
  iec61851_get_duty_cycle_for_ma ma = encode_spec ma.
Proof.
  unfold iec61851_get_duty_cycle_for_ma, encode_spec.
  destruct (ma =? 0); [reflexivity|]. cbv zeta.
  destruct (ma <=? 51000); apply duty_cycle_clamped.
Qed.

(** C3. For every 32-bit current [ma], the encoding gives 1000 for 0,
    [ma/60] clamped to [80,1000] up to 51000 mA, and [ma/250 + 640] clamped
    to [80,1000] above; every result for a nonzero current lies in
    [80,1000]. *)
Theorem iec61851_get_duty_cycle_for_ma_spec ma :
  is_uint32 ma ->
  (ma = 0 -> iec61851_get_duty_cycle_for_ma ma = 1000)
  /\ (0 < ma <= 51000 ->
      iec61851_get_duty_cycle_for_ma ma = Z.min 1000 (Z.max 80 (ma / 60)))
  /\ (51000 < ma ->
      iec61851_get_duty_cycle_for_ma ma
      = Z.min 1000 (Z.max 80 (ma / 250 + 640)))
  /\ (ma <> 0 -> 80 <= iec61851_get_duty_cycle_for_ma ma <= 1000).
Proof.
  intros _. split; [|split; [|split]].
  - intros ->. reflexivity.
  - intros [Hpos Hle]. rewrite duty_cycle_is_encode_spec. unfold encode_spec.
    destruct (Z.eqb_spec ma 0); [lia|].
    destruct (Z.leb_spec ma 51000); [reflexivity|lia].
  - intros Hgt. rewrite duty_cycle_is_encode_spec. unfold encode_spec.
    destruct (Z.eqb_spec ma 0); [lia|].
    destruct (Z.leb_spec ma 51000); [lia|reflexivity].
  - apply duty_cycle_nonzero_range.
Qed.

(** The three ranges of C3 at 0, 6 A and 60 A. *)
Lemma iec61851_get_duty_cycle_for_ma_spec_witness :
  iec61851_get_duty_cycle_for_ma 0 = 1000
  /\ iec61851_get_duty_cycle_for_ma 6000 = Z.min 1000 (Z.max 80 (6000 / 60))
  /\ iec61851_get_duty_cycle_for_ma 60000
     = Z.min 1000 (Z.max 80 (60000 / 250 + 640))
  /\ 80 <= iec61851_get_duty_cycle_for_ma 6000 <= 1000.
Proof.
  split; [|split; [|split]].
  - apply (iec61851_get_duty_cycle_for_ma_spec 0);
      [unfold is_uint32; lia | reflexivity].
  - apply (iec61851_get_duty_cycle_for_ma_spec 6000);
      [unfold is_uint32; lia | lia].
  - apply (iec61851_get_duty_cycle_for_ma_spec 60000);
      [unfold is_uint32; lia | lia].
  - apply (iec61851_get_duty_cycle_for_ma_spec 6000);
      [unfold is_uint32; lia | lia].
Defined.

(** C8, as stated, fails at 80 A: the encoding gives 960 there, not the
    cap. *)
Lemma iec61851_get_duty_cycle_for_ma_80A_not_capped :
  iec61851_get_duty_cycle_for_ma 80000 <> 1000.
Proof. vm_compute. discriminate. Qed.

(** C8, amended. The encoding at the boundary points: 0 gives 1000, 6000
    gives 100, 51000 gives 850, 51001 gives 844 and 80000 gives 960; every
    nonzero 32-bit current is encoded within [80,1000]. *)
Theorem iec61851_get_duty_cycle_for_ma_boundaries :
  iec61851_get_duty_cycle_for_ma 0 = 1000
  /\ iec61851_get_duty_cycle_for_ma 6000 = 100
  /\ iec61851_get_duty_cycle_for_ma 51000 = 850
  /\ iec61851_get_duty_cycle_for_ma 51001 = 844
  /\ iec61851_get_duty_cycle_for_ma 80000 = 960
  /\ (forall ma, is_uint32 ma -> ma <> 0 ->
        80 <= iec61851_get_duty_cycle_for_ma ma <= 1000).
Proof.
  repeat (split; [reflexivity|]).
  intros ma _. apply duty_cycle_nonzero_range.
Qed.

(** The range part of C8 at 80 A. *)
Lemma iec61851_get_duty_cycle_for_ma_boundaries_witness :
  80 <= iec61851_get_duty_cycle_for_ma 80000 <= 1000.
Proof.
  apply iec61851_get_duty_cycle_for_ma_boundaries;
    [unfold is_uint32; lia | lia].
Defined.

(** ** The pilot PWM *)

(** Writing the compare value for a duty cycle of at most 1000 permille and
    reading it back gives that duty cycle. *)
Lemma cp_duty_cycle_read_back d s :
  0 <= d <= 1000 ->
  evse_get_cp_duty_cycle
    (ccu4_pwm_set_duty_cycle (to_uint16 (64000 - d * 64)) s) = d.
Proof.
  intros Hd. unfold evse_get_cp_duty_cycle, ccu4_pwm_get_duty_cycle,
    ccu4_pwm_set_duty_cycle, with_cp_pwm_compare. cbn.
  rewrite (to_uint16_small (64000 - d * 64)) by (unfold is_uint16; lia).
  replace (64000 - (64000 - d * 64)) with (d * 64) by lia.
  rewrite Z.quot_mul by lia.
  apply to_uint16_small. unfold is_uint16. lia.
Qed.

(** [evse_set_cp_duty_cycle] leaves the relay pin alone. *)
Lemma evse_set_cp_duty_cycle_relay_pin d s :
  relay_pin (evse_set_cp_duty_cycle d s) = relay_pin s.
Proof.
  unfold evse_set_cp_duty_cycle. cbv zeta.
  match goal with |- context [if negb ?b then _ else _] => destruct b end;
    reflexivity.
Qed.

(** What [evse_set_cp_duty_cycle] does once the duty cycle it will use is
    known: nothing if the pilot already shows it, otherwise a write of the
    compare value and a CP blackout of at least two samples. *)
Lemma evse_set_cp_duty_cycle_cases d s :
  let used :=
    if negb (relay_pin s) && negb (d =? 0) && negb (d =? 1000)
    then 266 else d in
  (evse_get_cp_duty_cycle s = used /\ evse_set_cp_duty_cycle d s = s)
  \/ (evse_get_cp_duty_cycle s <> used
      /\ evse_set_cp_duty_cycle d s
         = ccu4_pwm_set_duty_cycle (to_uint16 (64000 - used * 64))
             (with_ads1118
                (fun a =>
                   set_cp_invalid_counter (MAX 2 (cp_invalid_counter a)) a)
                s)).
Proof.
  intros used. unfold evse_set_cp_duty_cycle. cbv zeta.
  unfold XMC_GPIO_GetInput_EVSE_RELAY_PIN. fold used.
  destruct (Z.eqb_spec (evse_get_cp_duty_cycle s) used) as [Heq|Hne];
    [left|right]; split; auto.
Qed.

(** C7. With the contactor off and a request that is neither 0 nor 1000,
    the pilot shows 266 permille after [evse_set_cp_duty_cycle]; with the
    contactor on, or a request of 0 or 1000, it shows the requested value:
    the compare register holds the value computed from the request (or
    already showed it), and for requests up to 1000 permille the duty cycle
    read back is the request. *)
Theorem evse_set_cp_duty_cycle_applied d s :
  is_uint16 d ->
  (relay_pin s = false -> d <> 0 -> d <> 1000 ->
   evse_get_cp_duty_cycle (evse_set_cp_duty_cycle d s) = 266)
  /\ (relay_pin s = true \/ d = 0 \/ d = 1000 ->
      (cp_pwm_compare (evse_set_cp_duty_cycle d s) = to_uint16 (64000 - d * 64)
       \/ (evse_get_cp_duty_cycle s = d
           /\ cp_pwm_compare (evse_set_cp_duty_cycle d s) = cp_pwm_compare s))
      /\ (d <= 1000 ->
          evse_get_cp_duty_cycle (evse_set_cp_duty_cycle d s) = d)).
Proof.
  intros [Hd0 Hd1]. pose proof (evse_set_cp_duty_cycle_cases d s) as Hc.
  cbv zeta in Hc. split.
  - intros Hr Hn0 Hn1. rewrite Hr in Hc.
    destruct (Z.eqb_spec d 0); [contradiction|].
    destruct (Z.eqb_spec d 1000); [contradiction|]. cbn in Hc.
    destruct Hc as [[Hcur ->]|[_ ->]]; [exact Hcur|].
    apply cp_duty_cycle_read_back. lia.
  - intros Hon.
    assert (negb (relay_pin s) && negb (d =? 0) && negb (d =? 1000) = false)
      as Hused.
    { destruct Hon as [->|[->| ->]]; [reflexivity|..];
        destruct (relay_pin s); reflexivity. }
    rewrite Hused in Hc. destruct Hc as [[Hcur Heq]|[_ Heq]]; rewrite Heq.
    + split; [right; auto|]. intros _. exact Hcur.
    + split; [left; reflexivity|]. intros Hle.
      apply cp_duty_cycle_read_back. lia.
Qed.

(** C7 on a board with the contactor open and the pilot idle (compare
    value 0, request 333) and on the charging board (contactor closed,
    request 500). *)
Lemma evse_set_cp_duty_cycle_applied_witness :
  evse_get_cp_duty_cycle
    (evse_set_cp_duty_cycle 333
       (example_system IEC61851_STATE_B false 0 2700 0 0 0 example_slots))
  = 266
  /\ evse_get_cp_duty_cycle
       (evse_set_cp_duty_cycle 500 (charging_system 880 0 0 0)) = 500.
Proof.
  split.
  - apply (evse_set_cp_duty_cycle_applied 333
             (example_system IEC61851_STATE_B false 0 2700 0 0 0
                example_slots));
      [unfold is_uint16; lia | reflexivity | lia | lia].
  - apply (evse_set_cp_duty_cycle_applied 500 (charging_system 880 0 0 0));
      [unfold is_uint16; lia | left; reflexivity | lia].
Defined.

(** ** What the output controller leaves alone *)

Lemma evse_set_cp_duty_cycle_iec61851 d s :
  iec61851 (evse_set_cp_duty_cycle d s) = iec61851 s.
Proof.
  destruct (evse_set_cp_duty_cycle_cases d s) as [[_ ->]|[_ ->]]; reflexivity.
Qed.

Lemma evse_set_cp_duty_cycle_evse d s :
  evse (evse_set_cp_duty_cycle d s) = evse s.
Proof.
  destruct (evse_set_cp_duty_cycle_cases d s) as [[_ ->]|[_ ->]]; reflexivity.
Qed.

Lemma evse_set_cp_duty_cycle_cp_pe_resistance d s :
  cp_pe_resistance (ads1118 (evse_set_cp_duty_cycle d s))
  = cp_pe_resistance (ads1118 s).
Proof.
  destruct (evse_set_cp_duty_cycle_cases d s) as [[_ ->]|[_ ->]]; reflexivity.
Qed.

Lemma evse_set_cp_duty_cycle_timer d s :
  system_timer_tick (evse_set_cp_duty_cycle d s) = system_timer_tick s.
Proof.
  destruct (evse_set_cp_duty_cycle_cases d s) as [[_ ->]|[_ ->]]; reflexivity.
Qed.

Lemma evse_set_output_turn_off_guard_iec61851 s :
  match evse_set_output_turn_off_guard s with
  | Return s' | Continue s' => iec61851 s' = iec61851 s
  end.
Proof.
  unfold evse_set_output_turn_off_guard.
  destruct (cp_pe_resistance (ads1118 s) <=? IEC61851_CP_RESISTANCE_STATE_B);
    [|reflexivity].
  destruct (contactor_turn_off_time (evse s) =? 0); [reflexivity|].
  destruct (system_timer_is_time_elapsed_ms _ _ s); reflexivity.
Qed.

Lemma evse_set_output_iec61851 d c s :
  iec61851 (evse_set_output d c s) = iec61851 s.
Proof.
  unfold evse_set_output. cbv zeta.
  rewrite <- (evse_set_cp_duty_cycle_iec61851 d s).
  generalize (evse_set_cp_duty_cycle d s). intros s1.
  destruct (negb (eqb (XMC_GPIO_GetInput_EVSE_RELAY_PIN s1) c));
    [|reflexivity].
  destruct (((d =? 0) || (d =? 1000)) && negb c).
  - pose proof (evse_set_output_turn_off_guard_iec61851 s1) as Hg.
    destruct (evse_set_output_turn_off_guard s1); [exact Hg|].
    rewrite <- Hg. destruct c; reflexivity.
  - destruct c; reflexivity.
Qed.

Lemma iec61851_set_state_state st s :
  state (iec61851 (iec61851_set_state st s)) = st.
Proof.
  unfold iec61851_set_state.
  destruct (bool_decide_reflect (st = state (iec61851 s))) as [->|_];
    reflexivity.
Qed.

Section Tick.
Context `{Externals}.

Lemma iec61851_state_a_iec61851 s :
  iec61851 (iec61851_state_a s) = iec61851 s.
Proof.
  unfold iec61851_state_a. cbv zeta.
  rewrite <- (evse_set_output_iec61851 1000 false s).
  generalize (evse_set_output 1000 false s). intros s1.
  destruct (IEC61851_CP_RESISTANCE_STATE_A <? cp_pe_resistance (ads1118 s1));
    [|reflexivity].
  destruct (button_reset (button s1)) as [[] b]; reflexivity.
Qed.

(** The per-state actuation never touches the state machine's own struct. *)
Lemma iec61851_actuation_iec61851 s :
  iec61851
    match state (iec61851 s) with
    | IEC61851_STATE_A => iec61851_state_a s
    | IEC61851_STATE_B => iec61851_state_b s
    | IEC61851_STATE_C => iec61851_state_c s
    | IEC61851_STATE_D => iec61851_state_d s
    | IEC61851_STATE_EF => iec61851_state_ef s
    end
  = iec61851 s.
Proof.
  destruct (state (iec61851 s)).
  - apply iec61851_state_a_iec61851.
  - apply evse_set_output_iec61851.
  - unfold iec61851_state_c. cbn. apply evse_set_output_iec61851.
  - apply evse_set_output_iec61851.
  - apply evse_set_output_iec61851.
Qed.

(** When nothing overrides it and the measurement is valid, a tick is the
    CP classification followed by the actuation of the resulting state. *)
Lemma iec61851_tick_classified s :
  calibration_state (evse s) = 0 ->
  cc_error (contactor_check s) = 0 ->
  config_jumper_current (evse s) <> EVSE_CONFIG_JUMPER_UNCONFIGURED ->
  was_pressed (button s) = false ->
  cp_invalid_counter (ads1118 s) = 0 ->
  iec61851 (iec61851_tick s) = iec61851 (iec61851_tick_classify s)
  /\ iec61851_tick s
     = let s := iec61851_tick_classify s in
       match state (iec61851 s) with
       | IEC61851_STATE_A => iec61851_state_a s
       | IEC61851_STATE_B => iec61851_state_b s
       | IEC61851_STATE_C => iec61851_state_c s
       | IEC61851_STATE_D => iec61851_state_d s
       | IEC61851_STATE_EF => iec61851_state_ef s
       end.
Proof.
  intros Hcal Herr Hjmp Hbtn Hinv.
  assert (iec61851_tick s
          = let s := iec61851_tick_classify s in
            match state (iec61851 s) with
            | IEC61851_STATE_A => iec61851_state_a s
            | IEC61851_STATE_B => iec61851_state_b s
            | IEC61851_STATE_C => iec61851_state_c s
            | IEC61851_STATE_D => iec61851_state_d s
            | IEC61851_STATE_EF => iec61851_state_ef s
            end) as Heq.
  { unfold iec61851_tick, iec61851_tick_decide.
    rewrite Hcal, Herr, Hbtn, Hinv. cbn.
    rewrite bool_decide_eq_false_2 by exact Hjmp. reflexivity. }
  split; [|exact Heq].
  rewrite Heq. cbv zeta. apply iec61851_actuation_iec61851.
Qed.

(** C4, as stated, fails when the contactor check reports an error: on a
    charging board with three invalid CP samples pending, the tick moves
    the state from C to EF, stamps the change and drives the pilot from 333
    to 1000 permille. *)
Lemma iec61851_tick_fault_during_blackout :
  let s := charging_system 880 3 1 7777 in
  let s' := @iec61851_tick example_externals s in
  cp_invalid_counter (ads1118 s) = 3
  /\ state (iec61851 s) = IEC61851_STATE_C
  /\ state (iec61851 s') = IEC61851_STATE_EF
  /\ last_state_change (iec61851 s) = 0
  /\ last_state_change (iec61851 s') = 7777
  /\ evse_get_cp_duty_cycle s = 333
  /\ evse_get_cp_duty_cycle s' = 1000.
Proof. vm_compute. repeat split. Qed.

(** C4, amended. With the CP measurement-invalid counter nonzero and no
    override present (no contactor-check error, jumper configured, button
    latch clear), the tick returns the firmware state as it was: charging
    state, last-state-change timestamp, pilot duty cycle and relay are all
    unchanged. *)
Theorem iec61851_tick_blackout_skips s :
  0 < cp_invalid_counter (ads1118 s) ->
  cc_error (contactor_check s) = 0 ->
  config_jumper_current (evse s) <> EVSE_CONFIG_JUMPER_UNCONFIGURED ->
  was_pressed (button s) = false ->
  iec61851_tick s = s.
Proof.
  intros Hinv Herr Hjmp Hbtn. unfold iec61851_tick, iec61851_tick_decide.
  rewrite Herr, Hbtn. cbn.
  rewrite bool_decide_eq_false_2 by exact Hjmp.
  destruct (Z.ltb_spec 0 (cp_invalid_counter (ads1118 s))); [|lia].
  destruct (negb (calibration_state (evse s) =? 0)); reflexivity.
Qed.

(** C10. In ID.3 mode (pilot not at 1000, relay open) a CP reading above
    10000 ohm and up to 30000 ohm is not classified as A: the
    classification falls through to the B threshold and sets state B, and
    a tick that reaches the classification ends in state B. *)
Theorem iec61851_tick_id3_between_thresholds s :
  evse_get_cp_duty_cycle s <> 1000 ->
  relay_pin s = false ->
  IEC61851_CP_RESISTANCE_STATE_A < cp_pe_resistance (ads1118 s)
    <= 3 * IEC61851_CP_RESISTANCE_STATE_A ->
  iec61851_tick_classify s = iec61851_set_state IEC61851_STATE_B s
  /\ state (iec61851 (iec61851_tick_classify s)) = IEC61851_STATE_B
  /\ (calibration_state (evse s) = 0 ->
      cc_error (contactor_check s) = 0 ->
      config_jumper_current (evse s) <> EVSE_CONFIG_JUMPER_UNCONFIGURED ->
      was_pressed (button s) = false ->
      cp_invalid_counter (ads1118 s) = 0 ->
      state (iec61851 (iec61851_tick s)) = IEC61851_STATE_B
      /\ state (iec61851 (iec61851_tick s)) <> IEC61851_STATE_A).
Proof.
  intros Hduty Hrelay [Hlo Hhi].
  assert (iec61851_tick_classify s = iec61851_set_state IEC61851_STATE_B s)
    as Hcls.
  { unfold iec61851_tick_classify, XMC_GPIO_GetInput_EVSE_RELAY_PIN.
    cbv zeta. rewrite Hrelay.
    destruct (Z.eqb_spec (evse_get_cp_duty_cycle s) 1000); [contradiction|].
    cbn [negb andb].
    unfold IEC61851_CP_RESISTANCE_STATE_A, IEC61851_CP_RESISTANCE_STATE_B in *.
    destruct (Z.ltb_spec (10000 * 3) (cp_pe_resistance (ads1118 s))); [lia|].
    destruct (Z.ltb_spec 1790 (cp_pe_resistance (ads1118 s))); [|lia].
    reflexivity. }
  split; [exact Hcls|].
  split; [rewrite Hcls; apply iec61851_set_state_state|].
  intros Hcal Herr Hjmp Hbtn Hinv.
  destruct (iec61851_tick_classified s Hcal Herr Hjmp Hbtn Hinv) as [Hst _].
  rewrite Hst, Hcls, iec61851_set_state_state. split; [reflexivity|].
  discriminate.
Qed.

End Tick.

(** C4 on a charging board with three invalid samples pending and no
    fault. *)
Lemma iec61851_tick_blackout_skips_witness :
  @iec61851_tick example_externals (charging_system 880 3 0 7777)
  = charging_system 880 3 0 7777.
Proof.
  apply (@iec61851_tick_blackout_skips example_externals
           (charging_system 880 3 0 7777));
    [reflexivity | reflexivity | discriminate | reflexivity].
Defined.

(** C10 on the waiting board with a reading of 20000 ohm. *)
Lemma iec61851_tick_id3_between_thresholds_witness :
  state (iec61851 (@iec61851_tick example_externals (waiting_system 20000 0)))
  = IEC61851_STATE_B.
Proof.
  apply (@iec61851_tick_id3_between_thresholds example_externals
           (waiting_system 20000 0));
    [vm_compute; discriminate | reflexivity
    | unfold IEC61851_CP_RESISTANCE_STATE_A; cbn; lia
    | reflexivity | reflexivity | discriminate | reflexivity | reflexivity].
Defined.

(** ** The slot table *)

(** C6, as stated, fails for the incoming-cable slot: on a board with a
    32 A jumper whose slot 0 holds 0, [charging_slot_tick] leaves the 0
    there; only slot 1 is written. *)
Lemma charging_slot_tick_incoming_cable_kept :
  let s :=
    example_system IEC61851_STATE_B false 46976 2700 0 0 0
      (set_max_current (replicate 20 0) example_slots) in
  let s' := charging_slot_tick s in
  max_current (charging_slot s') !! CHARGING_SLOT_INCOMING_CABLE = Some 0
  /\ charging_slot_get_ma_incoming_cable s' = 32000
  /\ max_current (charging_slot s') !! CHARGING_SLOT_OUTGOING_CABLE
     = Some 20000.
Proof. vm_compute. repeat split. Qed.

Lemma iec61851_get_ma_from_pp_resistance_bands s :
  let pp := pp_pe_resistance (ads1118 s) in
  (1000 <= pp -> iec61851_get_ma_from_pp_resistance s = 13000)
  /\ (330 <= pp < 1000 -> iec61851_get_ma_from_pp_resistance s = 20000)
  /\ (150 <= pp < 330 -> iec61851_get_ma_from_pp_resistance s = 32000)
  /\ (pp < 150 -> iec61851_get_ma_from_pp_resistance s = 64000).
Proof.
  cbv zeta. unfold iec61851_get_ma_from_pp_resistance.
  destruct (Z.leb_spec 1000 (pp_pe_resistance (ads1118 s)));
  destruct (Z.leb_spec 330 (pp_pe_resistance (ads1118 s)));
  destruct (Z.leb_spec 150 (pp_pe_resistance (ads1118 s)));
  repeat split; intros; first [reflexivity | lia].
Qed.

(** C6, amended. After every call of [charging_slot_tick] on a table with
    at least two slots, the outgoing-cable slot (slot 1) holds the
    proximity-pilot classification (13/20/32/64 A by band); every other
    slot, the incoming-cable slot among them, and all flags are as before
    the call. *)
Theorem charging_slot_tick_spec s :
  (1 < length (max_current (charging_slot s)))%nat ->
  let s' := charging_slot_tick s in
  let pp := pp_pe_resistance (ads1118 s) in
  max_current (charging_slot s') !! CHARGING_SLOT_OUTGOING_CABLE
  = Some (iec61851_get_ma_from_pp_resistance s)
  /\ ((1000 <= pp -> iec61851_get_ma_from_pp_resistance s = 13000)
      /\ (330 <= pp < 1000 -> iec61851_get_ma_from_pp_resistance s = 20000)
      /\ (150 <= pp < 330 -> iec61851_get_ma_from_pp_resistance s = 32000)
      /\ (pp < 150 -> iec61851_get_ma_from_pp_resistance s = 64000))
  /\ (forall i, i <> CHARGING_SLOT_OUTGOING_CABLE ->
        max_current (charging_slot s') !! i
        = max_current (charging_slot s) !! i)
  /\ max_current (charging_slot s') !! CHARGING_SLOT_INCOMING_CABLE
     = max_current (charging_slot s) !! CHARGING_SLOT_INCOMING_CABLE
  /\ active (charging_slot s') = active (charging_slot s)
  /\ clear_on_disconnect (charging_slot s')
     = clear_on_disconnect (charging_slot s).
Proof.
  intros Hlen. cbv zeta. unfold charging_slot_tick. cbn.
  split; [apply list_lookup_insert_eq; exact Hlen|].
  split; [apply iec61851_get_ma_from_pp_resistance_bands|].
  split; [intros i Hi; apply list_lookup_insert_ne; congruence|].
  split; [apply list_lookup_insert_ne; discriminate|].
  split; reflexivity.
Qed.

(** C6 on the waiting board: slot 1 becomes 20 A, slot 0 stays. *)
Lemma charging_slot_tick_spec_witness :
  let s := waiting_system 2700 0 in
  max_current (charging_slot (charging_slot_tick s)) !! 1%nat = Some 20000
  /\ max_current (charging_slot (charging_slot_tick s)) !! 0%nat
     = max_current (charging_slot s) !! 0%nat.
Proof.
  cbv zeta.
  assert (1 < length (max_current (charging_slot (waiting_system 2700 0))))%nat
    as Hlen by (vm_compute; lia).
  destruct (charging_slot_tick_spec (waiting_system 2700 0) Hlen)
    as (Hout & _ & _ & Hin & _).
  split; [exact Hout | exact Hin].
Defined.

(** The defaults are copied to the slots from index 2 on, so the two cable
    slots keep what [charging_slot_init] wrote first. *)
Lemma charging_slot_init_default_cable_slots c l j :
  (j < 2)%nat ->
  max_current (foldl charging_slot_init_default c l) !! j = max_current c !! j.
Proof.
  intros Hj. revert c. induction l as [|i l IH]; intros c; [reflexivity|].
  cbn [foldl]. rewrite IH. unfold charging_slot_init_default. cbn.
  apply list_lookup_insert_ne. lia.
Qed.

(** [charging_slot_init] is where the incoming-cable slot gets the jumper
    lookup. *)
Lemma charging_slot_init_incoming_cable `{Externals} s :
  (1 < length (max_current (charging_slot s)))%nat ->
  max_current (charging_slot (charging_slot_init s))
    !! CHARGING_SLOT_INCOMING_CABLE
  = Some (charging_slot_get_ma_incoming_cable s)
  /\ max_current (charging_slot (charging_slot_init s))
       !! CHARGING_SLOT_OUTGOING_CABLE
     = Some (iec61851_get_ma_from_pp_resistance s).
Proof.
  intros Hlen. unfold charging_slot_init. cbn.
  rewrite !charging_slot_init_default_cable_slots
    by (unfold CHARGING_SLOT_INCOMING_CABLE, CHARGING_SLOT_OUTGOING_CABLE; lia).
  cbn. split.
  - rewrite list_lookup_insert_ne by discriminate.
    apply list_lookup_insert_eq. unfold CHARGING_SLOT_INCOMING_CABLE. lia.
  - apply list_lookup_insert_eq. rewrite length_insert. exact Hlen.
Qed.

(** ** Arbitration between the slots *)

Lemma foldr_min_init a x l :
  foldr Z.min (Z.min a x) l = Z.min x (foldr Z.min a l).
Proof. induction l as [|y l IH]; cbn; [lia | rewrite IH; lia]. Qed.

Lemma foldr_min_le_init a l : foldr Z.min a l <= a.
Proof. induction l as [|y l IH]; cbn; lia. Qed.

Lemma foldr_min_Permutation a l l' :
  l ≡ₚ l' -> foldr Z.min a l = foldr Z.min a l'.
Proof.
  induction 1 as [|x l l' _ IH|x y l|l l' l'' _ IH1 _ IH2]; cbn.
  - reflexivity.
  - rewrite IH. reflexivity.
  - lia.
  - congruence.
Qed.

(** Folding from a start value is the smaller of the start value and the
    list's minimum. *)
Lemma foldr_min_minimum a l :
  foldr Z.min a l
  = match minimum l with None => a | Some m => Z.min a m end.
Proof.
  destruct l as [|x l]; [reflexivity|]. unfold minimum.
  change (foldr Z.min a (x :: l)) with (Z.min x (foldr Z.min a l)).
  induction l as [|y l IH]; cbn; lia.
Qed.

Lemma foldr_min_lower_bound a x l :
  Forall (Z.le x) l -> x <= a -> x <= foldr Z.min a l.
Proof. intros Hall Hle. induction Hall; cbn; lia. Qed.

(** If a value is in the list, below the start value and a lower bound of
    the list, the fold returns it. *)
Lemma foldr_min_attained a x l :
  x ∈ l -> Forall (Z.le x) l -> x <= a -> foldr Z.min a l = x.
Proof.
  intros Hin Hall Hle.
  pose proof (foldr_min_lower_bound a x l Hall Hle) as Hlb.
  assert (foldr Z.min a l <= x); [|lia].
  clear Hall Hlb. induction Hin as [x l|x y l _ IH]; cbn; [lia|].
  specialize (IH Hle). lia.
Qed.

Section Slots.
Context `{Externals}.

(** The loop of [charging_slot_get_max_current], over any list of indices:
    with nonnegative active currents the 16-bit accumulator ends as the
    smallest of its start value and the active currents met. *)
Lemma charging_slot_get_max_current_loop c l acc :
  0 <= acc <= 65535 ->
  (forall i : nat,
     i ∈ l -> (active c !!! i : bool) = true ->
     0 <= (max_current c !!! i : Z)) ->
  foldl (charging_slot_get_max_current_step c) acc l
  = foldr Z.min acc
      (omap (fun i : nat =>
               let slot_active : bool := active c !!! i in
               let slot_current : Z := max_current c !!! i in
               if slot_active then Some slot_current else None) l).
Proof.
  revert acc. induction l as [|i l IH]; intros acc Hacc Hpos; [reflexivity|].
  cbn [foldl]. rewrite IH.
  - unfold charging_slot_get_max_current_step at 1. cbn [omap list_omap].
    cbv zeta. destruct (active c !!! i) eqn:Ha; [|reflexivity].
    cbn [foldr]. rewrite MIN_min, to_uint16_small.
    + apply foldr_min_init.
    + pose proof (Hpos i ltac:(left) Ha). unfold is_uint16. lia.
  - unfold charging_slot_get_max_current_step. cbv zeta.
    destruct (active c !!! i); [|exact Hacc].
    pose proof (to_uint16_range (MIN acc (max_current c !!! i))) as Hr.
    unfold is_uint16 in Hr. lia.
  - intros j Hj. apply Hpos. right. exact Hj.
Qed.

(** The loop from the sentinel, in terms of the currents of the active
    slots. *)
Lemma charging_slot_get_max_current_active s :
  Forall (Z.le 0) (active_currents (charging_slot s)) ->
  charging_slot_get_max_current s
  = let m := foldr Z.min 65535 (active_currents (charging_slot s)) in
    if m =? 65535 then 0 else m.
Proof.
  intros Hall. unfold charging_slot_get_max_current. cbv zeta.
  rewrite charging_slot_get_max_current_loop; [reflexivity|lia|].
  intros i Hi Ha. rewrite Forall_forall in Hall. apply Hall.
  unfold active_currents. apply list_elem_of_omap. exists i.
  split; [exact Hi|]. cbv zeta. rewrite Ha. reflexivity.
Qed.

Lemma slot_entries_uint32 c i :
  Forall (fun e => is_uint32 e.1) (slot_entries c) ->
  i ∈ seq 0 CHARGING_SLOT_NUM -> 0 <= (max_current c !!! i : Z).
Proof.
  intros Hall Hi. rewrite Forall_forall in Hall.
  assert ((max_current c !!! i, active c !!! i) ∈ slot_entries c) as Hin.
  { unfold slot_entries.
    apply (list_elem_of_fmap_2
             (fun i : nat => ((max_current c !!! i : Z),
                              (active c !!! i : bool)))).
    exact Hi. }
  apply Hall in Hin. apply Hin.
Qed.

Lemma active_currents_slot_entries c :
  active_currents c
  = omap (fun e : Z * bool => if e.2 then Some e.1 else None) (slot_entries c).
Proof.
  unfold active_currents, slot_entries.
  induction (seq 0 CHARGING_SLOT_NUM) as [|i l IH]; [reflexivity|].
  cbn. rewrite IH. reflexivity.
Qed.

(** The arbitration result is the smallest active current capped at the
    16-bit sentinel, and the sentinel reads as "no allowance". *)
Lemma charging_slot_get_max_current_fold s :
  Forall (fun e => is_uint32 e.1) (slot_entries (charging_slot s)) ->
  charging_slot_get_max_current s
  = let m := foldr Z.min 65535 (active_currents (charging_slot s)) in
    if m =? 65535 then 0 else m.
Proof.
  intros Hall. apply charging_slot_get_max_current_active.
  apply Forall_forall. intros x Hx.
  unfold active_currents in Hx. apply list_elem_of_omap in Hx.
  destruct Hx as (i & Hi & Hx). cbv zeta in Hx.
  destruct (active (charging_slot s) !!! i); [|discriminate].
  injection Hx as <-. eapply slot_entries_uint32; eauto.
Qed.

(** C2, as stated, fails at the sentinel: a table whose only active slot
    holds 65535 mA has 65535 as the minimum over its active slots, but the
    function returns 0. *)
Lemma charging_slot_get_max_current_sentinel :
  let s :=
    example_system IEC61851_STATE_B false 46976 2700 0 0 0
      (set_active (true :: replicate 19 false)
         (set_max_current (65535 :: replicate 19 0) example_slots)) in
  minimum (@active_currents example_externals (charging_slot s)) = Some 65535
  /\ @charging_slot_get_max_current example_externals s = 0.
Proof. vm_compute. split; reflexivity. Qed.

(** C2, amended. For every slot table with 32-bit currents,
    [charging_slot_get_max_current] returns the minimum current over the
    active slots when that minimum is below 65535, and 0 when no slot is
    active or the minimum is 65535 or more; the result is the same for any
    table holding the same (current, active) pairs in another order. *)
Theorem charging_slot_get_max_current_spec s :
  Forall (fun e => is_uint32 e.1) (slot_entries (charging_slot s)) ->
  charging_slot_get_max_current s
  = match minimum (active_currents (charging_slot s)) with
    | None => 0
    | Some m => if m <? 65535 then m else 0
    end
  /\ (forall s',
        slot_entries (charging_slot s') ≡ₚ slot_entries (charging_slot s) ->
        charging_slot_get_max_current s' = charging_slot_get_max_current s).
Proof.
  intros Hall. split.
  - rewrite charging_slot_get_max_current_fold by exact Hall. cbv zeta.
    rewrite foldr_min_minimum.
    destruct (minimum (active_currents (charging_slot s))) as [m|];
      [|reflexivity].
    destruct (Z.ltb_spec m 65535), (Z.eqb_spec (Z.min 65535 m) 65535); lia.
  - intros s' Hperm.
    assert (Forall (fun e => is_uint32 e.1) (slot_entries (charging_slot s')))
      as Hall' by (rewrite Hperm; exact Hall).
    rewrite !charging_slot_get_max_current_fold by assumption. cbv zeta.
    rewrite !active_currents_slot_entries.
    rewrite (foldr_min_Permutation 65535 _ _
               (omap_Permutation _ _ _ Hperm)).
    reflexivity.
Qed.

End Slots.

(** C2 on the scenario table: incoming 32 A, outgoing 20 A, button 32 A. *)
Lemma charging_slot_get_max_current_spec_witness :
  @charging_slot_get_max_current example_externals (waiting_system 2700 0)
  = 20000.
Proof.
  assert (Forall (fun e => is_uint32 e.1)
            (@slot_entries example_externals
               (charging_slot (waiting_system 2700 0)))) as Hall.
  { let l := eval vm_compute in
      (@slot_entries example_externals
         (charging_slot (waiting_system 2700 0))) in
    change (Forall (fun e : Z * bool => is_uint32 e.1) l).
    repeat (constructor; [unfold is_uint32; cbn; lia|]). constructor. }
  destruct (@charging_slot_get_max_current_spec example_externals
              (waiting_system 2700 0) Hall) as [Hmin _].
  exact Hmin.
Defined.

(** ** End to end: a vehicle in state B *)

(** A switch-off request with a pilot that is not idle is carried out on
    the same call. *)
Lemma evse_set_output_off_pilot_active d s :
  d <> 0 -> d <> 1000 -> relay_pin (evse_set_output d false s) = false.
Proof.
  intros Hd0 Hd1. unfold evse_set_output. cbv zeta.
  unfold XMC_GPIO_GetInput_EVSE_RELAY_PIN.
  destruct (Z.eqb_spec d 0); [contradiction|].
  destruct (Z.eqb_spec d 1000); [contradiction|]. cbn [orb andb].
  destruct (relay_pin (evse_set_cp_duty_cycle d s)) eqn:Hr; cbn.
  - reflexivity.
  - exact Hr.
Qed.

(** The ceiling of [iec61851_get_max_ma] reads the [evse] struct and the PP
    resistance only. *)
Lemma iec61851_get_max_ma_ext s1 s2 :
  evse s1 = evse s2 ->
  pp_pe_resistance (ads1118 s1) = pp_pe_resistance (ads1118 s2) ->
  iec61851_get_max_ma s1 = iec61851_get_max_ma s2.
Proof.
  intros He Ha.
  unfold iec61851_get_max_ma, iec61851_get_ma_from_pp_resistance,
    iec61851_get_ma_from_jumper.
  rewrite He, Ha. reflexivity.
Qed.

(** Entering state B changes neither the [evse] struct nor the ADC
    readings. *)
Lemma iec61851_set_state_B_frame s :
  evse (iec61851_set_state IEC61851_STATE_B s) = evse s
  /\ ads1118 (iec61851_set_state IEC61851_STATE_B s) = ads1118 s.
Proof.
  unfold iec61851_set_state.
  change (bool_decide (IEC61851_STATE_B = IEC61851_STATE_C)) with false.
  change (bool_decide (IEC61851_STATE_B = IEC61851_STATE_A)) with false.
  change (bool_decide (IEC61851_STATE_B = IEC61851_STATE_B)) with true.
  cbn [andb orb]. rewrite andb_false_r.
  destruct (bool_decide (IEC61851_STATE_B = state (iec61851 s)));
    split; reflexivity.
Qed.

Section EndToEnd.
Context `{Externals}.

(** A CP reading in the B band is classified as B whatever the ID.3 test
    says. *)
Lemma iec61851_tick_classify_band_B s :
  IEC61851_CP_RESISTANCE_STATE_B < cp_pe_resistance (ads1118 s)
    <= IEC61851_CP_RESISTANCE_STATE_A ->
  state (iec61851 (iec61851_tick_classify s)) = IEC61851_STATE_B
  /\ evse (iec61851_tick_classify s) = evse s
  /\ ads1118 (iec61851_tick_classify s) = ads1118 s.
Proof.
  unfold IEC61851_CP_RESISTANCE_STATE_A, IEC61851_CP_RESISTANCE_STATE_B.
  intros [Hlo Hhi]. unfold iec61851_tick_classify. cbv zeta.
  unfold IEC61851_CP_RESISTANCE_STATE_A, IEC61851_CP_RESISTANCE_STATE_B.
  set (id3 := negb (evse_get_cp_duty_cycle s =? 1000)
              && negb (XMC_GPIO_GetInput_EVSE_RELAY_PIN s)).
  set (s1 := if negb id3 then with_iec61851 (set_id3_mode_time 0) s else s).
  assert (cp_pe_resistance (ads1118 s1) = cp_pe_resistance (ads1118 s)
          /\ evse s1 = evse s /\ ads1118 s1 = ads1118 s) as (Hcp & He & Ha).
  { unfold s1. destruct (negb id3); repeat split. }
  rewrite Hcp.
  destruct (Z.ltb_spec (10000 * 3) (cp_pe_resistance (ads1118 s))); [lia|].
  destruct (Z.ltb_spec 10000 (cp_pe_resistance (ads1118 s))); [lia|].
  destruct (Z.ltb_spec 1790 (cp_pe_resistance (ads1118 s))); [|lia].
  rewrite !andb_false_r.
  destruct (iec61851_set_state_B_frame s1) as [He' Ha'].
  rewrite iec61851_set_state_state, He', Ha'. auto.
Qed.

Lemma end_to_end_slots_ceiling s :
  end_to_end_slots (charging_slot s) ->
  charging_slot_get_max_current s = 20000.
Proof.
  intros (Hidx & Hc0 & Ha0 & Hc1 & Ha1 & Hcb & Hab & Hrest).
  apply list_lookup_total_correct in Hc0, Ha0, Hc1, Ha1, Hcb, Hab.
  assert (forall x, x ∈ active_currents (charging_slot s) -> 20000 <= x)
    as Hlow.
  { intros x Hx. unfold active_currents in Hx.
    apply list_elem_of_omap in Hx as (i & Hi & Hx). cbv zeta in Hx.
    apply elem_of_seq in Hi.
    destruct (decide (i = CHARGING_SLOT_INCOMING_CABLE)) as [->|Hn0];
      [rewrite Ha0, Hc0 in Hx; injection Hx as <-; lia|].
    destruct (decide (i = CHARGING_SLOT_OUTGOING_CABLE)) as [->|Hn1];
      [rewrite Ha1, Hc1 in Hx; injection Hx as <-; lia|].
    destruct (decide (i = CHARGING_SLOT_BUTTON)) as [->|Hnb];
      [rewrite Hab, Hcb in Hx; injection Hx as <-; lia|].
    pose proof (Hrest i ltac:(lia) Hn0 Hn1 Hnb) as Hoff.
    apply list_lookup_total_correct in Hoff. rewrite Hoff in Hx.
    discriminate. }
  rewrite charging_slot_get_max_current_active.
  - cbv zeta. rewrite (foldr_min_attained 65535 20000).
    + reflexivity.
    + unfold active_currents. apply list_elem_of_omap.
      exists CHARGING_SLOT_OUTGOING_CABLE. split.
      * apply elem_of_seq. unfold CHARGING_SLOT_OUTGOING_CABLE in *. lia.
      * cbv zeta. rewrite Ha1, Hc1. reflexivity.
    + apply Forall_forall. exact Hlow.
    + lia.
  - apply Forall_forall. intros x Hx. specialize (Hlow x Hx). lia.
Qed.

(** C9, as stated, fails on the duty cycle: in the scenario the ceiling is
    20000 mA and state B asks for 20000/60 = 333 permille, not 334. *)
Lemma end_to_end_state_b_requests_333 :
  let s := waiting_system 2000 0 in
  state (iec61851 (@iec61851_tick example_externals s)) = IEC61851_STATE_B
  /\ iec61851_get_max_ma s = 20000
  /\ @iec61851_state_b s
     = evse_set_output (iec61851_get_duty_cycle_for_ma 20000) false s
  /\ iec61851_get_duty_cycle_for_ma 20000 = 333
  /\ iec61851_get_duty_cycle_for_ma 20000 <> 334.
Proof. vm_compute. repeat split. discriminate. Qed.

(** C9, amended. With a 32 A jumper, a configured maximum of 32000 mA, a
    20 A cable, unmanaged, no fault, the button latch clear, valid
    measurements and the slots incoming 32000, outgoing 20000 and button
    32000 active, a CP resistance of 2000 ohm yields state B, a ceiling of
    20000 mA (from the slots and from [iec61851_get_max_ma] alike), and a
    request of 333 permille with the contactor off; the relay is open
    after the tick. *)
Theorem end_to_end_state_b s :
  calibration_state (evse s) = 0 ->
  cc_error (contactor_check s) = 0 ->
  config_jumper_current (evse s) = EVSE_CONFIG_JUMPER_CURRENT_32A ->
  was_pressed (button s) = false ->
  cp_invalid_counter (ads1118 s) = 0 ->
  managed (evse s) = false ->
  max_current_configured (evse s) = 32000 ->
  330 <= pp_pe_resistance (ads1118 s) < 1000 ->
  cp_pe_resistance (ads1118 s) = 2000 ->
  end_to_end_slots (charging_slot s) ->
  state (iec61851 (iec61851_tick s)) = IEC61851_STATE_B
  /\ charging_slot_get_max_current s = 20000
  /\ iec61851_get_max_ma s = 20000
  /\ iec61851_get_duty_cycle_for_ma (iec61851_get_max_ma s) = 333
  /\ iec61851_tick s = evse_set_output 333 false (iec61851_tick_classify s)
  /\ relay_pin (iec61851_tick s) = false.
Proof.
  intros Hcal Herr Hjmp Hbtn Hinv Hman Hconf Hpp Hcp Hslots.
  assert (config_jumper_current (evse s) <> EVSE_CONFIG_JUMPER_UNCONFIGURED)
    as Hjmp' by (rewrite Hjmp; discriminate).
  destruct (iec61851_tick_classified s Hcal Herr Hjmp' Hbtn Hinv)
    as [Hiec Htick].
  destruct (iec61851_tick_classify_band_B s) as (Hst & He & Ha).
  { rewrite Hcp. unfold IEC61851_CP_RESISTANCE_STATE_A,
      IEC61851_CP_RESISTANCE_STATE_B. lia. }
  assert (iec61851_get_max_ma s = 20000) as Hma.
  { unfold iec61851_get_max_ma, iec61851_get_ma_from_jumper.
    rewrite Hman, Hconf, Hjmp.
    destruct (iec61851_get_ma_from_pp_resistance_bands s) as (_ & Hband & _).
    rewrite (Hband Hpp). reflexivity. }
  assert (iec61851_tick s
          = evse_set_output 333 false (iec61851_tick_classify s)) as Hrun.
  { rewrite Htick. cbv zeta. rewrite Hst. unfold iec61851_state_b.
    rewrite (iec61851_get_max_ma_ext _ s He (f_equal pp_pe_resistance Ha)).
    rewrite Hma. reflexivity. }
  split; [rewrite Hiec; exact Hst|].
  split; [apply end_to_end_slots_ceiling; exact Hslots|].
  split; [exact Hma|].
  split; [rewrite Hma; reflexivity|].
  split; [exact Hrun|].
  rewrite Hrun. apply evse_set_output_off_pilot_active; lia.
Qed.

End EndToEnd.

(** C9 on the waiting board with a CP reading of 2000 ohm. *)
Lemma end_to_end_state_b_witness :
  let s := waiting_system 2000 0 in
  state (iec61851 (@iec61851_tick example_externals s)) = IEC61851_STATE_B
  /\ @charging_slot_get_max_current example_externals s = 20000
  /\ iec61851_get_max_ma s = 20000
  /\ iec61851_get_duty_cycle_for_ma (iec61851_get_max_ma s) = 333
  /\ @iec61851_tick example_externals s
     = evse_set_output 333 false (iec61851_tick_classify s)
  /\ relay_pin (@iec61851_tick example_externals s) = false.
Proof.
  cbv zeta.
  apply (@end_to_end_state_b example_externals (waiting_system 2000 0));
    try reflexivity.
  - cbn. lia.
  - unfold end_to_end_slots, CHARGING_SLOT_INCOMING_CABLE,
      CHARGING_SLOT_OUTGOING_CABLE. cbn -[lookup].
    repeat (split; [first [reflexivity | lia]|]).
    intros i Hi H0 H1 Hb.
    do 20 (destruct i as [|i]; [first [reflexivity | contradiction]|]).
    lia.
Defined.

(** ** Deferred switch-off, call by call *)

(** One switch-off request with an idle pilot on an engaged contactor: it
    is deferred while the car still draws current and fewer than 3000 ms
    have passed since the stored timestamp, and carried out, with the
    timestamp cleared, once the resistance is above the B threshold or the
    stored timestamp is 3000 ms old. *)
Lemma evse_set_output_deferral_cases d s :
  relay_pin s = true ->
  d = 0 \/ d = 1000 ->
  let s' := evse_set_output d false s in
  let cp := cp_pe_resistance (ads1118 s) in
  let t := contactor_turn_off_time (evse s) in
  let waited := to_uint32 (system_timer_tick s - t) in
  (cp <= IEC61851_CP_RESISTANCE_STATE_B -> t = 0 ->
   relay_pin s' = true
   /\ contactor_turn_off_time (evse s') = system_timer_tick s)
  /\ (cp <= IEC61851_CP_RESISTANCE_STATE_B -> t <> 0 -> waited < 3000 ->
      relay_pin s' = true /\ contactor_turn_off_time (evse s') = t)
  /\ (IEC61851_CP_RESISTANCE_STATE_B < cp \/ (t <> 0 /\ 3000 <= waited) ->
      relay_pin s' = false /\ contactor_turn_off_time (evse s') = 0).
Proof.
  intros Hrelay Hidle. cbv zeta.
  unfold evse_set_output, evse_set_output_turn_off_guard,
    system_timer_is_time_elapsed_ms, system_timer_get_ms,
    XMC_GPIO_GetInput_EVSE_RELAY_PIN. cbv zeta.
  rewrite evse_set_cp_duty_cycle_relay_pin, Hrelay.
  rewrite evse_set_cp_duty_cycle_cp_pe_resistance, evse_set_cp_duty_cycle_evse,
    evse_set_cp_duty_cycle_timer.
  assert ((d =? 0) || (d =? 1000) = true) as ->
    by (destruct Hidle as [->| ->]; reflexivity).
  cbn [eqb negb andb].
  pose proof (evse_set_cp_duty_cycle_relay_pin d s) as Hr1.
  pose proof (evse_set_cp_duty_cycle_evse d s) as He1.
  rewrite Hrelay in Hr1.
  change (3 * 1000) with 3000.
  destruct (Z.leb_spec (cp_pe_resistance (ads1118 s))
              IEC61851_CP_RESISTANCE_STATE_B) as [Hcp|Hcp];
  destruct (Z.eqb_spec (contactor_turn_off_time (evse s)) 0) as [Ht|Ht];
  destruct (Z.leb_spec 3000
              (to_uint32 (system_timer_tick s
                          - contactor_turn_off_time (evse s)))) as [Hw|Hw];
    cbn; rewrite ?Hr1, ?He1;
    (split; [|split]); intros; try lia; try tauto; auto.
Qed.

(** A switch-off request on an open contactor leaves it open. *)
Lemma evse_set_output_stays_off d s :
  relay_pin s = false -> relay_pin (evse_set_output d false s) = false.
Proof.
  intros Hrelay. unfold evse_set_output, XMC_GPIO_GetInput_EVSE_RELAY_PIN.
  cbv zeta. rewrite evse_set_cp_duty_cycle_relay_pin, Hrelay. cbn.
  rewrite evse_set_cp_duty_cycle_relay_pin. exact Hrelay.
Qed.

(** While every reading shows the car drawing current and lies less than
    3000 ms after the stored timestamp, the contactor stays engaged and the
    timestamp stays. *)
Lemma evse_set_output_run_pending d t0 rs s :
  d = 0 \/ d = 1000 ->
  t0 <> 0 ->
  relay_pin s = true ->
  contactor_turn_off_time (evse s) = t0 ->
  Forall (fun r => cp_ohm r <= IEC61851_CP_RESISTANCE_STATE_B
                   /\ to_uint32 (at_ms r - t0) < 3000) rs ->
  relay_pin (evse_set_output_run d false rs s) = true
  /\ contactor_turn_off_time (evse (evse_set_output_run d false rs s)) = t0.
Proof.
  intros Hidle Ht0 Hrelay Htime Hall. revert s Hrelay Htime.
  induction Hall as [|r rs [Hcp Hw] _ IH]; intros s Hrelay Htime;
    [split; assumption|].
  unfold evse_set_output_run. cbn [foldl].
  destruct (evse_set_output_deferral_cases d (observe r s) Hrelay Hidle)
    as (_ & Hkeep & _).
  cbn [observe evse ads1118 cp_pe_resistance system_timer_tick] in Hkeep.
  rewrite Htime in Hkeep. destruct (Hkeep Hcp Ht0 Hw) as [Hr' Ht'].
  apply IH; assumption.
Qed.

(** Once a timestamp is stored, any later call that comes 3000 ms or more
    after it finds or leaves the contactor open, whatever was measured in
    between. *)
Lemma evse_set_output_run_expired d t0 rs r s :
  d = 0 \/ d = 1000 ->
  t0 <> 0 ->
  relay_pin s = false
  \/ (relay_pin s = true /\ contactor_turn_off_time (evse s) = t0) ->
  3000 <= to_uint32 (at_ms r - t0) ->
  relay_pin (evse_set_output_run d false (rs ++ [r]) s) = false.
Proof.
  intros Hidle Ht0 Hinv Hlate. revert s Hinv.
  induction rs as [|r1 rs IH]; intros s Hinv.
  - unfold evse_set_output_run. cbn [app foldl].
    destruct Hinv as [Hoff|[Hon Htime]];
      [apply evse_set_output_stays_off; exact Hoff|].
    destruct (evse_set_output_deferral_cases d (observe r s) Hon Hidle)
      as (_ & _ & Hgo).
    cbn [observe evse ads1118 cp_pe_resistance system_timer_tick] in Hgo.
    rewrite Htime in Hgo. apply Hgo. right. auto.
  - unfold evse_set_output_run. cbn [app foldl]. apply IH.
    destruct Hinv as [Hoff|[Hon Htime]];
      [left; apply evse_set_output_stays_off; exact Hoff|].
    pose proof (evse_set_output_deferral_cases d (observe r1 s) Hon Hidle)
      as (_ & Hkeep & Hgo).
    cbn [observe evse ads1118 cp_pe_resistance system_timer_tick] in Hkeep, Hgo.
    rewrite Htime in Hkeep, Hgo.
    destruct (Z.le_gt_cases (cp_ohm r1) IEC61851_CP_RESISTANCE_STATE_B)
      as [Hcp|Hcp];
    [destruct (Z.lt_ge_cases (to_uint32 (at_ms r1 - t0)) 3000) as [Hw|Hw]|].
    + right. apply Hkeep; assumption.
    + left. apply Hgo. right. auto.
    + left. apply Hgo. left. lia.
Qed.

(** X27. The deferral from its first call on, when that call's clock
    reading is not 0: the contactor stays engaged while the car draws
    current and fewer than 3000 ms have passed, and it is open after any
    call made 3000 ms or more after the first one. *)
Lemma evse_set_output_run_deferral d r0 rs s :
  d = 0 \/ d = 1000 ->
  relay_pin s = true ->
  contactor_turn_off_time (evse s) = 0 ->
  cp_ohm r0 <= IEC61851_CP_RESISTANCE_STATE_B ->
  at_ms r0 <> 0 ->
  (Forall (fun r => cp_ohm r <= IEC61851_CP_RESISTANCE_STATE_B
                    /\ to_uint32 (at_ms r - at_ms r0) < 3000) rs ->
   relay_pin (evse_set_output_run d false (r0 :: rs) s) = true)
  /\ (forall r, 3000 <= to_uint32 (at_ms r - at_ms r0) ->
        relay_pin (evse_set_output_run d false (r0 :: rs ++ [r]) s) = false).
Proof.
  intros Hidle Hrelay Htime Hcp Hclock.
  destruct (evse_set_output_deferral_cases d (observe r0 s) Hrelay Hidle)
    as (Hfirst & _ & _).
  cbn [observe evse ads1118 cp_pe_resistance system_timer_tick] in Hfirst.
  destruct (Hfirst Hcp Htime) as [Hr1 Ht1]. split.
  - intros Hall.
    apply (evse_set_output_run_pending d (at_ms r0) rs); assumption.
  - intros r Hlate.
    apply (evse_set_output_run_expired d (at_ms r0) rs r); auto.
Qed.

(** *** Where the deferral goes wrong *)

(** C1 at clock reading 0. The contactor is engaged, the car still draws
    current (880 ohm), and switch-off with an idle pilot is requested.  The
    first call comes when the millisecond counter reads 0, so the timestamp
    it stores equals "no deferral pending"; the call 3000 ms later starts
    the deferral again instead of switching: the contactor is still engaged
    3000 ms after the first deferred call. *)
Lemma evse_set_output_deferral_lost_at_clock_zero :
  let s0 := charging_system 880 0 0 0 in
  let s1 := evse_set_output 1000 false (observe (mkReading 0 880) s0) in
  let s2 := evse_set_output 1000 false (observe (mkReading 3000 880) s1) in
  relay_pin s0 = true
  /\ relay_pin s1 = true /\ contactor_turn_off_time (evse s1) = 0
  /\ relay_pin s2 = true /\ contactor_turn_off_time (evse s2) = 3000.
Proof. vm_compute. repeat split. Qed.

(** The stored timestamp also outlives a withdrawn request.  A switch-off
    deferred at 1000 ms is followed at 1500 ms by a request to keep the
    contactor on, which leaves the timestamp in place; the next switch-off
    request, at 100000 ms with the car still drawing current, finds a
    timestamp older than 3000 ms and opens the contactor on that call. *)
Lemma evse_set_output_deferral_stale_timestamp :
  let s0 := charging_system 880 0 0 0 in
  let s1 := evse_set_output 1000 false (observe (mkReading 1000 880) s0) in
  let s2 := evse_set_output 333 true (observe (mkReading 1500 880) s1) in
  let s3 := evse_set_output 1000 false (observe (mkReading 100000 880) s2) in
  relay_pin s1 = true /\ contactor_turn_off_time (evse s1) = 1000
  /\ relay_pin s2 = true /\ contactor_turn_off_time (evse s2) = 1000
  /\ cp_pe_resistance (ads1118 s3) = 880 /\ relay_pin s3 = false.
Proof. vm_compute. repeat split. Qed.

(** ** The ID.3 debounce, tick by tick *)

Lemma id3_waiting_observe r s : id3_waiting s -> id3_waiting (observe r s).
Proof.
  unfold id3_waiting. intros (Hcal & Herr & Hjmp & Hbtn & Hinv & Hst & Hrel
                              & Hduty & Hreq).
  rewrite (iec61851_get_max_ma_ext (observe r s) s) by reflexivity.
  repeat split; assumption.
Qed.

Lemma id3_waiting_set_id3_mode_time t s :
  id3_waiting s -> id3_waiting (with_iec61851 (set_id3_mode_time t) s).
Proof.
  unfold id3_waiting. intros (Hcal & Herr & Hjmp & Hbtn & Hinv & Hst & Hrel
                              & Hduty & Hreq).
  rewrite (iec61851_get_max_ma_ext
             (with_iec61851 (set_id3_mode_time t) s) s) by reflexivity.
  repeat split; assumption.
Qed.

(** At rest the request of state B changes nothing: the pilot already
    shows 266 permille and the relay is already open. *)
Lemma id3_waiting_evse_set_output s :
  id3_waiting s ->
  evse_set_output
    (iec61851_get_duty_cycle_for_ma (iec61851_get_max_ma s)) false s = s.
Proof.
  intros (_ & _ & _ & _ & _ & _ & Hrel & Hduty & Hreq).
  set (d := iec61851_get_duty_cycle_for_ma (iec61851_get_max_ma s)) in *.
  assert (d <> 0) as Hd0.
  { unfold d. destruct (decide (iec61851_get_max_ma s = 0)) as [->|Hma];
      [discriminate|].
    pose proof (duty_cycle_nonzero_range _ Hma). lia. }
  assert (evse_set_cp_duty_cycle d s = s) as Hpwm.
  { destruct (evse_set_cp_duty_cycle_cases d s) as [[_ Heq]|[Hne _]];
      [exact Heq|].
    exfalso. apply Hne. rewrite Hrel.
    destruct (Z.eqb_spec d 0); [contradiction|].
    destruct (Z.eqb_spec d 1000); [contradiction|]. exact Hduty. }
  unfold evse_set_output, XMC_GPIO_GetInput_EVSE_RELAY_PIN. cbv zeta.
  rewrite Hpwm, Hrel. reflexivity.
Qed.

Section Debounce.
Context `{Externals}.

(** Outside ID.3 mode (pilot idle or contactor engaged) a single valid
    reading above the A threshold sets state A on that tick. *)
Lemma iec61851_tick_not_id3_above_A s :
  calibration_state (evse s) = 0 ->
  cc_error (contactor_check s) = 0 ->
  config_jumper_current (evse s) <> EVSE_CONFIG_JUMPER_UNCONFIGURED ->
  was_pressed (button s) = false ->
  cp_invalid_counter (ads1118 s) = 0 ->
  evse_get_cp_duty_cycle s = 1000 \/ relay_pin s = true ->
  IEC61851_CP_RESISTANCE_STATE_A < cp_pe_resistance (ads1118 s) ->
  state (iec61851 (iec61851_tick s)) = IEC61851_STATE_A.
Proof.
  intros Hcal Herr Hjmp Hbtn Hinv Hmode Hcp.
  destruct (iec61851_tick_classified s Hcal Herr Hjmp Hbtn Hinv) as [-> _].
  unfold iec61851_tick_classify, XMC_GPIO_GetInput_EVSE_RELAY_PIN. cbv zeta.
  assert (negb (evse_get_cp_duty_cycle s =? 1000) && negb (relay_pin s)
          = false) as ->.
  { destruct Hmode as [->| ->]; [reflexivity|apply andb_false_r]. }
  cbn [negb andb with_iec61851 ads1118].
  destruct (Z.ltb_spec IEC61851_CP_RESISTANCE_STATE_A
              (cp_pe_resistance (ads1118 s))); [|lia].
  apply iec61851_set_state_state.
Qed.

(** One tick at rest in ID.3 mode with a reading above three times the A
    threshold: the first such reading only stores the time, a later one
    within 500 ms of the stored time changes nothing, and one 500 ms or
    more after the stored time sets state A. *)
Lemma iec61851_tick_spike_cases s :
  id3_waiting s ->
  3 * IEC61851_CP_RESISTANCE_STATE_A < cp_pe_resistance (ads1118 s) ->
  let t := id3_mode_time (iec61851 s) in
  let waited := to_uint32 (system_timer_tick s - t) in
  (t = 0 ->
   iec61851_tick s
   = with_iec61851 (set_id3_mode_time (system_timer_tick s)) s)
  /\ (t <> 0 -> waited < 500 -> iec61851_tick s = s)
  /\ (t <> 0 -> 500 <= waited ->
      state (iec61851 (iec61851_tick s)) = IEC61851_STATE_A).
Proof.
  intros Hw Hcp. pose proof Hw as Hw0.
  destruct Hw as (Hcal & Herr & Hjmp & Hbtn & Hinv & Hst & Hrel & Hduty & Hreq).
  destruct (iec61851_tick_classified s Hcal Herr Hjmp Hbtn Hinv)
    as [Hiec Htick].
  assert (iec61851_tick_classify s
          = if id3_mode_time (iec61851 s) =? 0
            then with_iec61851 (set_id3_mode_time (system_timer_tick s)) s
            else if 500 <=? to_uint32 (system_timer_tick s
                                       - id3_mode_time (iec61851 s))
                 then iec61851_set_state IEC61851_STATE_A s
                 else s) as Hcls.
  { unfold iec61851_tick_classify, XMC_GPIO_GetInput_EVSE_RELAY_PIN,
      system_timer_is_time_elapsed_ms, system_timer_get_ms. cbv zeta.
    rewrite Hduty, Hrel. cbn [Z.eqb Pos.eqb negb andb].
    replace (IEC61851_CP_RESISTANCE_STATE_A * 3)
      with (3 * IEC61851_CP_RESISTANCE_STATE_A) by reflexivity.
    destruct (Z.ltb_spec (3 * IEC61851_CP_RESISTANCE_STATE_A)
                (cp_pe_resistance (ads1118 s))); [reflexivity|lia]. }
  cbv zeta. split; [|split].
  - intros Ht. rewrite Htick, Hcls, Ht. cbn [Z.eqb]. cbv zeta.
    cbn [with_iec61851 iec61851 set_id3_mode_time state]. rewrite Hst.
    unfold iec61851_state_b.
    apply (id3_waiting_evse_set_output
             (with_iec61851 (set_id3_mode_time (system_timer_tick s)) s)).
    apply id3_waiting_set_id3_mode_time. exact Hw0.
  - intros Ht Hwait. rewrite Htick, Hcls.
    destruct (Z.eqb_spec (id3_mode_time (iec61851 s)) 0); [contradiction|].
    destruct (Z.leb_spec 500 (to_uint32 (system_timer_tick s
                                         - id3_mode_time (iec61851 s))));
      [lia|].
    cbv zeta. rewrite Hst. unfold iec61851_state_b.
    apply id3_waiting_evse_set_output. exact Hw0.
  - intros Ht Hwait. rewrite Hiec, Hcls.
    destruct (Z.eqb_spec (id3_mode_time (iec61851 s)) 0); [contradiction|].
    destruct (Z.leb_spec 500 (to_uint32 (system_timer_tick s
                                         - id3_mode_time (iec61851 s))));
      [|lia].
    apply iec61851_set_state_state.
Qed.

(** While every reading is a spike less than 500 ms after the stored time,
    the board stays at rest in state B with the stored time unchanged. *)
Lemma iec61851_run_spike_pending t0 rs s :
  t0 <> 0 ->
  id3_waiting s ->
  id3_mode_time (iec61851 s) = t0 ->
  Forall (fun r => 3 * IEC61851_CP_RESISTANCE_STATE_A < cp_ohm r
                   /\ to_uint32 (at_ms r - t0) < 500) rs ->
  id3_waiting (iec61851_run rs s)
  /\ id3_mode_time (iec61851 (iec61851_run rs s)) = t0.
Proof.
  intros Ht0 Hw Htime Hall. revert s Hw Htime.
  induction Hall as [|r rs [Hcp Hwait] _ IH]; intros s Hw Htime;
    [split; assumption|].
  unfold iec61851_run. cbn [foldl].
  destruct (iec61851_tick_spike_cases (observe r s)
              (id3_waiting_observe r s Hw) Hcp) as (_ & Hkeep & _).
  cbn [observe iec61851 system_timer_tick] in Hkeep.
  rewrite Htime in Hkeep. rewrite (Hkeep Ht0 Hwait).
  apply IH; [apply id3_waiting_observe; exact Hw | exact Htime].
Qed.

(** X28. The first spike after ID.3 mode began, observed at a nonzero
    clock reading: as long as it lasts less than 500 ms the state stays B. *)
Lemma iec61851_run_spike_holds r0 rs s :
  id3_waiting s ->
  id3_mode_time (iec61851 s) = 0 ->
  3 * IEC61851_CP_RESISTANCE_STATE_A < cp_ohm r0 ->
  at_ms r0 <> 0 ->
  Forall (fun r => 3 * IEC61851_CP_RESISTANCE_STATE_A < cp_ohm r
                   /\ to_uint32 (at_ms r - at_ms r0) < 500) rs ->
  state (iec61851 (iec61851_run (r0 :: rs) s)) = IEC61851_STATE_B
  /\ id3_mode_time (iec61851 (iec61851_run (r0 :: rs) s)) = at_ms r0.
Proof.
  intros Hw Htime Hcp Hclock Hall.
  destruct (iec61851_tick_spike_cases (observe r0 s)
              (id3_waiting_observe r0 s Hw) Hcp) as (Hfirst & _ & _).
  cbn [observe iec61851 system_timer_tick] in Hfirst.
  specialize (Hfirst Htime).
  unfold iec61851_run. cbn [foldl]. rewrite Hfirst.
  destruct (iec61851_run_spike_pending (at_ms r0) rs
              (with_iec61851 (set_id3_mode_time (at_ms r0)) (observe r0 s))
              Hclock) as [Hw' Ht']; [| reflexivity | exact Hall |].
  - apply id3_waiting_set_id3_mode_time, id3_waiting_observe. exact Hw.
  - split; [apply Hw' | exact Ht'].
Qed.

(** X29. The same spike, still there at a tick 500 ms or more after it
    was first observed: that tick sets state A. *)
Lemma iec61851_run_spike_releases r0 rs r s :
  id3_waiting s ->
  id3_mode_time (iec61851 s) = 0 ->
  3 * IEC61851_CP_RESISTANCE_STATE_A < cp_ohm r0 ->
  at_ms r0 <> 0 ->
  Forall (fun r => 3 * IEC61851_CP_RESISTANCE_STATE_A < cp_ohm r
                   /\ to_uint32 (at_ms r - at_ms r0) < 500) rs ->
  3 * IEC61851_CP_RESISTANCE_STATE_A < cp_ohm r ->
  500 <= to_uint32 (at_ms r - at_ms r0) ->
  state (iec61851 (iec61851_run (r0 :: rs ++ [r]) s)) = IEC61851_STATE_A.
Proof.
  intros Hw Htime Hcp Hclock Hall Hcpr Hlate.
  destruct (iec61851_tick_spike_cases (observe r0 s)
              (id3_waiting_observe r0 s Hw) Hcp) as (Hfirst & _ & _).
  cbn [observe iec61851 system_timer_tick] in Hfirst.
  specialize (Hfirst Htime).
  unfold iec61851_run. cbn [app foldl]. rewrite Hfirst, foldl_app.
  cbn [foldl].
  destruct (iec61851_run_spike_pending (at_ms r0) rs
              (with_iec61851 (set_id3_mode_time (at_ms r0)) (observe r0 s))
              Hclock) as [Hw' Ht']; [| reflexivity | exact Hall |].
  - apply id3_waiting_set_id3_mode_time, id3_waiting_observe. exact Hw.
  - unfold iec61851_run in Hw', Ht'.
    destruct (iec61851_tick_spike_cases _ (id3_waiting_observe r _ Hw') Hcpr)
      as (_ & _ & Hgo).
    cbn [observe iec61851 system_timer_tick] in Hgo.
    rewrite Ht' in Hgo. apply Hgo; assumption.
Qed.

End Debounce.

(** A spike of 400 ms does not reach state A and one of 600 ms does, on
    the waiting board with a tick every 100 ms from clock reading 1000. *)
Lemma iec61851_run_spike_400_600 :
  let spike t := mkReading t 40000 in
  state (iec61851
           (@iec61851_run example_externals
              (spike <$> [1000; 1100; 1200; 1300; 1400])
              (waiting_system 2700 0)))
  = IEC61851_STATE_B
  /\ state (iec61851
              (@iec61851_run example_externals
                 (spike <$> [1000; 1100; 1200; 1300; 1400; 1500; 1600])
                 (waiting_system 2700 0)))
     = IEC61851_STATE_A.
Proof. vm_compute. split; reflexivity. Qed.

(** *** Where the debounce goes wrong *)

(** C5 with two spikes. A vehicle waits in state B with the pilot at 266
    permille and the contactor open.  A reading of 40000 ohm at 1000 ms is
    followed by a normal reading, and nothing changes; a single reading of
    40000 ohm at 5000 ms then moves the state to A at once, because the
    time of the first spike is still stored. *)
Lemma iec61851_tick_id3_second_spike :
  let s0 := waiting_system 2700 0 in
  let s1 := @iec61851_tick example_externals (observe (mkReading 1000 40000) s0) in
  let s2 := @iec61851_tick example_externals (observe (mkReading 1001 2700) s1) in
  let s3 := @iec61851_tick example_externals (observe (mkReading 5000 40000) s2) in
  state (iec61851 s1) = IEC61851_STATE_B
  /\ id3_mode_time (iec61851 s1) = 1000
  /\ state (iec61851 s2) = IEC61851_STATE_B
  /\ id3_mode_time (iec61851 s2) = 1000
  /\ evse_get_cp_duty_cycle s2 = 266 /\ relay_pin s2 = false
  /\ state (iec61851 s3) = IEC61851_STATE_A.
Proof. vm_compute. repeat split. Qed.

(** * Further properties *)

(** ** The pilot encoding, continued *)

(** X1. Below 4.8 A the encoding is held at the 8 % minimum and from 90 A on
    at 100 %; in between it rounds down: the duty cycle stands for a
    current that is at most [ma] and less than one step (60 mA, or 250 mA
    above 51 A) below it. *)
Theorem iec61851_get_duty_cycle_for_ma_rounds_down ma :
  let d := iec61851_get_duty_cycle_for_ma ma in
  (0 < ma < 4800 -> d = 80)
  /\ (4800 <= ma <= 51000 -> d * 60 <= ma < d * 60 + 60)
  /\ (51000 < ma < 90000 ->
      (d - 640) * 250 <= ma < (d - 640) * 250 + 250)
  /\ (90000 <= ma -> d = 1000).
Proof.
  cbv zeta. rewrite duty_cycle_is_encode_spec. unfold encode_spec.
  destruct (Z.eqb_spec ma 0), (Z.leb_spec ma 51000);
    repeat split; intros; Z.to_euclidean_division_equations; lia.
Qed.

Lemma iec61851_get_duty_cycle_for_ma_rounds_down_witness :
  iec61851_get_duty_cycle_for_ma 3000 = 80
  /\ iec61851_get_duty_cycle_for_ma 16010 * 60 <= 16010
     < iec61851_get_duty_cycle_for_ma 16010 * 60 + 60
  /\ (iec61851_get_duty_cycle_for_ma 63100 - 640) * 250 <= 63100
     < (iec61851_get_duty_cycle_for_ma 63100 - 640) * 250 + 250
  /\ iec61851_get_duty_cycle_for_ma 100000 = 1000.
Proof.
  split; [|split; [|split]].
  - destruct (iec61851_get_duty_cycle_for_ma_rounds_down 3000)
      as (Hlow & _). apply Hlow. lia.
  - destruct (iec61851_get_duty_cycle_for_ma_rounds_down 16010)
      as (_ & Hmid & _). apply Hmid. lia.
  - destruct (iec61851_get_duty_cycle_for_ma_rounds_down 63100)
      as (_ & _ & Hhigh & _). apply Hhigh. lia.
  - destruct (iec61851_get_duty_cycle_for_ma_rounds_down 100000)
      as (_ & _ & _ & Hcap). apply Hcap. lia.
Defined.

(** X2. A larger nonzero current never gets a smaller duty cycle within
    either range of the encoding; across the change of formula at 51 A the
    duty cycle can drop, by at most 6 permille. *)
Theorem iec61851_get_duty_cycle_for_ma_monotone a b :
  0 < a <= b ->
  (b <= 51000 \/ 51000 < a ->
   iec61851_get_duty_cycle_for_ma a <= iec61851_get_duty_cycle_for_ma b)
  /\ iec61851_get_duty_cycle_for_ma a <= iec61851_get_duty_cycle_for_ma b + 6.
Proof.
  intros Hab. rewrite !duty_cycle_is_encode_spec. unfold encode_spec.
  destruct (Z.eqb_spec a 0), (Z.eqb_spec b 0); try lia.
  destruct (Z.leb_spec a 51000), (Z.leb_spec b 51000);
    split; intros; Z.to_euclidean_division_equations; lia.
Qed.

Lemma iec61851_get_duty_cycle_for_ma_monotone_witness :
  iec61851_get_duty_cycle_for_ma 6000 <= iec61851_get_duty_cycle_for_ma 16000
  /\ iec61851_get_duty_cycle_for_ma 51000
     <= iec61851_get_duty_cycle_for_ma 51001 + 6.
Proof.
  split.
  - apply (iec61851_get_duty_cycle_for_ma_monotone 6000 16000); lia.
  - apply (iec61851_get_duty_cycle_for_ma_monotone 51000 51001); lia.
Defined.

(** ** The ceiling of the state machine *)

(** X3. [iec61851_get_max_ma] never exceeds the configured maximum, the
    cable rating read from PP or the jumper setting, nor the managed
    current when the station is managed; so it is never above 64 A, and
    never above 32 A with a hardware jumper setting. *)
Theorem iec61851_get_max_ma_bounds s :
  let ma := iec61851_get_max_ma s in
  ma <= max_current_configured (evse s)
  /\ ma <= iec61851_get_ma_from_pp_resistance s
  /\ ma <= iec61851_get_ma_from_jumper s
  /\ (managed (evse s) = true -> ma <= max_managed_current (evse s))
  /\ ma <= 64000
  /\ (config_jumper_current (evse s) <> EVSE_CONFIG_JUMPER_SOFTWARE ->
      ma <= 32000).
Proof.
  cbv zeta.
  assert (iec61851_get_ma_from_pp_resistance s <= 64000) as Hpp.
  { unfold iec61851_get_ma_from_pp_resistance. repeat case_match; lia. }
  assert (config_jumper_current (evse s) <> EVSE_CONFIG_JUMPER_SOFTWARE ->
          iec61851_get_ma_from_jumper s <= 32000) as Hj.
  { unfold iec61851_get_ma_from_jumper.
    destruct (config_jumper_current (evse s)); intros; try lia.
    congruence. }
  unfold iec61851_get_max_ma. cbv zeta. rewrite !MIN_min.
  destruct (managed (evse s)); rewrite ?MIN_min;
    repeat split; intros; try discriminate; try specialize (Hj ltac:(auto));
    lia.
Qed.

Lemma iec61851_get_max_ma_bounds_witness :
  iec61851_get_max_ma (waiting_system 2700 0) <= 32000.
Proof.
  apply (iec61851_get_max_ma_bounds (waiting_system 2700 0)). discriminate.
Defined.

(** ** The slot table, continued *)

Lemma foldr_min_le_elem a x l : x ∈ l -> foldr Z.min a l <= x.
Proof.
  induction 1 as [x l|x y l _ IH]; cbn; [|lia].
  pose proof (foldr_min_le_init a l). lia.
Qed.

Lemma set_max_current_same c : set_max_current (max_current c) c = c.
Proof. destruct c; reflexivity. Qed.

Section SlotsMore.
Context `{Externals}.

Lemma active_currents_elem c i :
  (i < CHARGING_SLOT_NUM)%nat ->
  (active c !!! i : bool) = true ->
  (max_current c !!! i : Z) ∈ active_currents c.
Proof.
  intros Hi Ha. unfold active_currents. apply list_elem_of_omap.
  exists i. split; [apply elem_of_seq; lia|]. cbv zeta. rewrite Ha.
  reflexivity.
Qed.

Lemma active_currents_nonneg c :
  (forall i : nat, (i < CHARGING_SLOT_NUM)%nat ->
     (active c !!! i : bool) = true -> 0 <= (max_current c !!! i : Z)) ->
  Forall (Z.le 0) (active_currents c).
Proof.
  intros Hpos. apply Forall_forall. intros x Hx.
  unfold active_currents in Hx. apply list_elem_of_omap in Hx.
  destruct Hx as (i & Hi & Hx). cbv zeta in Hx. apply elem_of_seq in Hi.
  destruct (active c !!! i) eqn:Ha; [|discriminate].
  injection Hx as <-. apply Hpos; [lia | exact Ha].
Qed.

(** An active slot at 0 mA brings the ceiling to 0. *)
Lemma charging_slot_get_max_current_zero s i :
  Forall (Z.le 0) (active_currents (charging_slot s)) ->
  (i < CHARGING_SLOT_NUM)%nat ->
  (active (charging_slot s) !!! i : bool) = true ->
  (max_current (charging_slot s) !!! i : Z) = 0 ->
  charging_slot_get_max_current s = 0.
Proof.
  intros Hpos Hi Ha Hz.
  rewrite charging_slot_get_max_current_active by exact Hpos. cbv zeta.
  rewrite (foldr_min_attained 65535 0); [reflexivity| |exact Hpos|lia].
  rewrite <- Hz. apply active_currents_elem; assumption.
Qed.

(** X4. With 32-bit slot currents the ceiling lies in [0, 65534] and never
    exceeds the current of any active slot. *)
Theorem charging_slot_get_max_current_bounded s :
  Forall (fun e => is_uint32 e.1) (slot_entries (charging_slot s)) ->
  0 <= charging_slot_get_max_current s < 65535
  /\ (forall i : nat,
        (i < CHARGING_SLOT_NUM)%nat ->
        (active (charging_slot s) !!! i : bool) = true ->
        charging_slot_get_max_current s
        <= (max_current (charging_slot s) !!! i : Z)).
Proof.
  intros Hall.
  assert (Forall (Z.le 0) (active_currents (charging_slot s))) as Hpos.
  { apply active_currents_nonneg. intros i Hi _.
    eapply slot_entries_uint32; [exact Hall|]. apply elem_of_seq. lia. }
  rewrite charging_slot_get_max_current_active by exact Hpos. cbv zeta.
  set (m := foldr Z.min 65535 (active_currents (charging_slot s))).
  assert (0 <= m <= 65535) as Hm.
  { split; [apply foldr_min_lower_bound; [exact Hpos|lia]
           |apply foldr_min_le_init]. }
  split.
  - destruct (Z.eqb_spec m 65535); lia.
  - intros i Hi Ha.
    pose proof (foldr_min_le_elem 65535 _ _
                  (active_currents_elem _ i Hi Ha)) as Hle.
    fold m in Hle. destruct (Z.eqb_spec m 65535); lia.
Qed.

(** *** Disconnect *)

Lemma charging_slot_handle_disconnect_loop c l :
  let c' := foldl charging_slot_handle_disconnect_step c l in
  c' = set_max_current (max_current c') c
  /\ forall i : nat,
       max_current c' !! i
       = (fun x : Z =>
            if bool_decide (i ∈ l) && (clear_on_disconnect c !!! i : bool)
            then 0 else x) <$> (max_current c !! i).
Proof.
  revert c. induction l as [|a l IH]; intros c; cbv zeta.
  - cbn [foldl]. split; [symmetry; apply set_max_current_same|].
    intros i. destruct (max_current c !! i); reflexivity.
  - cbn [foldl]. destruct (IH (charging_slot_handle_disconnect_step c a))
      as [Hrec Hlook].
    set (c1 := charging_slot_handle_disconnect_step c a) in *.
    set (c' := foldl charging_slot_handle_disconnect_step c1 l) in *.
    assert (clear_on_disconnect c1 = clear_on_disconnect c) as Hclr.
    { unfold c1, charging_slot_handle_disconnect_step. cbv zeta.
      destruct (clear_on_disconnect c !!! a); reflexivity. }
    assert (forall L, set_max_current L c1 = set_max_current L c) as Hset.
    { intros L. unfold c1, charging_slot_handle_disconnect_step. cbv zeta.
      destruct (clear_on_disconnect c !!! a); reflexivity. }
    split; [rewrite Hrec at 1; apply Hset|].
    intros i. rewrite Hlook, Hclr.
    unfold c1, charging_slot_handle_disconnect_step. cbv zeta.
    destruct (decide (i = a)) as [->|Hne].
    + rewrite (bool_decide_eq_true_2 (a ∈ a :: l)) by left.
      destruct (clear_on_disconnect c !!! a) eqn:Hca; cbn [andb].
      * cbn [max_current set_max_current].
        destruct (max_current c !! a) as [x|] eqn:Hx.
        -- rewrite list_lookup_insert_eq
             by (apply lookup_lt_is_Some; eauto).
           cbn. rewrite andb_true_r. destruct (bool_decide (a ∈ l));
             reflexivity.
        -- rewrite list_insert_ge by (apply lookup_ge_None; exact Hx).
           rewrite Hx. reflexivity.
      * rewrite andb_false_r. reflexivity.
    + assert (bool_decide (i ∈ a :: l) = bool_decide (i ∈ l)) as ->.
      { apply bool_decide_ext. rewrite elem_of_cons. tauto. }
      destruct (clear_on_disconnect c !!! a); [|reflexivity].
      cbn [max_current set_max_current].
      rewrite list_lookup_insert_ne by congruence. reflexivity.
Qed.

Lemma charging_slot_handle_disconnect_lookup s i :
  max_current (charging_slot (charging_slot_handle_disconnect s)) !! i
  = (fun x : Z =>
       if bool_decide (i < CHARGING_SLOT_NUM)%nat
          && (clear_on_disconnect (charging_slot s) !!! i : bool)
       then 0 else x) <$> (max_current (charging_slot s) !! i).
Proof.
  unfold charging_slot_handle_disconnect. cbn.
  destruct (charging_slot_handle_disconnect_loop (charging_slot s)
              (seq 0 CHARGING_SLOT_NUM)) as [_ Hlook].
  rewrite Hlook.
  assert (bool_decide (i ∈ seq 0 CHARGING_SLOT_NUM)
          = bool_decide (i < CHARGING_SLOT_NUM)%nat) as ->.
  { apply bool_decide_ext. rewrite elem_of_seq. lia. }
  reflexivity.
Qed.

Lemma charging_slot_handle_disconnect_frame s :
  charging_slot_handle_disconnect s
  = with_charging_slot
      (set_max_current
         (max_current (charging_slot (charging_slot_handle_disconnect s)))) s.
Proof.
  unfold charging_slot_handle_disconnect.
  destruct (charging_slot_handle_disconnect_loop (charging_slot s)
              (seq 0 CHARGING_SLOT_NUM)) as [Hrec _].
  cbv zeta in Hrec. unfold with_charging_slot. cbn.
  rewrite <- Hrec. reflexivity.
Qed.

(** X5. [charging_slot_handle_disconnect] sets the current of every slot
    marked clear-on-disconnect to 0 and leaves every other current, every
    flag and the stored defaults as they were; calling it twice is the same
    as calling it once. *)
Theorem charging_slot_handle_disconnect_spec s :
  let s' := charging_slot_handle_disconnect s in
  (forall i : nat,
     max_current (charging_slot s') !! i
     = (fun x : Z =>
          if bool_decide (i < CHARGING_SLOT_NUM)%nat
             && (clear_on_disconnect (charging_slot s) !!! i : bool)
          then 0 else x) <$> (max_current (charging_slot s) !! i))
  /\ s' = with_charging_slot
            (set_max_current (max_current (charging_slot s'))) s
  /\ charging_slot_handle_disconnect s' = s'.
Proof.
  cbv zeta. split; [|split].
  - apply charging_slot_handle_disconnect_lookup.
  - apply charging_slot_handle_disconnect_frame.
  - set (s' := charging_slot_handle_disconnect s).
    assert (clear_on_disconnect (charging_slot s')
            = clear_on_disconnect (charging_slot s)) as Hclr.
    { unfold s'. rewrite charging_slot_handle_disconnect_frame. reflexivity. }
    rewrite (charging_slot_handle_disconnect_frame s').
    assert (max_current (charging_slot (charging_slot_handle_disconnect s'))
            = max_current (charging_slot s')) as ->.
    { apply list_eq. intros i.
      rewrite (charging_slot_handle_disconnect_lookup s'), Hclr.
      unfold s' at 1 2. rewrite (charging_slot_handle_disconnect_lookup s).
      destruct (max_current (charging_slot s) !! i) as [x|]; [|reflexivity].
      cbn. f_equal.
      destruct (bool_decide (i < CHARGING_SLOT_NUM)%nat
                && (clear_on_disconnect (charging_slot s) !!! i));
        reflexivity. }
    unfold with_charging_slot. rewrite set_max_current_same.
    destruct s'; reflexivity.
Qed.

(** X6. After [charging_slot_handle_disconnect], an active slot that is
    marked clear-on-disconnect holds 0 mA, so the ceiling is 0 until that
    slot is granted a current again. *)
Theorem charging_slot_handle_disconnect_blocks s i :
  Forall (fun e => is_uint32 e.1) (slot_entries (charging_slot s)) ->
  (i < CHARGING_SLOT_NUM)%nat ->
  (i < length (max_current (charging_slot s)))%nat ->
  (active (charging_slot s) !!! i : bool) = true ->
  (clear_on_disconnect (charging_slot s) !!! i : bool) = true ->
  max_current (charging_slot (charging_slot_handle_disconnect s)) !! i
  = Some 0
  /\ charging_slot_get_max_current (charging_slot_handle_disconnect s) = 0.
Proof.
  intros Hall Hi Hlen Ha Hc.
  set (s' := charging_slot_handle_disconnect s).
  assert (active (charging_slot s') = active (charging_slot s)) as Hact.
  { unfold s'. rewrite charging_slot_handle_disconnect_frame. reflexivity. }
  assert (forall j : nat,
            (max_current (charging_slot s') !!! j : Z) = 0
            \/ (max_current (charging_slot s') !!! j : Z)
               = max_current (charging_slot s) !!! j) as Hcases.
  { intros j. rewrite !list_lookup_total_alt. unfold s'.
    rewrite charging_slot_handle_disconnect_lookup.
    destruct (max_current (charging_slot s) !! j) as [x|]; cbn; [|auto].
    destruct (bool_decide (j < CHARGING_SLOT_NUM)%nat
              && (clear_on_disconnect (charging_slot s) !!! j)); auto. }
  assert (max_current (charging_slot s') !! i = Some 0) as Hzero.
  { unfold s'. rewrite charging_slot_handle_disconnect_lookup.
    apply lookup_lt_is_Some in Hlen as [x ->]. cbn.
    rewrite bool_decide_eq_true_2 by exact Hi. rewrite Hc. reflexivity. }
  split; [exact Hzero|].
  apply (charging_slot_get_max_current_zero s' i).
  - apply active_currents_nonneg. intros j Hj _.
    destruct (Hcases j) as [->| ->]; [lia|].
    eapply slot_entries_uint32; [exact Hall|]. apply elem_of_seq. lia.
  - exact Hi.
  - rewrite Hact. exact Ha.
  - apply list_lookup_total_correct. exact Hzero.
Qed.

(** *** The button *)

Lemma list_insert_total_cases (l : list Z) (i j : nat) (v : Z) :
  (<[i := v]> l !!! j : Z) = v \/ (<[i := v]> l !!! j : Z) = l !!! j.
Proof.
  destruct (decide (i = j)) as [->|Hne].
  - destruct (decide (j < length l)%nat) as [Hlt|Hge].
    + left. apply list_lookup_total_insert_eq. exact Hlt.
    + right. rewrite list_insert_ge by lia. reflexivity.
  - right. apply list_lookup_total_insert_ne. exact Hne.
Qed.

(** X7. [charging_slot_stop_charging_by_button] writes 0 mA to the button
    slot and nothing else; with the button slot active the ceiling is 0
    afterwards. *)
Theorem charging_slot_stop_charging_by_button_blocks s :
  Forall (fun e => is_uint32 e.1) (slot_entries (charging_slot s)) ->
  (CHARGING_SLOT_BUTTON < CHARGING_SLOT_NUM)%nat ->
  (CHARGING_SLOT_BUTTON < length (max_current (charging_slot s)))%nat ->
  let s' := charging_slot_stop_charging_by_button s in
  max_current (charging_slot s') !! CHARGING_SLOT_BUTTON = Some 0
  /\ (forall i : nat,
        i <> CHARGING_SLOT_BUTTON ->
        max_current (charging_slot s') !! i
        = max_current (charging_slot s) !! i)
  /\ ((active (charging_slot s) !!! CHARGING_SLOT_BUTTON : bool) = true ->
      charging_slot_get_max_current s' = 0).
Proof.
  intros Hall Hb Hlen. cbv zeta.
  unfold charging_slot_stop_charging_by_button.
  split; [apply list_lookup_insert_eq; exact Hlen|].
  split; [intros i Hi; apply list_lookup_insert_ne; congruence|].
  intros Ha.
  apply (charging_slot_get_max_current_zero _ CHARGING_SLOT_BUTTON).
  - apply active_currents_nonneg. intros j Hj _. cbn.
    destruct (list_insert_total_cases (max_current (charging_slot s))
                CHARGING_SLOT_BUTTON j 0) as [->| ->]; [lia|].
    eapply slot_entries_uint32; [exact Hall|]. apply elem_of_seq. lia.
  - exact Hb.
  - exact Ha.
  - cbn. apply list_lookup_total_insert_eq. exact Hlen.
Qed.

(** X8. A start by button after a stop by button: while the button slot is
    marked clear-on-disconnect or the button latch is set the start does
    nothing and the button slot stays at 0; otherwise the slot is back at
    32000 mA, as if the stop had not happened. *)
Theorem charging_slot_start_after_stop s :
  (CHARGING_SLOT_BUTTON < length (max_current (charging_slot s)))%nat ->
  let blocked :=
    (clear_on_disconnect (charging_slot s) !!! CHARGING_SLOT_BUTTON : bool)
    || was_pressed (button s) in
  let s' :=
    charging_slot_start_charging_by_button
      (charging_slot_stop_charging_by_button s) in
  (blocked = true ->
   s' = charging_slot_stop_charging_by_button s
   /\ max_current (charging_slot s') !! CHARGING_SLOT_BUTTON = Some 0)
  /\ (blocked = false ->
      s' = charging_slot_start_charging_by_button s
      /\ max_current (charging_slot s') !! CHARGING_SLOT_BUTTON
         = Some 32000).
Proof.
  intros Hlen. cbv zeta.
  unfold charging_slot_start_charging_by_button,
    charging_slot_stop_charging_by_button. cbn.
  destruct (clear_on_disconnect (charging_slot s) !!! CHARGING_SLOT_BUTTON
            || was_pressed (button s)); split; intros Hb; try discriminate.
  - split; [reflexivity|]. apply list_lookup_insert_eq. exact Hlen.
  - unfold with_charging_slot, set_max_current. cbn.
    rewrite list_insert_insert_eq. split; [reflexivity|].
    apply list_lookup_insert_eq. exact Hlen.
Qed.

End SlotsMore.

(** *** Initialisation *)

Lemma list_lookup_insert_same {A} (l : list A) (j : nat) (x : A) :
  <[j := x]> l !! j = (fun _ => x) <$> (l !! j).
Proof.
  destruct (l !! j) as [y|] eqn:Hy; cbn.
  - apply list_lookup_insert_eq, lookup_lt_is_Some. eauto.
  - rewrite list_insert_ge by (apply lookup_ge_None; exact Hy). exact Hy.
Qed.

Lemma list_lookup_insert_const {A B} (l : list A) (k j : nat) (x : A) (y : B) :
  (fun _ => y) <$> (<[k := x]> l !! j) = (fun _ => y) <$> (l !! j).
Proof.
  destruct (decide (k = j)) as [->|Hne].
  - rewrite list_lookup_insert_same. destruct (l !! j); reflexivity.
  - rewrite list_lookup_insert_ne by exact Hne. reflexivity.
Qed.

(** Writing [v i] to index [i + 2] for each [i] of a list of indices. *)
Lemma foldl_insert_shifted_lookup {A} (v : nat -> A) (idxs : list nat)
    (l : list A) (j : nat) :
  foldl (fun acc i => <[(i + 2)%nat := v i]> acc) l idxs !! j
  = if bool_decide (2 <= j /\ (j - 2)%nat ∈ idxs)%nat
    then (fun _ => v (j - 2)%nat) <$> (l !! j)
    else l !! j.
Proof.
  revert l. induction idxs as [|a idxs IH]; intros l.
  - cbn [foldl]. rewrite bool_decide_eq_false_2; [reflexivity|].
    intros [_ Hin]. inversion Hin.
  - cbn [foldl]. rewrite IH.
    destruct (bool_decide_reflect (2 <= j /\ (j - 2)%nat ∈ idxs)%nat)
      as [[Hj Hin]|Hout].
    + rewrite bool_decide_eq_true_2 by (split; [exact Hj|right; exact Hin]).
      apply list_lookup_insert_const.
    + destruct (decide (j = a + 2)%nat) as [->|Hne].
      * rewrite bool_decide_eq_true_2.
        2:{ split; [lia|]. replace (a + 2 - 2)%nat with a by lia. left. }
        replace (a + 2 - 2)%nat with a by lia.
        apply list_lookup_insert_same.
      * rewrite list_lookup_insert_ne by congruence.
        rewrite bool_decide_eq_false_2; [reflexivity|].
        intros [Hj Hin]. apply elem_of_cons in Hin as [Heq|Hin];
          [lia|apply Hout; auto].
Qed.

Lemma charging_slot_init_default_loop c idxs :
  foldl charging_slot_init_default c idxs
  = mkChargingSlot
      (foldl (fun acc i =>
                <[(i + 2)%nat := (max_current_default c !!! i : Z)]> acc)
             (max_current c) idxs)
      (foldl (fun acc i =>
                <[(i + 2)%nat := (active_default c !!! i : bool)]> acc)
             (active c) idxs)
      (foldl (fun acc i =>
                <[(i + 2)%nat := (clear_on_disconnect_default c !!! i : bool)]>
                  acc)
             (clear_on_disconnect c) idxs)
      (max_current_default c) (active_default c)
      (clear_on_disconnect_default c).
Proof.
  revert c. induction idxs as [|a idxs IH]; intros c.
  - destruct c; reflexivity.
  - cbn [foldl]. rewrite IH. reflexivity.
Qed.

(** X9. After [charging_slot_init] the two cable slots are active, not
    clear-on-disconnect, and hold the jumper lookup and the PP
    classification; every slot [i + 2] below the number of defaults holds
    the stored default [i] (current and both flags), and the slots beyond
    are as before. *)
Theorem charging_slot_init_spec `{Externals} s :
  let c := charging_slot s in
  let c' := charging_slot (charging_slot_init s) in
  (1 < length (max_current c))%nat ->
  (1 < length (active c))%nat ->
  (1 < length (clear_on_disconnect c))%nat ->
  (max_current c' !! 0%nat = Some (charging_slot_get_ma_incoming_cable s)
   /\ active c' !! 0%nat = Some true
   /\ clear_on_disconnect c' !! 0%nat = Some false)
  /\ (max_current c' !! 1%nat = Some (iec61851_get_ma_from_pp_resistance s)
      /\ active c' !! 1%nat = Some true
      /\ clear_on_disconnect c' !! 1%nat = Some false)
  /\ (forall i : nat,
        (i < CHARGING_SLOT_DEFAULT_NUM)%nat ->
        max_current c' !! (i + 2)%nat
        = (fun _ => (max_current_default c !!! i : Z))
            <$> (max_current c !! (i + 2)%nat)
        /\ active c' !! (i + 2)%nat
           = (fun _ => (active_default c !!! i : bool))
               <$> (active c !! (i + 2)%nat)
        /\ clear_on_disconnect c' !! (i + 2)%nat
           = (fun _ => (clear_on_disconnect_default c !!! i : bool))
               <$> (clear_on_disconnect c !! (i + 2)%nat))
  /\ (forall j : nat,
        (CHARGING_SLOT_DEFAULT_NUM + 2 <= j)%nat ->
        max_current c' !! j = max_current c !! j
        /\ active c' !! j = active c !! j
        /\ clear_on_disconnect c' !! j = clear_on_disconnect c !! j).
Proof.
  cbv zeta. intros Hl1 Hl2 Hl3.
  unfold charging_slot_init. cbn [charging_slot with_charging_slot].
  rewrite charging_slot_init_default_loop.
  cbn [max_current active clear_on_disconnect max_current_default
       active_default clear_on_disconnect_default set_max_current set_active
       set_clear_on_disconnect].
  unfold CHARGING_SLOT_INCOMING_CABLE, CHARGING_SLOT_OUTGOING_CABLE.
  assert (forall n : nat, (n < 2)%nat ->
            bool_decide (2 <= n /\ (n - 2)%nat ∈ seq 0 CHARGING_SLOT_DEFAULT_NUM)%nat
            = false) as Hlow.
  { intros n Hn. apply bool_decide_eq_false_2. lia. }
  assert (forall i : nat, (i < CHARGING_SLOT_DEFAULT_NUM)%nat ->
            bool_decide (2 <= i + 2
                         /\ (i + 2 - 2)%nat ∈ seq 0 CHARGING_SLOT_DEFAULT_NUM)%nat
            = true) as Hmid.
  { intros i Hi. apply bool_decide_eq_true_2. split; [lia|].
    apply elem_of_seq. lia. }
  assert (forall j : nat, (CHARGING_SLOT_DEFAULT_NUM + 2 <= j)%nat ->
            bool_decide (2 <= j /\ (j - 2)%nat ∈ seq 0 CHARGING_SLOT_DEFAULT_NUM)%nat
            = false) as Hhigh.
  { intros j Hj. apply bool_decide_eq_false_2. rewrite elem_of_seq. lia. }
  rewrite !foldl_insert_shifted_lookup.
  split; [|split; [|split]].
  - rewrite !Hlow by lia.
    rewrite !(list_lookup_insert_ne _ 1%nat 0%nat) by discriminate.
    rewrite !list_lookup_insert_eq by lia. auto.
  - rewrite !Hlow by lia.
    rewrite !list_lookup_insert_eq by (rewrite length_insert; lia). auto.
  - intros i Hi. rewrite !foldl_insert_shifted_lookup, !Hmid by exact Hi.
    replace (i + 2 - 2)%nat with i by lia.
    rewrite !list_lookup_insert_ne by lia. auto.
  - intros j Hj. rewrite !foldl_insert_shifted_lookup, !Hhigh by exact Hj.
    rewrite !list_lookup_insert_ne by lia. auto.
Qed.

Lemma charging_slot_init_spec_witness :
  let s := waiting_system 2700 0 in
  active (charging_slot (@charging_slot_init example_externals s)) !! 0%nat
  = Some true
  /\ max_current (charging_slot (@charging_slot_init example_externals s))
       !! 4%nat
     = Some 32000.
Proof.
  cbv zeta.
  destruct (@charging_slot_init_spec example_externals (waiting_system 2700 0))
    as ((_ & Hact & _) & _ & Hdef & _);
    [cbn; lia | cbn; lia | cbn; lia |].
  split; [exact Hact|].
  destruct (Hdef 2%nat) as (Hcur & _); [cbn; lia|]. exact Hcur.
Defined.

(** ** The output controller, continued *)

Lemma MAX_bounds n x : x <= MAX n x /\ n <= MAX n x.
Proof. rewrite MAX_max. lia. Qed.

Lemma MAX_idempotent n x : MAX n (MAX n x) = MAX n x.
Proof. rewrite !MAX_max. lia. Qed.

(** X10. [evse_set_cp_duty_cycle] never lowers a measurement-invalid
    counter: it leaves the PP and contactor-check counters alone, and
    whenever it changes the PWM compare value the CP counter is at least 2
    afterwards. *)
Theorem evse_set_cp_duty_cycle_blackout d s :
  let s' := evse_set_cp_duty_cycle d s in
  cp_invalid_counter (ads1118 s) <= cp_invalid_counter (ads1118 s')
  /\ pp_invalid_counter (ads1118 s') = pp_invalid_counter (ads1118 s)
  /\ cc_invalid_counter (contactor_check s')
     = cc_invalid_counter (contactor_check s)
  /\ (cp_pwm_compare s' <> cp_pwm_compare s ->
      2 <= cp_invalid_counter (ads1118 s')).
Proof.
  cbv zeta.
  destruct (evse_set_cp_duty_cycle_cases d s) as [[_ ->]|[_ ->]].
  - repeat split; [lia|]. intros Hne. contradiction.
  - cbn. pose proof (MAX_bounds 2 (cp_invalid_counter (ads1118 s))).
    repeat split; intros; lia.
Qed.

(** X11. Setting the same duty cycle twice is the same as setting it
    once. *)
Theorem evse_set_cp_duty_cycle_idempotent d s :
  evse_set_cp_duty_cycle d (evse_set_cp_duty_cycle d s)
  = evse_set_cp_duty_cycle d s.
Proof.
  destruct (evse_set_cp_duty_cycle_cases d s) as [[_ Heq]|[_ Heq]].
  - rewrite Heq. exact Heq.
  - rewrite Heq.
    match goal with |- evse_set_cp_duty_cycle d ?t = _ => set (s1 := t) end.
    destruct (evse_set_cp_duty_cycle_cases d s1) as [[_ Heq1]|[_ Heq1]];
      [exact Heq1|].
    rewrite Heq1. unfold s1.
    destruct s as [e i [cp pp cpi ppi] cc b cs r pwm t led].
    unfold ccu4_pwm_set_duty_cycle, with_cp_pwm_compare, with_ads1118,
      set_cp_invalid_counter. cbn. rewrite MAX_idempotent. reflexivity.
Qed.

(** What [evse_set_output] does after the pilot is set: either the relay
    pin is left as it is and no counter moves, or the relay pin is driven
    to the requested level and the three counters are raised. *)
Lemma evse_set_output_switch d c s :
  let s1 := evse_set_cp_duty_cycle d s in
  let s' := evse_set_output d c s in
  cp_pwm_compare s' = cp_pwm_compare s1
  /\ ((relay_pin s' = relay_pin s
       /\ cp_invalid_counter (ads1118 s') = cp_invalid_counter (ads1118 s1)
       /\ pp_invalid_counter (ads1118 s') = pp_invalid_counter (ads1118 s1)
       /\ cc_invalid_counter (contactor_check s')
          = cc_invalid_counter (contactor_check s1))
      \/ (relay_pin s <> c /\ relay_pin s' = c
          /\ cp_invalid_counter (ads1118 s')
             = MAX 4 (cp_invalid_counter (ads1118 s1))
          /\ pp_invalid_counter (ads1118 s')
             = MAX 4 (pp_invalid_counter (ads1118 s1))
          /\ cc_invalid_counter (contactor_check s')
             = MAX 5 (cc_invalid_counter (contactor_check s1)))).
Proof.
  cbv zeta. unfold evse_set_output. cbv zeta.
  unfold XMC_GPIO_GetInput_EVSE_RELAY_PIN.
  rewrite <- (evse_set_cp_duty_cycle_relay_pin d s).
  generalize (evse_set_cp_duty_cycle d s). intros s1.
  destruct (eqb_spec (relay_pin s1) c) as [Heq|Hne]; cbn [negb];
    [split; [reflexivity|left; auto]|].
  destruct (((d =? 0) || (d =? 1000)) && negb c).
  - unfold evse_set_output_turn_off_guard.
    destruct (cp_pe_resistance (ads1118 s1) <=? IEC61851_CP_RESISTANCE_STATE_B).
    + destruct (contactor_turn_off_time (evse s1) =? 0);
        [split; [reflexivity|left; auto]|].
      destruct (system_timer_is_time_elapsed_ms _ _ s1);
        [|split; [reflexivity|left; auto]].
      split; [destruct c; reflexivity|]. right.
      destruct c; cbn; auto.
    + split; [destruct c; reflexivity|]. right. destruct c; cbn; auto.
  - split; [destruct c; reflexivity|]. right. destruct c; cbn; auto.
Qed.

(** X12. [evse_set_output] never lowers a measurement-invalid counter, and
    whenever it changes the relay pin the CP and PP counters are at least
    4 and the contactor-check counter at least 5 afterwards. *)
Theorem evse_set_output_blackout d c s :
  let s' := evse_set_output d c s in
  cp_invalid_counter (ads1118 s) <= cp_invalid_counter (ads1118 s')
  /\ pp_invalid_counter (ads1118 s) <= pp_invalid_counter (ads1118 s')
  /\ cc_invalid_counter (contactor_check s)
     <= cc_invalid_counter (contactor_check s')
  /\ (relay_pin s' <> relay_pin s ->
      4 <= cp_invalid_counter (ads1118 s')
      /\ 4 <= pp_invalid_counter (ads1118 s')
      /\ 5 <= cc_invalid_counter (contactor_check s')).
Proof.
  cbv zeta.
  destruct (evse_set_output_switch d c s) as [_ Hsw]. cbv zeta in Hsw.
  destruct (evse_set_cp_duty_cycle_cases d s) as [[_ Hpwm]|[_ Hpwm]];
    rewrite Hpwm in Hsw; cbn in Hsw;
    pose proof (MAX_bounds 2 (cp_invalid_counter (ads1118 s)));
    pose proof (MAX_bounds 4 (cp_invalid_counter (ads1118 s)));
    pose proof (MAX_bounds 4 (MAX 2 (cp_invalid_counter (ads1118 s))));
    pose proof (MAX_bounds 4 (pp_invalid_counter (ads1118 s)));
    pose proof (MAX_bounds 5 (cc_invalid_counter (contactor_check s)));
    destruct Hsw as [(Hr & -> & -> & ->)|(Hne & Hr & -> & -> & ->)];
    repeat split; intros; try contradiction; lia.
Qed.

(** X13. A request to close the contactor is carried out on the call, and
    so is a request to open it while the pilot asked for is not idle; a
    request that matches the relay only sets the pilot.  In every case the
    pilot is set first, as [evse_set_cp_duty_cycle] sets it. *)
Theorem evse_set_output_immediate d c s :
  relay_pin (evse_set_output d true s) = true
  /\ (d <> 0 -> d <> 1000 -> relay_pin (evse_set_output d false s) = false)
  /\ (relay_pin s = c ->
      evse_set_output d c s = evse_set_cp_duty_cycle d s)
  /\ cp_pwm_compare (evse_set_output d c s)
     = cp_pwm_compare (evse_set_cp_duty_cycle d s).
Proof.
  split; [|split; [|split]].
  - unfold evse_set_output, XMC_GPIO_GetInput_EVSE_RELAY_PIN. cbv zeta.
    rewrite andb_false_r.
    destruct (relay_pin (evse_set_cp_duty_cycle d s)) eqn:Hr; cbn;
      [exact Hr|reflexivity].
  - apply evse_set_output_off_pilot_active.
  - intros Hrel. unfold evse_set_output, XMC_GPIO_GetInput_EVSE_RELAY_PIN.
    cbv zeta. rewrite evse_set_cp_duty_cycle_relay_pin, Hrel.
    destruct c; reflexivity.
  - apply evse_set_output_switch.
Qed.

Lemma evse_set_output_immediate_witness :
  relay_pin (evse_set_output 333 false (charging_system 2000 0 0 0)) = false
  /\ evse_set_output 333 false (waiting_system 2700 0)
     = evse_set_cp_duty_cycle 333 (waiting_system 2700 0).
Proof.
  split.
  - apply (evse_set_output_immediate 333 false (charging_system 2000 0 0 0));
      lia.
  - apply (evse_set_output_immediate 333 false (waiting_system 2700 0)).
    reflexivity.
Defined.

(** ** What the state machine leaves alone *)

Lemma same_inputs_refl s : same_inputs s s.
Proof. unfold same_inputs. repeat split. Qed.

Lemma same_inputs_trans s1 s2 s3 :
  same_inputs s1 s2 -> same_inputs s2 s3 -> same_inputs s1 s3.
Proof.
  unfold same_inputs. intros H12 H23.
  destruct H12 as (?&?&?&?&?&?&?&?&?&?&?), H23 as (?&?&?&?&?&?&?&?&?&?&?).
  repeat split; congruence.
Qed.

Lemma evse_set_cp_duty_cycle_same_inputs d s :
  same_inputs s (evse_set_cp_duty_cycle d s).
Proof.
  destruct (evse_set_cp_duty_cycle_cases d s) as [[_ ->]|[_ ->]];
    unfold same_inputs; repeat split.
Qed.

(** [evse_set_output] writes no field of [evse] but the turn-off
    timestamp. *)
Lemma evse_set_output_evse d c s :
  exists t,
    evse (evse_set_output d c s) = set_contactor_turn_off_time t (evse s).
Proof.
  assert (forall e, set_contactor_turn_off_time (contactor_turn_off_time e) e
                    = e) as Hid by (intros []; reflexivity).
  unfold evse_set_output. cbv zeta.
  rewrite <- (evse_set_cp_duty_cycle_evse d s).
  generalize (evse_set_cp_duty_cycle d s). intros s1.
  destruct (negb (eqb (XMC_GPIO_GetInput_EVSE_RELAY_PIN s1) c));
    [|eexists; symmetry; apply Hid].
  destruct (((d =? 0) || (d =? 1000)) && negb c).
  - unfold evse_set_output_turn_off_guard.
    destruct (cp_pe_resistance (ads1118 s1) <=? IEC61851_CP_RESISTANCE_STATE_B).
    + destruct (contactor_turn_off_time (evse s1) =? 0);
        [eexists; reflexivity|].
      destruct (system_timer_is_time_elapsed_ms _ _ s1);
        [destruct c; eexists; reflexivity|eexists; symmetry; apply Hid].
    + destruct c; eexists; reflexivity.
  - destruct c; eexists; symmetry; apply Hid.
Qed.

Lemma evse_set_output_same_inputs d c s :
  same_inputs s (evse_set_output d c s).
Proof.
  destruct (evse_set_output_evse d c s) as [t He].
  unfold same_inputs. rewrite He. cbn.
  unfold evse_set_output. cbv zeta.
  pose proof (evse_set_cp_duty_cycle_same_inputs d s)
    as (_&_&_&_&_&_&Hcp&Hpp&Hcc&Ht&Hcs).
  revert Hcp Hpp Hcc Ht Hcs.
  generalize (evse_set_cp_duty_cycle d s). intros s1 Hcp Hpp Hcc Ht Hcs.
  destruct (negb (eqb (XMC_GPIO_GetInput_EVSE_RELAY_PIN s1) c));
    [|repeat split; assumption].
  destruct (((d =? 0) || (d =? 1000)) && negb c).
  - unfold evse_set_output_turn_off_guard.
    destruct (cp_pe_resistance (ads1118 s1) <=? IEC61851_CP_RESISTANCE_STATE_B).
    + destruct (contactor_turn_off_time (evse s1) =? 0);
        [repeat split; assumption|].
      destruct (system_timer_is_time_elapsed_ms _ _ s1);
        [destruct c|]; repeat split; assumption.
    + destruct c; repeat split; assumption.
  - destruct c; repeat split; assumption.
Qed.

Lemma evse_set_output_button d c s :
  button (evse_set_output d c s) = button s.
Proof.
  unfold evse_set_output. cbv zeta.
  assert (button (evse_set_cp_duty_cycle d s) = button s) as <-
    by (destruct (evse_set_cp_duty_cycle_cases d s) as [[_ ->]|[_ ->]];
        reflexivity).
  generalize (evse_set_cp_duty_cycle d s). intros s1.
  destruct (negb (eqb (XMC_GPIO_GetInput_EVSE_RELAY_PIN s1) c));
    [|reflexivity].
  destruct (((d =? 0) || (d =? 1000)) && negb c).
  - unfold evse_set_output_turn_off_guard.
    destruct (cp_pe_resistance (ads1118 s1) <=? IEC61851_CP_RESISTANCE_STATE_B).
    + destruct (contactor_turn_off_time (evse s1) =? 0); [reflexivity|].
      destruct (system_timer_is_time_elapsed_ms _ _ s1);
        [destruct c|]; reflexivity.
    + destruct c; reflexivity.
  - destruct c; reflexivity.
Qed.

(** [iec61851_set_state] touches the state machine's struct, the charging
    timer, the managed current, the button latch and the LED, nothing
    else. *)
Lemma iec61851_set_state_frame st s :
  same_inputs s (iec61851_set_state st s)
  /\ relay_pin (iec61851_set_state st s) = relay_pin s
  /\ cp_pwm_compare (iec61851_set_state st s) = cp_pwm_compare s
  /\ ads1118 (iec61851_set_state st s) = ads1118 s
  /\ contactor_check (iec61851_set_state st s) = contactor_check s
  /\ id3_mode_time (iec61851 (iec61851_set_state st s))
     = id3_mode_time (iec61851 s)
  /\ contactor_turn_off_time (evse (iec61851_set_state st s))
     = contactor_turn_off_time (evse s).
Proof.
  unfold iec61851_set_state, same_inputs.
  repeat case_match; cbn; repeat split.
Qed.

Lemma evse_get_cp_duty_cycle_ext s1 s2 :
  cp_pwm_compare s1 = cp_pwm_compare s2 ->
  evse_get_cp_duty_cycle s1 = evse_get_cp_duty_cycle s2.
Proof.
  intros Heq. unfold evse_get_cp_duty_cycle, ccu4_pwm_get_duty_cycle.
  rewrite Heq. reflexivity.
Qed.

(** A request for the idle pilot leaves the pilot at 1000 permille. *)
Lemma evse_set_output_idle_pilot c s :
  evse_get_cp_duty_cycle (evse_set_output 1000 c s) = 1000.
Proof.
  destruct (evse_set_output_switch 1000 c s) as [Hpwm _]. cbv zeta in Hpwm.
  rewrite (evse_get_cp_duty_cycle_ext _ _ Hpwm).
  destruct (evse_set_cp_duty_cycle_cases 1000 s) as [[Hcur ->]|[_ ->]].
  - rewrite Hcur. cbn. rewrite andb_false_r. reflexivity.
  - cbn [Z.eqb Pos.eqb negb]. rewrite andb_false_r.
    apply cp_duty_cycle_read_back. lia.
Qed.

(** A switch-off request never closes the contactor. *)
Lemma evse_set_output_off_never_closes d s :
  relay_pin (evse_set_output d false s) = true -> relay_pin s = true.
Proof.
  intros Hon. destruct (relay_pin s) eqn:Hr; [reflexivity|].
  rewrite (evse_set_output_stays_off d s Hr) in Hon. discriminate.
Qed.

(** ** The tick as a whole *)

Lemma same_up_to_led_id3_refl s : same_up_to_led_id3 s s.
Proof. unfold same_up_to_led_id3. repeat split. Qed.

Lemma same_up_to_led_id3_same_inputs s s' :
  same_up_to_led_id3 s s' -> same_inputs s s'.
Proof.
  unfold same_up_to_led_id3, same_inputs.
  intros (He & Ha & Hc & _ & Hs & _ & _ & Ht & _).
  rewrite He, Ha, Hc, Hs, Ht. repeat split.
Qed.

Lemma iec61851_get_max_ma_same_inputs s s' :
  same_inputs s s' ->
  max_managed_current (evse s') = max_managed_current (evse s) ->
  iec61851_get_max_ma s' = iec61851_get_max_ma s.
Proof.
  unfold same_inputs. intros (_ & Hj & Hjs & Hc & Hm & _ & _ & Hpp & _) Hmm.
  unfold iec61851_get_max_ma, iec61851_get_ma_from_pp_resistance,
    iec61851_get_ma_from_jumper.
  rewrite Hj, Hjs, Hc, Hm, Hpp, Hmm. reflexivity.
Qed.

Section TickMore.
Context `{Externals}.

(** The actuation is [evse_set_output] with the request of the current
    state, followed at most by a change of the button struct and of the
    LED. *)
Lemma iec61851_actuation_output s :
  let s' :=
    match state (iec61851 s) with
    | IEC61851_STATE_A => iec61851_state_a s
    | IEC61851_STATE_B => iec61851_state_b s
    | IEC61851_STATE_C => iec61851_state_c s
    | IEC61851_STATE_D => iec61851_state_d s
    | IEC61851_STATE_EF => iec61851_state_ef s
    end in
  let o := evse_set_output (iec61851_request s).1 (iec61851_request s).2 s in
  evse s' = evse o
  /\ iec61851 s' = iec61851 o
  /\ ads1118 s' = ads1118 o
  /\ contactor_check s' = contactor_check o
  /\ charging_slot s' = charging_slot o
  /\ relay_pin s' = relay_pin o
  /\ cp_pwm_compare s' = cp_pwm_compare o
  /\ system_timer_tick s' = system_timer_tick o.
Proof.
  cbv zeta. unfold iec61851_request.
  destruct (state (iec61851 s)); cbn [fst snd];
    try (repeat split; fail).
  unfold iec61851_state_a. cbv zeta.
  generalize (evse_set_output 1000 false s). intros o.
  destruct (IEC61851_CP_RESISTANCE_STATE_A <? cp_pe_resistance (ads1118 o));
    [|repeat split].
  destruct (button_reset (button o)) as [[] b]; repeat split.
Qed.

(** The decision part of the tick either returns at once or hands over a
    state that [iec61851_set_state] produced, up to the LED log and the
    ID.3 timestamp. *)
Lemma iec61851_tick_decide_shape s :
  iec61851_tick_decide s = Return s
  \/ exists st s0 s1,
       iec61851_tick_decide s = Continue s1
       /\ same_up_to_led_id3 s s0
       /\ same_up_to_led_id3 (iec61851_set_state st s0) s1.
Proof.
  assert (forall s0, same_up_to_led_id3 s s0 ->
            exists st' s0' s1,
              Continue s0 = Continue s1
              /\ same_up_to_led_id3 s s0'
              /\ same_up_to_led_id3 (iec61851_set_state st' s0') s1) as Hstay.
  { intros s0 Hs0. exists (state (iec61851 s0)), s0, s0.
    split; [reflexivity|]. split; [exact Hs0|].
    unfold iec61851_set_state. rewrite bool_decide_eq_true_2 by reflexivity.
    apply same_up_to_led_id3_refl. }
  assert (forall st s0, same_up_to_led_id3 s s0 ->
            exists st' s0' s1,
              Continue (iec61851_set_state st s0) = Continue s1
              /\ same_up_to_led_id3 s s0'
              /\ same_up_to_led_id3 (iec61851_set_state st' s0') s1) as Hset.
  { intros st s0 Hs0. exists st, s0, (iec61851_set_state st s0).
    split; [reflexivity|]. split; [exact Hs0|].
    apply same_up_to_led_id3_refl. }
  assert (forall c, same_up_to_led_id3 s (with_led_call c s)) as Hled
    by (intros c; unfold same_up_to_led_id3; repeat split).
  assert (forall t, same_up_to_led_id3 s (with_iec61851 (set_id3_mode_time t) s))
    as Hid3 by (intros t; unfold same_up_to_led_id3; repeat split).
  unfold iec61851_tick_decide.
  destruct (negb (cc_error (contactor_check s) =? 0));
    [right; apply Hset, Hled|].
  destruct (bool_decide (config_jumper_current (evse s)
                         = EVSE_CONFIG_JUMPER_UNCONFIGURED));
    [right; apply Hset, Hled|].
  destruct (was_pressed (button s)).
  { right. cbv zeta.
    exists IEC61851_STATE_A, s,
      (if bool_decide (btn_state (button (iec61851_set_state IEC61851_STATE_A s))
                       = BUTTON_STATE_PRESSED)
       then led_set_off (iec61851_set_state IEC61851_STATE_A s)
       else iec61851_set_state IEC61851_STATE_A s).
    split; [reflexivity|]. split; [apply same_up_to_led_id3_refl|].
    destruct (bool_decide _);
      [unfold same_up_to_led_id3; repeat split
      |apply same_up_to_led_id3_refl]. }
  destruct (0 <? cp_invalid_counter (ads1118 s)); [left; reflexivity|].
  right. unfold iec61851_tick_classify. cbv zeta.
  set (id3 := negb (evse_get_cp_duty_cycle s =? 1000)
              && negb (XMC_GPIO_GetInput_EVSE_RELAY_PIN s)).
  set (s0 := if negb id3 then with_iec61851 (set_id3_mode_time 0) s else s).
  assert (same_up_to_led_id3 s s0) as Hs0.
  { unfold s0. destruct (negb id3);
      [apply Hid3|apply same_up_to_led_id3_refl]. }
  assert (forall c, same_up_to_led_id3 s (with_led_call c s0)) as Hled0.
  { intros c. unfold same_up_to_led_id3 in *.
    destruct Hs0 as (?&?&?&?&?&?&?&?&?&?). repeat split; assumption. }
  assert (forall t, same_up_to_led_id3 s
                      (with_iec61851 (set_id3_mode_time t) s0)) as Hid30.
  { intros t. unfold same_up_to_led_id3 in *.
    destruct Hs0 as (?&?&?&?&?&?&?&?&?&?). repeat split; assumption. }
  repeat case_match;
    first [apply Hset, Hs0 | apply Hset, Hled0 | apply Hstay, Hs0
          | apply Hstay, Hid30].
Qed.


(** The charging timer after [iec61851_set_state]: started on a change to
    state C when it is 0, otherwise as before. *)
Lemma iec61851_set_state_charging_time st s :
  charging_time (evse (iec61851_set_state st s))
  = if negb (bool_decide (st = state (iec61851 s)))
       && bool_decide (st = IEC61851_STATE_C)
       && (charging_time (evse s) =? 0)
    then system_timer_tick s
    else charging_time (evse s).
Proof.
  unfold iec61851_set_state, system_timer_get_ms.
  repeat case_match; cbn in *; try reflexivity; try discriminate;
    repeat match goal with
    | Hb : bool_decide _ = false |- _ => apply bool_decide_eq_false_1 in Hb
    | Hb : bool_decide _ = true |- _ => apply bool_decide_eq_true_1 in Hb
    end; subst; try discriminate; try congruence.
Qed.

(** A tick whose decision part hands over [s1] ends in the state of [s1],
    with the outputs and the [evse] struct that [evse_set_output] leaves
    for the request of that state. *)
Lemma iec61851_tick_continue s s1 :
  calibration_state (evse s) = 0 ->
  iec61851_tick_decide s = Continue s1 ->
  let o := evse_set_output (iec61851_request s1).1 (iec61851_request s1).2 s1 in
  state (iec61851 (iec61851_tick s)) = state (iec61851 s1)
  /\ relay_pin (iec61851_tick s) = relay_pin o
  /\ cp_pwm_compare (iec61851_tick s) = cp_pwm_compare o
  /\ evse (iec61851_tick s) = evse o
  /\ same_inputs s1 (iec61851_tick s).
Proof.
  intros Hcal Hdec. cbv zeta. unfold iec61851_tick. rewrite Hcal, Hdec.
  cbn [Z.eqb negb].
  destruct (iec61851_actuation_output s1)
    as (He & Hi & Ha & Hc & Hs & Hr & Hp & Ht).
  cbv zeta in He, Hi, Ha, Hc, Hs, Hr, Hp, Ht.
  split; [rewrite Hi, evse_set_output_iec61851; reflexivity|].
  split; [exact Hr|]. split; [exact Hp|]. split; [exact He|].
  pose proof (evse_set_output_same_inputs (iec61851_request s1).1
                (iec61851_request s1).2 s1) as Hsame.
  unfold same_inputs in *. rewrite He, Ha, Hc, Hs, Ht. exact Hsame.
Qed.

(** The tick changes neither the configuration nor the measurements, the
    clock or the slot table. *)
Lemma iec61851_tick_frame s : same_inputs s (iec61851_tick s).
Proof.
  destruct (Z.eqb_spec (calibration_state (evse s)) 0) as [Hcal|Hcal].
  2:{ unfold iec61851_tick. destruct (Z.eqb_spec (calibration_state (evse s)) 0);
        [contradiction|apply same_inputs_refl]. }
  destruct (iec61851_tick_decide_shape s)
    as [Hret|(st & s0 & s1 & Hdec & Hs0 & Hs1)].
  - unfold iec61851_tick. rewrite Hcal, Hret. apply same_inputs_refl.
  - destruct (iec61851_tick_continue s s1 Hcal Hdec) as (_ & _ & _ & _ & Hact).
    eapply same_inputs_trans;
      [apply same_up_to_led_id3_same_inputs; exact Hs0|].
    eapply same_inputs_trans; [apply iec61851_set_state_frame|].
    eapply same_inputs_trans;
      [apply same_up_to_led_id3_same_inputs; exact Hs1|exact Hact].
Qed.

(** X14. [iec61851_tick] never changes the calibration state, the jumper
    setting, the configured maximum, the managed flag, the autostart flag,
    the measured resistances, the contactor-check error, the clock or the
    slot table. *)
Theorem iec61851_tick_leaves_inputs s :
  let s' := iec61851_tick s in
  calibration_state (evse s') = calibration_state (evse s)
  /\ config_jumper_current (evse s') = config_jumper_current (evse s)
  /\ config_jumper_current_software (evse s')
     = config_jumper_current_software (evse s)
  /\ max_current_configured (evse s') = max_current_configured (evse s)
  /\ managed (evse s') = managed (evse s)
  /\ charging_autostart (evse s') = charging_autostart (evse s)
  /\ cp_pe_resistance (ads1118 s') = cp_pe_resistance (ads1118 s)
  /\ pp_pe_resistance (ads1118 s') = pp_pe_resistance (ads1118 s)
  /\ cc_error (contactor_check s') = cc_error (contactor_check s)
  /\ system_timer_tick s' = system_timer_tick s
  /\ charging_slot s' = charging_slot s.
Proof. exact (iec61851_tick_frame s). Qed.

(** A tick that engages the relay runs outside calibration and ends in
    state C. *)
Lemma iec61851_tick_relay s :
  relay_pin (iec61851_tick s) = true ->
  relay_pin s = true
  \/ (calibration_state (evse s) = 0
      /\ state (iec61851 (iec61851_tick s)) = IEC61851_STATE_C).
Proof.
  intros Hon.
  destruct (Z.eqb_spec (calibration_state (evse s)) 0) as [Hcal|Hcal].
  2:{ left. unfold iec61851_tick in Hon.
      destruct (Z.eqb_spec (calibration_state (evse s)) 0);
        [contradiction|exact Hon]. }
  destruct (iec61851_tick_decide_shape s)
    as [Hret|(st & s0 & s1 & Hdec & Hs0 & Hs1)].
  - left. unfold iec61851_tick in Hon. rewrite Hcal, Hret in Hon. exact Hon.
  - destruct (iec61851_tick_continue s s1 Hcal Hdec)
      as (Hst & Hrel & _). cbv zeta in Hrel.
    assert (relay_pin s1 = relay_pin s) as Hr1.
    { destruct Hs1 as (_&_&_&_&_& -> &_).
      destruct (iec61851_set_state_frame st s0) as (_ & -> & _).
      destruct Hs0 as (_&_&_&_&_& -> &_). reflexivity. }
    rewrite Hst. rewrite Hrel in Hon. unfold iec61851_request in Hon.
    destruct (state (iec61851 s1)); cbn [fst snd] in Hon; auto;
      left; rewrite <- Hr1; eapply evse_set_output_off_never_closes;
      exact Hon.
Qed.

(** X15. The tick closes the contactor in state C only: if the relay is
    engaged after a tick, it was engaged before or the tick ended in state
    C. *)
Theorem iec61851_tick_closes_only_in_C s :
  relay_pin (iec61851_tick s) = true ->
  relay_pin s = true \/ state (iec61851 (iec61851_tick s)) = IEC61851_STATE_C.
Proof.
  intros Hon. destruct (iec61851_tick_relay s Hon) as [Hw|[_ Hc]]; auto.
Qed.

(** A tick that hands over a state in A, D or EF leaves the pilot at 1000
    permille. *)
Lemma iec61851_tick_idle_pilot s s1 :
  calibration_state (evse s) = 0 ->
  iec61851_tick_decide s = Continue s1 ->
  state (iec61851 s1) <> IEC61851_STATE_B ->
  state (iec61851 s1) <> IEC61851_STATE_C ->
  evse_get_cp_duty_cycle (iec61851_tick s) = 1000.
Proof.
  intros Hcal Hdec HnB HnC.
  destruct (iec61851_tick_continue s s1 Hcal Hdec) as (_ & _ & Hpwm & _).
  cbv zeta in Hpwm. rewrite (evse_get_cp_duty_cycle_ext _ _ Hpwm).
  unfold iec61851_request.
  destruct (state (iec61851 s1)); try contradiction; cbn [fst snd];
    apply evse_set_output_idle_pilot.
Qed.

(** X16. With a contactor-check error or an unconfigured jumper, a tick
    outside calibration ends in state EF with the pilot at 1000 permille
    and does not close the contactor, whatever the CP reading, the button
    latch and the invalid counters are. *)
Theorem iec61851_tick_fault s :
  calibration_state (evse s) = 0 ->
  cc_error (contactor_check s) <> 0
  \/ config_jumper_current (evse s) = EVSE_CONFIG_JUMPER_UNCONFIGURED ->
  state (iec61851 (iec61851_tick s)) = IEC61851_STATE_EF
  /\ evse_get_cp_duty_cycle (iec61851_tick s) = 1000
  /\ (relay_pin (iec61851_tick s) = true -> relay_pin s = true).
Proof.
  intros Hcal Hfault.
  assert (exists n,
            iec61851_tick_decide s
            = Continue (iec61851_set_state IEC61851_STATE_EF
                          (led_set_blinking n s))) as [n Hdec].
  { unfold iec61851_tick_decide.
    destruct (Z.eqb_spec (cc_error (contactor_check s)) 0) as [Herr|Herr];
      cbn [negb]; [|eexists; reflexivity].
    destruct Hfault as [Hf|Hf]; [contradiction|].
    rewrite bool_decide_eq_true_2 by exact Hf. eexists; reflexivity. }
  destruct (iec61851_tick_continue s _ Hcal Hdec) as (Hst & Hrel & _).
  cbv zeta in Hrel. rewrite iec61851_set_state_state in Hst.
  split; [exact Hst|]. split.
  - apply (iec61851_tick_idle_pilot s _ Hcal Hdec);
      rewrite iec61851_set_state_state; discriminate.
  - intros Hon. rewrite Hrel in Hon. unfold iec61851_request in Hon.
    rewrite iec61851_set_state_state in Hon. cbn [fst snd] in Hon.
    apply evse_set_output_off_never_closes in Hon.
    destruct (iec61851_set_state_frame IEC61851_STATE_EF
                (led_set_blinking n s)) as (_ & Hr & _).
    rewrite Hr in Hon. exact Hon.
Qed.

(** X17. With the button latch set and no fault, a tick outside
    calibration ends in state A with the pilot at 1000 permille, whatever
    the CP reading and the invalid counters are. *)
Theorem iec61851_tick_button_latch s :
  calibration_state (evse s) = 0 ->
  cc_error (contactor_check s) = 0 ->
  config_jumper_current (evse s) <> EVSE_CONFIG_JUMPER_UNCONFIGURED ->
  was_pressed (button s) = true ->
  state (iec61851 (iec61851_tick s)) = IEC61851_STATE_A
  /\ evse_get_cp_duty_cycle (iec61851_tick s) = 1000.
Proof.
  intros Hcal Herr Hjmp Hbtn.
  assert (exists s1,
            iec61851_tick_decide s = Continue s1
            /\ state (iec61851 s1) = IEC61851_STATE_A) as (s1 & Hdec & Hs1).
  { unfold iec61851_tick_decide. rewrite Herr, Hbtn. cbn [Z.eqb negb].
    rewrite bool_decide_eq_false_2 by exact Hjmp. cbv zeta.
    eexists. split; [reflexivity|].
    destruct (bool_decide _); cbn; apply iec61851_set_state_state. }
  destruct (iec61851_tick_continue s _ Hcal Hdec) as (Hst & _).
  split; [rewrite Hst; exact Hs1|].
  apply (iec61851_tick_idle_pilot s _ Hcal Hdec); rewrite Hs1; discriminate.
Qed.

(** X18. With the jumper unconfigured and no calibration running, every
    tick ends in state EF, whatever is measured: after any nonempty run of
    ticks the state is EF. *)
Theorem iec61851_run_unconfigured rs s :
  calibration_state (evse s) = 0 ->
  config_jumper_current (evse s) = EVSE_CONFIG_JUMPER_UNCONFIGURED ->
  rs <> [] ->
  state (iec61851 (iec61851_run rs s)) = IEC61851_STATE_EF.
Proof.
  intros Hcal Hjmp Hne. revert s Hcal Hjmp.
  induction rs as [|r rs IH]; intros s Hcal Hjmp; [contradiction|].
  unfold iec61851_run. cbn [foldl].
  set (s1 := iec61851_tick (observe r s)).
  assert (calibration_state (evse s1) = 0
          /\ config_jumper_current (evse s1)
             = EVSE_CONFIG_JUMPER_UNCONFIGURED) as [Hcal1 Hjmp1].
  { destruct (iec61851_tick_frame (observe r s)) as (Hc & Hj & _).
    fold s1 in Hc, Hj. rewrite Hc, Hj. auto. }
  destruct rs as [|r2 rs].
  - cbn [foldl]. unfold s1.
    assert (exists n,
              iec61851_tick_decide (observe r s)
              = Continue (iec61851_set_state IEC61851_STATE_EF
                            (led_set_blinking n (observe r s))))
      as [n Hdec].
    { unfold iec61851_tick_decide.
      destruct (negb (cc_error (contactor_check (observe r s)) =? 0));
        [eexists; reflexivity|].
      rewrite bool_decide_eq_true_2 by exact Hjmp. eexists; reflexivity. }
    destruct (iec61851_tick_continue (observe r s) _ Hcal Hdec) as (Hst & _).
    rewrite Hst. apply iec61851_set_state_state.
  - apply (IH ltac:(discriminate) s1 Hcal1 Hjmp1).
Qed.

End TickMore.

(** ** The classification table *)

Section Classification.
Context `{Externals}.

(** The classification of a reading at or below the A threshold does not
    depend on ID.3 mode. *)
Lemma iec61851_tick_classify_low s :
  cp_pe_resistance (ads1118 s) <= IEC61851_CP_RESISTANCE_STATE_A ->
  exists s0,
    evse s0 = evse s /\ button s0 = button s
    /\ state (iec61851 s0) = state (iec61851 s)
    /\ system_timer_tick s0 = system_timer_tick s
    /\ iec61851_tick_classify s
       = let cp := cp_pe_resistance (ads1118 s) in
         if IEC61851_CP_RESISTANCE_STATE_B <? cp then
           iec61851_set_state IEC61851_STATE_B s0
         else if IEC61851_CP_RESISTANCE_STATE_C <? cp then
           if managed (evse s) && (max_managed_current (evse s) =? 0)
           then iec61851_set_state IEC61851_STATE_B s0
           else iec61851_set_state IEC61851_STATE_C s0
         else if IEC61851_CP_RESISTANCE_STATE_D <? cp then
           iec61851_set_state IEC61851_STATE_D (led_set_blinking 5 s0)
         else
           iec61851_set_state IEC61851_STATE_EF (led_set_blinking 5 s0).
Proof.
  unfold IEC61851_CP_RESISTANCE_STATE_A. intros Hcp.
  unfold iec61851_tick_classify. cbv zeta.
  set (id3 := negb (evse_get_cp_duty_cycle s =? 1000)
              && negb (XMC_GPIO_GetInput_EVSE_RELAY_PIN s)).
  set (s0 := if negb id3 then with_iec61851 (set_id3_mode_time 0) s else s).
  exists s0.
  assert (evse s0 = evse s /\ button s0 = button s
          /\ state (iec61851 s0) = state (iec61851 s)
          /\ system_timer_tick s0 = system_timer_tick s
          /\ ads1118 s0 = ads1118 s) as (He & Hb & Hst & Ht & Ha).
  { unfold s0. destruct (negb id3); repeat split. }
  repeat (split; [assumption|]). rewrite He, Ha.
  unfold IEC61851_CP_RESISTANCE_STATE_A.
  destruct (Z.ltb_spec (10000 * 3) (cp_pe_resistance (ads1118 s))); [lia|].
  destruct (Z.ltb_spec 10000 (cp_pe_resistance (ads1118 s))); [lia|].
  rewrite !andb_false_r. reflexivity.
Qed.

(** X19. When the classification is reached (no calibration, no fault,
    jumper configured, latch clear, measurement valid), the state after
    the tick follows the CP resistance: EF up to 150 ohm, D up to 300, C
    up to 1790 (B instead when the station is managed with a managed
    current of 0), B up to 10000, and A above 10000 outside ID.3 mode. *)
Theorem iec61851_tick_bands s :
  calibration_state (evse s) = 0 ->
  cc_error (contactor_check s) = 0 ->
  config_jumper_current (evse s) <> EVSE_CONFIG_JUMPER_UNCONFIGURED ->
  was_pressed (button s) = false ->
  cp_invalid_counter (ads1118 s) = 0 ->
  let cp := cp_pe_resistance (ads1118 s) in
  let st := state (iec61851 (iec61851_tick s)) in
  (cp <= 150 -> st = IEC61851_STATE_EF)
  /\ (150 < cp <= 300 -> st = IEC61851_STATE_D)
  /\ (300 < cp <= 1790 ->
      st = if managed (evse s) && (max_managed_current (evse s) =? 0)
           then IEC61851_STATE_B else IEC61851_STATE_C)
  /\ (1790 < cp <= 10000 -> st = IEC61851_STATE_B)
  /\ (10000 < cp ->
      evse_get_cp_duty_cycle s = 1000 \/ relay_pin s = true ->
      st = IEC61851_STATE_A).
Proof.
  intros Hcal Herr Hjmp Hbtn Hinv. cbv zeta.
  destruct (iec61851_tick_classified s Hcal Herr Hjmp Hbtn Hinv) as [-> _].
  assert (cp_pe_resistance (ads1118 s) <= 10000 ->
          state (iec61851 (iec61851_tick_classify s))
          = let cp := cp_pe_resistance (ads1118 s) in
            if 1790 <? cp then IEC61851_STATE_B
            else if 300 <? cp then
              if managed (evse s) && (max_managed_current (evse s) =? 0)
              then IEC61851_STATE_B else IEC61851_STATE_C
            else if 150 <? cp then IEC61851_STATE_D
            else IEC61851_STATE_EF) as Hlow.
  { intros Hcp. destruct (iec61851_tick_classify_low s Hcp)
      as (s0 & _ & _ & _ & _ & ->).
    unfold IEC61851_CP_RESISTANCE_STATE_B, IEC61851_CP_RESISTANCE_STATE_C,
      IEC61851_CP_RESISTANCE_STATE_D. cbv zeta.
    repeat case_match; apply iec61851_set_state_state. }
  cbv zeta in Hlow.
  split; [|split; [|split; [|split]]].
  - intros Hcp. rewrite Hlow by lia.
    destruct (Z.ltb_spec 1790 (cp_pe_resistance (ads1118 s))); [lia|].
    destruct (Z.ltb_spec 300 (cp_pe_resistance (ads1118 s))); [lia|].
    destruct (Z.ltb_spec 150 (cp_pe_resistance (ads1118 s))); [lia|].
    reflexivity.
  - intros Hcp. rewrite Hlow by lia.
    destruct (Z.ltb_spec 1790 (cp_pe_resistance (ads1118 s))); [lia|].
    destruct (Z.ltb_spec 300 (cp_pe_resistance (ads1118 s))); [lia|].
    destruct (Z.ltb_spec 150 (cp_pe_resistance (ads1118 s))); [|lia].
    reflexivity.
  - intros Hcp. rewrite Hlow by lia.
    destruct (Z.ltb_spec 1790 (cp_pe_resistance (ads1118 s))); [lia|].
    destruct (Z.ltb_spec 300 (cp_pe_resistance (ads1118 s))); [|lia].
    reflexivity.
  - intros Hcp. rewrite Hlow by lia.
    destruct (Z.ltb_spec 1790 (cp_pe_resistance (ads1118 s))); [|lia].
    reflexivity.
  - intros Hcp Hmode.
    unfold iec61851_tick_classify, XMC_GPIO_GetInput_EVSE_RELAY_PIN. cbv zeta.
    assert (negb (evse_get_cp_duty_cycle s =? 1000) && negb (relay_pin s)
            = false) as ->.
    { destruct Hmode as [->| ->]; [reflexivity|apply andb_false_r]. }
    cbn [negb andb with_iec61851 ads1118].
    unfold IEC61851_CP_RESISTANCE_STATE_A.
    destruct (Z.ltb_spec 10000 (cp_pe_resistance (ads1118 s))); [|lia].
    apply iec61851_set_state_state.
Qed.



(** X22. The charging timer, once started, is not restarted by the tick: a
    nonzero [charging_time] is left as it is. *)
Theorem iec61851_tick_keeps_charging_time s :
  charging_time (evse s) <> 0 ->
  charging_time (evse (iec61851_tick s)) = charging_time (evse s).
Proof.
  intros Hnz.
  destruct (Z.eqb_spec (calibration_state (evse s)) 0) as [Hcal|Hcal].
  2:{ unfold iec61851_tick.
      destruct (Z.eqb_spec (calibration_state (evse s)) 0);
        [contradiction|reflexivity]. }
  destruct (iec61851_tick_decide_shape s)
    as [Hret|(st & s0 & s1 & Hdec & Hs0 & Hs1)].
  - unfold iec61851_tick. rewrite Hcal, Hret. reflexivity.
  - destruct (iec61851_tick_continue s s1 Hcal Hdec)
      as (_ & _ & _ & Hevse & _). cbv zeta in Hevse.
    destruct (evse_set_output_evse (iec61851_request s1).1
                (iec61851_request s1).2 s1) as [t Ht].
    rewrite Hevse, Ht. cbn.
    destruct Hs1 as (-> & _). rewrite iec61851_set_state_charging_time.
    destruct Hs0 as (-> & _).
    destruct (Z.eqb_spec (charging_time (evse s)) 0); [contradiction|].
    rewrite andb_false_r. reflexivity.
Qed.

End Classification.

Lemma iec61851_tick_bands_witness :
  state (iec61851 (@iec61851_tick example_externals (waiting_system 880 0)))
  = IEC61851_STATE_C
  /\ state (iec61851 (@iec61851_tick example_externals (waiting_system 200 0)))
     = IEC61851_STATE_D.
Proof.
  split.
  - assert (config_jumper_current (evse (waiting_system 880 0))
            <> EVSE_CONFIG_JUMPER_UNCONFIGURED) as Hjmp by discriminate.
    destruct (@iec61851_tick_bands example_externals (waiting_system 880 0)
                eq_refl eq_refl Hjmp eq_refl eq_refl) as (_ & _ & Hc & _).
    apply Hc. cbn. lia.
  - assert (config_jumper_current (evse (waiting_system 200 0))
            <> EVSE_CONFIG_JUMPER_UNCONFIGURED) as Hjmp by discriminate.
    destruct (@iec61851_tick_bands example_externals (waiting_system 200 0)
                eq_refl eq_refl Hjmp eq_refl eq_refl) as (_ & Hd & _).
    apply Hd. cbn. lia.
Defined.

(** ** evse.c: the main tick *)

Section MainTickProperties.
Context `{Externals}.

(** With a valid reading at or below the A threshold and nothing that
    overrides the classification, the tick does not end in state A. *)
Lemma iec61851_tick_connected_not_A s :
  calibration_state (evse s) = 0 ->
  cc_error (contactor_check s) = 0 ->
  config_jumper_current (evse s) <> EVSE_CONFIG_JUMPER_UNCONFIGURED ->
  was_pressed (button s) = false ->
  cp_invalid_counter (ads1118 s) = 0 ->
  cp_pe_resistance (ads1118 s) <= IEC61851_CP_RESISTANCE_STATE_A ->
  state (iec61851 (iec61851_tick s)) <> IEC61851_STATE_A.
Proof.
  intros Hcal Herr Hjmp Hbtn Hinv Hcp.
  destruct (iec61851_tick_classified s Hcal Herr Hjmp Hbtn Hinv) as [-> _].
  destruct (iec61851_tick_classify_low s Hcp) as (s0 & _ & _ & _ & _ & ->).
  cbv zeta.
  repeat case_match; rewrite iec61851_set_state_state; discriminate.
Qed.

(** X23. [evse_tick] closes the contactor only after the 12 s startup
    hold, with no calibration running and no calibration error, and only
    when the state machine is in state C after the call; such a call
    returns and resets nothing. *)
Theorem evse_tick_closes_only_in_C f :
  relay_pin (sys f) = false ->
  relay_pin (sys (outcome_firmware (evse_tick f))) = true ->
  in_startup_hold f = false
  /\ calibration_state (evse (sys f)) = 0
  /\ calibration_error f = false
  /\ state (iec61851 (sys (outcome_firmware (evse_tick f))))
     = IEC61851_STATE_C
  /\ evse_tick f = Returned (outcome_firmware (evse_tick f)).
Proof.
  intros Hoff. unfold evse_tick, in_startup_hold.
  destruct (negb (startup_time f =? 0)
            && negb (system_timer_is_time_elapsed_ms (startup_time f) 12000
                       (sys f))) eqn:Hhold;
    [cbn; congruence|].
  destruct (negb (factory_reset_time f =? 0)
            && system_timer_is_time_elapsed_ms (factory_reset_time f) 500
                 (sys f)); [cbn; congruence|].
  cbv zeta.
  set (f1 := if negb (startup_time f =? 0)
             then with_sys (led_set_on false) (set_startup_time 0 f) else f).
  assert (relay_pin (sys f1) = false
          /\ calibration_state (evse (sys f1)) = calibration_state (evse (sys f))
          /\ calibration_error f1 = calibration_error f) as (Hoff1 & Hc1 & He1).
  { unfold f1. destruct (negb (startup_time f =? 0)); cbn; auto. }
  rewrite Hc1, He1.
  destruct (Z.eqb_spec (calibration_state (evse (sys f))) 0) as [Hcal|Hcal];
    cbn [negb].
  2:{ intros Hon. exfalso.
      destruct (_ && _ && _) in Hon; cbn in Hon; congruence. }
  destruct (calibration_error f).
  { intros Hon. exfalso.
    destruct (_ && _ && _) in Hon; cbn in Hon; congruence. }
  intros Hon.
  assert (relay_pin (iec61851_tick (sys f1)) = true) as Hon1.
  { destruct (_ && _ && _) in Hon; exact Hon. }
  destruct (iec61851_tick_relay (sys f1) Hon1) as [Hw|[_ HC]];
    [congruence|].
  assert (bool_decide (state (iec61851 (sys (with_sys iec61851_tick f1)))
                       = IEC61851_STATE_A) = false) as ->.
  { apply bool_decide_eq_false_2. cbn [with_sys sys]. rewrite HC.
    discriminate. }
  rewrite andb_false_r. cbn [outcome_firmware with_sys sys].
  repeat split; auto.
Qed.


(** X25. The communication watchdog does not restart the station while a
    vehicle is connected: after startup, with no factory reset requested,
    no calibration, no fault, the latch clear and a valid CP reading of at
    most 10000 ohm, [evse_tick] runs [iec61851_tick] and returns, however
    long ago the last communication was. *)
Theorem evse_tick_watchdog_spares_vehicle f :
  startup_time f = 0 ->
  factory_reset_time f = 0 ->
  calibration_error f = false ->
  calibration_state (evse (sys f)) = 0 ->
  cc_error (contactor_check (sys f)) = 0 ->
  config_jumper_current (evse (sys f)) <> EVSE_CONFIG_JUMPER_UNCONFIGURED ->
  was_pressed (button (sys f)) = false ->
  cp_invalid_counter (ads1118 (sys f)) = 0 ->
  cp_pe_resistance (ads1118 (sys f)) <= IEC61851_CP_RESISTANCE_STATE_A ->
  evse_tick f = Returned (with_sys iec61851_tick f).
Proof.
  intros Hst Hfr Hce Hcal Herr Hjmp Hbtn Hinv Hcp.
  unfold evse_tick. rewrite Hst, Hfr. cbn [Z.eqb negb andb]. cbv zeta.
  rewrite Hcal, Hce. cbn [Z.eqb negb].
  assert (bool_decide (state (iec61851 (sys (with_sys iec61851_tick f)))
                       = IEC61851_STATE_A) = false) as ->.
  { apply bool_decide_eq_false_2. cbn [with_sys sys].
    apply iec61851_tick_connected_not_A; assumption. }
  rewrite andb_false_r. reflexivity.
Qed.

End MainTickProperties.

(** ** evse.c: the jumper *)

(** X26. [evse_init_jumper] reports an unconfigured jumper exactly when
    both pins read high or a pin reads low with the pull-up and high with
    the pull-down; any two other readings that differ give different
    settings; and unless the setting is unconfigured or left to software,
    the jumper current lies between 6 A and 32 A. *)
Theorem evse_init_jumper_decoding (p0u p1u p0d p1d q0u q1u q0d q1d : bool) s :
  let s' := evse_init_jumper p0u p1u p0d p1d s in
  let t' := evse_init_jumper q0u q1u q0d q1d s in
  (config_jumper_current (evse s') = EVSE_CONFIG_JUMPER_UNCONFIGURED
   <-> p0u && p0d && p1u && p1d || negb p0u && p0d || negb p1u && p1d = true)
  /\ (config_jumper_current (evse s') <> EVSE_CONFIG_JUMPER_UNCONFIGURED ->
      config_jumper_current (evse s') = config_jumper_current (evse t') ->
      (p0u, p1u, p0d, p1d) = (q0u, q1u, q0d, q1d))
  /\ (config_jumper_current (evse s') <> EVSE_CONFIG_JUMPER_UNCONFIGURED ->
      config_jumper_current (evse s') <> EVSE_CONFIG_JUMPER_SOFTWARE ->
      6000 <= iec61851_get_ma_from_jumper s' <= 32000).
Proof.
  cbv zeta. split; [|split].
  - destruct p0u, p1u, p0d, p1d; cbn; split; congruence.
  - destruct p0u, p1u, p0d, p1d; cbn; intros Hne; try congruence;
      destruct q0u, q1u, q0d, q1d; cbn; congruence.
  - unfold iec61851_get_ma_from_jumper.
    destruct p0u, p1u, p0d, p1d; cbn; intros Hne Hsw; try congruence; lia.
Qed.

Lemma evse_init_jumper_decoding_witness :
  6000 <= iec61851_get_ma_from_jumper
            (evse_init_jumper true false false false (waiting_system 2700 0))
       <= 32000.
Proof.
  destruct (evse_init_jumper_decoding true false false false
              true false false false (waiting_system 2700 0))
    as (_ & _ & Hma).
  apply Hma; cbn; discriminate.
Defined.

(** ** The properties on the example boards *)

Lemma example_slots_uint32 :
  Forall (fun e => is_uint32 e.1) (@slot_entries example_externals example_slots).
Proof.
  let l := eval vm_compute in (@slot_entries example_externals example_slots) in
  change (Forall (fun e : Z * bool => is_uint32 e.1) l).
  repeat (constructor; [unfold is_uint32; cbn; lia|]). constructor.
Qed.

Lemma example_slots_clearing_uint32 :
  Forall (fun e => is_uint32 e.1)
         (@slot_entries example_externals example_slots_clearing).
Proof.
  let l := eval vm_compute in
    (@slot_entries example_externals example_slots_clearing) in
  change (Forall (fun e : Z * bool => is_uint32 e.1) l).
  repeat (constructor; [unfold is_uint32; cbn; lia|]). constructor.
Qed.

(** X4 on the scenario table: the ceiling is at most the 20 A of the
    outgoing cable. *)
Lemma charging_slot_get_max_current_bounded_witness :
  0 <= @charging_slot_get_max_current example_externals (waiting_system 2700 0)
    < 65535
  /\ @charging_slot_get_max_current example_externals (waiting_system 2700 0)
     <= 20000.
Proof.
  destruct (@charging_slot_get_max_current_bounded example_externals
              (waiting_system 2700 0) example_slots_uint32) as [Hb Hle].
  split; [exact Hb|].
  apply (Hle 1%nat); [cbn; lia|reflexivity].
Defined.

(** X6 with the button slot marked clear-on-disconnect. *)
Lemma charging_slot_handle_disconnect_blocks_witness :
  let s := with_charging_slot (fun _ => example_slots_clearing)
             (waiting_system 2700 0) in
  max_current
    (charging_slot (@charging_slot_handle_disconnect example_externals s))
    !! 4%nat = Some 0
  /\ @charging_slot_get_max_current example_externals
       (@charging_slot_handle_disconnect example_externals s) = 0.
Proof.
  cbv zeta.
  apply (@charging_slot_handle_disconnect_blocks example_externals
           (with_charging_slot (fun _ => example_slots_clearing)
              (waiting_system 2700 0)) 4%nat).
  - exact example_slots_clearing_uint32.
  - cbn. lia.
  - vm_compute. lia.
  - reflexivity.
  - reflexivity.
Defined.

(** X7 on the scenario table, where the button slot is active. *)
Lemma charging_slot_stop_charging_by_button_blocks_witness :
  @charging_slot_get_max_current example_externals
    (@charging_slot_stop_charging_by_button example_externals
       (waiting_system 2700 0)) = 0.
Proof.
  destruct (@charging_slot_stop_charging_by_button_blocks example_externals
              (waiting_system 2700 0) example_slots_uint32)
    as (_ & _ & Hzero).
  - cbn. lia.
  - vm_compute. lia.
  - apply Hzero. reflexivity.
Defined.

(** X8 on the scenario table: the latch is clear and the button slot is
    not cleared on disconnect, so the start restores 32 A. *)
Lemma charging_slot_start_after_stop_witness :
  max_current
    (charging_slot
       (@charging_slot_start_charging_by_button example_externals
          (@charging_slot_stop_charging_by_button example_externals
             (waiting_system 2700 0))))
    !! 4%nat = Some 32000.
Proof.
  destruct (@charging_slot_start_after_stop example_externals
              (waiting_system 2700 0)) as [_ Hstart].
  - vm_compute. lia.
  - apply Hstart. reflexivity.
Defined.

(** X10: going from 266 permille to an idle pilot changes the compare
    value. *)
Lemma evse_set_cp_duty_cycle_blackout_witness :
  2 <= cp_invalid_counter
         (ads1118 (evse_set_cp_duty_cycle 1000 (waiting_system 2700 0))).
Proof.
  destruct (evse_set_cp_duty_cycle_blackout 1000 (waiting_system 2700 0))
    as (_ & _ & _ & Hchg).
  apply Hchg. vm_compute. lia.
Defined.

(** X12: closing the contactor of the waiting board. *)
Lemma evse_set_output_blackout_witness :
  let s' := evse_set_output 333 true (waiting_system 880 0) in
  4 <= cp_invalid_counter (ads1118 s')
  /\ 4 <= pp_invalid_counter (ads1118 s')
  /\ 5 <= cc_invalid_counter (contactor_check s').
Proof.
  destruct (evse_set_output_blackout 333 true (waiting_system 880 0))
    as (_ & _ & _ & Hchg).
  apply Hchg. vm_compute. discriminate.
Defined.

(** X15: the waiting board reads 880 ohm and the tick closes the
    contactor. *)
Lemma iec61851_tick_closes_only_in_C_witness :
  relay_pin (waiting_system 880 0) = true
  \/ state (iec61851 (@iec61851_tick example_externals (waiting_system 880 0)))
     = IEC61851_STATE_C.
Proof.
  apply (@iec61851_tick_closes_only_in_C example_externals
           (waiting_system 880 0)).
  reflexivity.
Defined.

(** X16: a contactor-check error while charging. *)
Lemma iec61851_tick_fault_witness :
  let s := charging_system 880 0 1 5000 in
  state (iec61851 (@iec61851_tick example_externals s)) = IEC61851_STATE_EF
  /\ evse_get_cp_duty_cycle (@iec61851_tick example_externals s) = 1000
  /\ (relay_pin (@iec61851_tick example_externals s) = true ->
      relay_pin s = true).
Proof.
  cbv zeta.
  apply (@iec61851_tick_fault example_externals (charging_system 880 0 1 5000)).
  - reflexivity.
  - left. cbn. lia.
Defined.

(** X17: the latch set while a vehicle waits. *)
Lemma iec61851_tick_button_latch_witness :
  let s := with_button (set_was_pressed true) (waiting_system 2700 5000) in
  state (iec61851 (@iec61851_tick example_externals s)) = IEC61851_STATE_A
  /\ evse_get_cp_duty_cycle (@iec61851_tick example_externals s) = 1000.
Proof.
  cbv zeta.
  apply (@iec61851_tick_button_latch example_externals
           (with_button (set_was_pressed true) (waiting_system 2700 5000))).
  - reflexivity.
  - reflexivity.
  - cbn. discriminate.
  - reflexivity.
Defined.

(** X18: a board whose jumper pins both read high, over two ticks. *)
Lemma iec61851_run_unconfigured_witness :
  state (iec61851
           (@iec61851_run example_externals
              [mkReading 100 2700; mkReading 200 880]
              (evse_init_jumper true true true true (waiting_system 2700 0))))
  = IEC61851_STATE_EF.
Proof.
  apply (@iec61851_run_unconfigured example_externals
           [mkReading 100 2700; mkReading 200 880]
           (evse_init_jumper true true true true (waiting_system 2700 0))).
  - reflexivity.
  - reflexivity.
  - discriminate.
Defined.



(** X22: charging since clock reading 1234. *)
Lemma iec61851_tick_keeps_charging_time_witness :
  charging_time
    (evse (@iec61851_tick example_externals
             (with_evse (set_charging_time 1234)
                        (charging_system 880 0 0 5000))))
  = 1234.
Proof.
  apply (@iec61851_tick_keeps_charging_time example_externals
           (with_evse (set_charging_time 1234)
                      (charging_system 880 0 0 5000))).
  cbn. lia.
Defined.

(** X23: after startup the waiting board reads 880 ohm. *)
Lemma evse_tick_closes_only_in_C_witness :
  let f := running_firmware 0 (waiting_system 880 0) in
  in_startup_hold f = false
  /\ calibration_state (evse (sys f)) = 0
  /\ calibration_error f = false
  /\ state (iec61851
              (sys (outcome_firmware (@evse_tick example_externals f))))
     = IEC61851_STATE_C
  /\ @evse_tick example_externals f
     = Returned (outcome_firmware (@evse_tick example_externals f)).
Proof.
  cbv zeta.
  apply (@evse_tick_closes_only_in_C example_externals
           (running_firmware 0 (waiting_system 880 0)));
    reflexivity.
Defined.


(** X25: the last communication was 400 s ago and a vehicle is waiting. *)
Lemma evse_tick_watchdog_spares_vehicle_witness :
  let f := running_firmware 1 (waiting_system 2700 400000) in
  @evse_tick example_externals f
  = Returned (with_sys (@iec61851_tick example_externals) f).
Proof.
  cbv zeta.
  apply (@evse_tick_watchdog_spares_vehicle example_externals
           (running_firmware 1 (waiting_system 2700 400000))).
  - reflexivity.
  - reflexivity.
  - reflexivity.
  - reflexivity.
  - reflexivity.
  - cbn. discriminate.
  - reflexivity.
  - reflexivity.
  - unfold IEC61851_CP_RESISTANCE_STATE_A. cbn. lia.
Defined.

Lemma waiting_system_id3_waiting cp now : id3_waiting (waiting_system cp now).
Proof.
  unfold id3_waiting. repeat split; try reflexivity; discriminate.
Qed.

(** The deferral run on the charging board: requests at 1000 ms and
    2000 ms are held, the one at 4000 ms opens the contactor. *)
Lemma evse_set_output_run_deferral_witness :
  let s := charging_system 880 0 0 0 in
  relay_pin (evse_set_output_run 1000 false
               [mkReading 1000 880; mkReading 2000 880] s) = true
  /\ relay_pin (evse_set_output_run 1000 false
                  [mkReading 1000 880; mkReading 2000 880; mkReading 4000 880]
                  s) = false.
Proof.
  cbv zeta.
  destruct (evse_set_output_run_deferral 1000 (mkReading 1000 880)
              [mkReading 2000 880] (charging_system 880 0 0 0))
    as [Hhold Hopen].
  - right. reflexivity.
  - reflexivity.
  - reflexivity.
  - unfold IEC61851_CP_RESISTANCE_STATE_B. cbn. lia.
  - cbn. lia.
  - split.
    + apply Hhold. constructor; [split|constructor].
      * unfold IEC61851_CP_RESISTANCE_STATE_B. cbn. lia.
      * vm_compute. reflexivity.
    + apply (Hopen (mkReading 4000 880)). vm_compute. discriminate.
Defined.

(** A spike first seen at 1000 ms and still there at 1400 ms is held. *)
Lemma iec61851_run_spike_holds_witness :
  state (iec61851
           (@iec61851_run example_externals
              [mkReading 1000 40000; mkReading 1400 40000]
              (waiting_system 2700 0)))
  = IEC61851_STATE_B
  /\ id3_mode_time
       (iec61851
          (@iec61851_run example_externals
             [mkReading 1000 40000; mkReading 1400 40000]
             (waiting_system 2700 0)))
     = 1000.
Proof.
  apply (@iec61851_run_spike_holds example_externals
           (mkReading 1000 40000) [mkReading 1400 40000]
           (waiting_system 2700 0)).
  - apply waiting_system_id3_waiting.
  - reflexivity.
  - unfold IEC61851_CP_RESISTANCE_STATE_A. cbn. lia.
  - cbn. lia.
  - constructor; [split|constructor].
    + unfold IEC61851_CP_RESISTANCE_STATE_A. cbn. lia.
    + vm_compute. reflexivity.
Defined.

(** The same spike, still there at 1600 ms, ends the session. *)
Lemma iec61851_run_spike_releases_witness :
  state (iec61851
           (@iec61851_run example_externals
              [mkReading 1000 40000; mkReading 1400 40000;
               mkReading 1600 40000]
              (waiting_system 2700 0)))
  = IEC61851_STATE_A.
Proof.
  apply (@iec61851_run_spike_releases example_externals
           (mkReading 1000 40000) [mkReading 1400 40000]
           (mkReading 1600 40000) (waiting_system 2700 0)).
  - apply waiting_system_id3_waiting.
  - reflexivity.
  - unfold IEC61851_CP_RESISTANCE_STATE_A. cbn. lia.
  - cbn. lia.
  - constructor; [split|constructor].
    + unfold IEC61851_CP_RESISTANCE_STATE_A. cbn. lia.
    + vm_compute. reflexivity.
  - unfold IEC61851_CP_RESISTANCE_STATE_A. cbn. lia.
  - vm_compute. discriminate.
Defined.
